(** * Quiz web app: validation, grading, session store and controller

    A shallow embedding of [utils.js] (validateQuestion, validateQuizData,
    getCorrectAnswers, isMultiAnswerQuestion, getOptionText, shuffleArray,
    prepareQuestionForDisplay, gradeQuiz, saveQuizState, loadQuizState,
    clearQuizState, formatTime, getQuizTitle, getQuestionImagePath) and of
    the [QuizApp] class (starting and restarting a quiz, answers and
    navigation, countdown and autosave, submission), together with the
    properties of the specification that concern them and further
    properties of the code. *)

From Stdlib Require Import ZArith List String Ascii Bool Lia.
From Stdlib Require Import DecimalN DecimalString DecimalNat Permutation.
From Stdlib Require Import Floats Uint63.
From stdpp Require Import gmap strings list fin_maps.

Set Warnings "-register-all".

Local Open Scope Z_scope.
Local Open Scope nat_scope.
Local Open Scope string_scope.
Local Open Scope list_scope.
Local Open Scope stdpp_scope.

(** ** JavaScript values

    The data handled by the program comes out of [JSON.parse], plus the
    strings, booleans and arrays the program builds itself.  Objects are
    kept as association lists in property enumeration order (the order
    [Object.keys] and [Object.entries] report); a key occurs at most once.
    Numbers in the data are integers (indices, counts, timestamps in
    milliseconds), which double arithmetic represents exactly below 2^53.
    [prop] reads the properties an object has of its own.  The names the
    program reads with a fixed key (question_text, question_option,
    answer_option, ...) are inherited by no object, so that for them this
    is the whole of a property read; where the program reads a statistics
    entry under a key taken from the data, what every object inherits from
    [Object.prototype] is taken into account ([inherited], below). *)

Inductive value : Type :=
| VUndefined
| VNull
| VBool (b : bool)
| VNum (n : Z)
| VStr (s : string)
| VArr (elems : list value)
| VObj (props : list (string * value)).

(** A call either returns or raises; the only exception the modelled code
    can raise on this data is a [TypeError] (a property read on [null] or
    [undefined], a call of something that is not a function, or the
    conversion to a string of an object that cannot be converted). *)

Inductive result (A : Type) : Type :=
| Ok (a : A)
| TypeError.

Arguments Ok {A} a.
Arguments TypeError {A}.

#[global] Instance result_ret : MRet result := fun _ a => Ok a.

#[global] Instance result_bind : MBind result := fun _ _ k r =>
  match r with
  | Ok a => k a
  | TypeError => TypeError
  end.

(** [l.map(f)] where the callback may raise: the first failure aborts. *)
Fixpoint mapM {A B : Type} (f : A -> result B) (l : list A) : result (list B) :=
  match l with
  | [] => Ok []
  | x :: r => y ← f x; ys ← mapM f r; Ok (y :: ys)
  end.

(** *** Strings *)

Definition is_lower (c : ascii) : bool :=
  Nat.leb 97 (nat_of_ascii c) && Nat.leb (nat_of_ascii c) 122.

Definition is_upper (c : ascii) : bool :=
  Nat.leb 65 (nat_of_ascii c) && Nat.leb (nat_of_ascii c) 90.

Definition upper_ascii (c : ascii) : ascii :=
  if is_lower c then ascii_of_nat (nat_of_ascii c - 32) else c.

Definition lower_ascii (c : ascii) : ascii :=
  if is_upper c then ascii_of_nat (nat_of_ascii c + 32) else c.

Fixpoint map_string (f : ascii -> ascii) (s : string) : string :=
  match s with
  | EmptyString => EmptyString
  | String c r => String (f c) (map_string f r)
  end.

(** [String.prototype.toUpperCase] and [toLowerCase] on ASCII text, where
    they change the letters a-z and A-Z and nothing else.  Text with other
    characters is outside what these two definitions describe: the
    properties that depend on the folding of a text assume that it is ASCII
    ([ascii_text], below). *)
Definition toUpperCase (s : string) : string := map_string upper_ascii s.
Definition toLowerCase (s : string) : string := map_string lower_ascii s.

(** [n.toString()] for an array index or a count. *)
Definition string_of_nat (n : nat) : string :=
  NilEmpty.string_of_uint (Nat.to_uint n).

Definition string_of_Z (n : Z) : string :=
  NilEmpty.string_of_int (Z.to_int n).

(** [strs.join(sep)] on strings. *)
Fixpoint join (sep : string) (strs : list string) : string :=
  match strs with
  | [] => ""
  | [s] => s
  | s :: r => s +:+ sep +:+ join sep r
  end.

(** *** Generic operations on values *)

(** Truthiness, as [if (v)], [!v], [a && b] and [a || b] test it. *)
Definition truthy (v : value) : bool :=
  match v with
  | VUndefined | VNull => false
  | VBool b => b
  | VNum n => negb (Z.eqb n 0)
  | VStr s => negb (String.eqb s "")
  | VArr _ | VObj _ => true
  end.

Definition typeof (v : value) : string :=
  match v with
  | VUndefined => "undefined"
  | VNull | VArr _ | VObj _ => "object"
  | VBool _ => "boolean"
  | VNum _ => "number"
  | VStr _ => "string"
  end.

Definition isArray (v : value) : bool :=
  match v with VArr _ => true | _ => false end.

(** [a.length] of an array. *)
Definition arrayLength (v : value) : nat :=
  match v with VArr elems => length elems | _ => 0 end.

(** [a == b] on numbers and strings, [===] on values: two arrays or two
    objects are equal only when they are the same reference, and the values
    compared here (an option record's key and an answer) never are. *)
Definition strictEq (a b : value) : bool :=
  match a, b with
  | VUndefined, VUndefined => true
  | VNull, VNull => true
  | VBool x, VBool y => Bool.eqb x y
  | VNum x, VNum y => Z.eqb x y
  | VStr x, VStr y => String.eqb x y
  | _, _ => false
  end.

Fixpoint lookup_prop (k : string) (props : list (string * value)) : value :=
  match props with
  | [] => VUndefined
  | (k', v) :: r => if String.eqb k k' then v else lookup_prop k r
  end.

(** The index a property name denotes, when it is the decimal form of one. *)
Definition index_of_name (k : string) : option nat :=
  match NilEmpty.uint_of_string k with
  | Some d => if String.eqb (string_of_nat (Nat.of_uint d)) k
              then Some (Nat.of_uint d) else None
  | None => None
  end.

(** [o[k]] and [o.k] on a receiver that is neither [null] nor [undefined]. *)
Definition prop (o : value) (k : string) : value :=
  match o with
  | VObj props => lookup_prop k props
  | VArr elems =>
      if String.eqb k "length" then VNum (Z.of_nat (length elems))
      else match index_of_name k with
           | Some i => nth i elems VUndefined
           | None => VUndefined
           end
  | VStr s =>
      if String.eqb k "length" then VNum (Z.of_nat (String.length s))
      else match index_of_name k with
           | Some i => match String.get i s with
                       | Some c => VStr (String c EmptyString)
                       | None => VUndefined
                       end
           | None => VUndefined
           end
  | _ => VUndefined
  end.

(** A property read raises on [null] and [undefined]. *)
Definition getProp (o : value) (k : string) : result value :=
  match o with
  | VUndefined | VNull => TypeError
  | _ => Ok (prop o k)
  end.

(** [o[k] = v]: an existing property keeps its place, a new one goes last. *)
Fixpoint set_prop (k : string) (v : value) (props : list (string * value))
  : list (string * value) :=
  match props with
  | [] => [(k, v)]
  | (k', v') :: r =>
      if String.eqb k k' then (k, v) :: r else (k', v') :: set_prop k v r
  end.

(** [Object.entries(o)] and [Object.keys(o)], for the arrays and objects
    they are applied to. *)
Definition entries (o : value) : list (string * value) :=
  match o with
  | VObj props => props
  | VArr elems => imap (fun i x => (string_of_nat i, x)) elems
  | _ => []
  end.

Definition keys (o : value) : list string := map fst (entries o).

(** [v.toUpperCase()] and [v.toLowerCase()]: only strings have the method. *)
Definition callToUpperCase (v : value) : result string :=
  match v with
  | VStr s => Ok (toUpperCase s)
  | _ => TypeError
  end.

Definition callToLowerCase (v : value) : result string :=
  match v with
  | VStr s => Ok (toLowerCase s)
  | _ => TypeError
  end.

(** [k] is the name of a property the object has of its own. *)
Definition has_own (k : string) (props : list (string * value)) : bool :=
  existsb (fun kv => String.eqb k kv.1) props.

(** [String(v)], as template literals and property keys apply it.  An
    array is converted by joining its elements, [null] and [undefined]
    among them printing as the empty string.  An object is converted by
    the [toString] it has or inherits: the inherited one yields
    [[object Object]]; one of its own hides it, and as no value of the data
    is a function the conversion then raises (the [valueOf] tried next
    gives no primitive value either). *)
Fixpoint toStr (v : value) : result string :=
  match v with
  | VUndefined => Ok "undefined"
  | VNull => Ok "null"
  | VBool b => Ok (if b then "true" else "false")
  | VNum n => Ok (string_of_Z n)
  | VStr s => Ok s
  | VArr elems =>
      strs ← (fix each (l : list value) : result (list string) :=
                match l with
                | [] => Ok []
                | x :: r =>
                    s ← match x with
                        | VUndefined | VNull => Ok ""
                        | _ => toStr x
                        end;
                    ss ← each r;
                    Ok (s :: ss)
                end) elems;
      Ok (join "," strs)
  | VObj props =>
      if has_own "toString" props then TypeError else Ok "[object Object]"
  end.

(** The element conversion of [Array.prototype.join]. *)
Definition joinElem (v : value) : result string :=
  match v with
  | VUndefined | VNull => Ok ""
  | _ => toStr v
  end.

Definition joinValues (sep : string) (elems : list value) : result string :=
  strs ← mapM joinElem elems;
  Ok (join sep strs).

(** ** Schema validator ([validateQuestion]) *)

Record Validation : Type := {
  isValid : bool;
  errors : list string
}.

(** The start of every diagnostic of question [index]:
    [`Domanda ${index + 1}: `]. *)
Definition label (index : nat) : string :=
  "Domanda " +:+ string_of_nat (index + 1) +:+ ": ".

Definition msg_not_object : string := "Non è un oggetto valido".
Definition msg_text : string := "Manca question_text o non è una stringa".
Definition msg_no_option : string := "Manca question_option".
Definition msg_two_options : string := "Deve avere almeno 2 opzioni".
Definition msg_option_shape : string :=
  "question_option deve essere un array o un oggetto".
Definition msg_answer : string := "Manca answer_option o non è una stringa".

(** The three blocks that follow the object test, each pushing at most one
    diagnostic. *)
Definition question_text_errors (question : value) (index : nat) : list string :=
  if negb (truthy (prop question "question_text"))
     || negb (String.eqb (typeof (prop question "question_text")) "string")
  then [label index +:+ msg_text] else [].

Definition question_option_errors (question : value) (index : nat) : list string :=
  if negb (truthy (prop question "question_option")) then
    [label index +:+ msg_no_option]
  else if isArray (prop question "question_option") then
    if Nat.ltb (arrayLength (prop question "question_option")) 2
    then [label index +:+ msg_two_options] else []
  else if String.eqb (typeof (prop question "question_option")) "object" then
    let optionKeys := keys (prop question "question_option") in
    if Nat.ltb (length optionKeys) 2
    then [label index +:+ msg_two_options] else []
  else [label index +:+ msg_option_shape].

Definition answer_option_errors (question : value) (index : nat) : list string :=
  if negb (truthy (prop question "answer_option"))
     || negb (String.eqb (typeof (prop question "answer_option")) "string")
  then [label index +:+ msg_answer] else [].

Definition validateQuestion (question : value) (index : nat) : Validation :=
  if negb (truthy question) || negb (String.eqb (typeof question) "object") then
    {| isValid := false; errors := [label index +:+ msg_not_object] |}
  else
    let errors :=
      question_text_errors question index
      ++ question_option_errors question index
      ++ answer_option_errors question index in
    {| isValid := Nat.eqb (length errors) 0; errors := errors |}.

(** ** Question normalizer: answers and option texts *)

Definition getOptionText (question optionKey : value) : result value :=
  question_option ← getProp question "question_option";
  if negb (truthy question_option) then Ok (VStr "")
  else
    match question_option with
    | VArr elems =>
        match List.find (fun opt => truthy opt
                                && String.eqb (typeof opt) "object"
                                && strictEq (prop opt "option") optionKey) elems with
        | Some option =>
            if truthy option && truthy (prop option "option_text")
            then Ok (prop option "option_text") else Ok (VStr "")
        | None => Ok (VStr "")
        end
    | _ =>
        if String.eqb (typeof question_option) "object" then
          lowerKey ← callToLowerCase optionKey;
          if truthy (prop question_option lowerKey)
          then Ok (prop question_option lowerKey) else Ok (VStr "")
        else Ok (VStr "")
    end.

Definition isMultiAnswerQuestion (question : value) : result bool :=
  answer_option_text ← getProp question "answer_option_text";
  if negb (truthy answer_option_text) then Ok false
  else if String.eqb (typeof answer_option_text) "object" then
    Ok (Nat.ltb 1 (length (keys answer_option_text)))
  else Ok false.

Definition getCorrectAnswers (question : value) : result (list string) :=
  answer_option_text ← getProp question "answer_option_text";
  if truthy answer_option_text
     && String.eqb (typeof answer_option_text) "object" then
    Ok (map toUpperCase (keys answer_option_text))
  else if truthy (prop question "answer_option") then
    key ← callToUpperCase (prop question "answer_option");
    Ok [key]
  else Ok [].

(** ** Shuffling

    [Math.random] is the only source of nondeterminism.  A run of
    [shuffleArray] is determined by the numbers it draws: [draws i] stands
    for the draw made in the iteration with loop index [i], and
    [Math.floor(Math.random() * (i + 1))] is the index in [0..i] it
    selects. *)

Definition random_index (draw i : nat) : nat := draw mod (i + 1).

(** [[a[i], a[j]] = [a[j], a[i]]] *)
Definition swap {A : Type} (i j : nat) (a : list A) : list A :=
  match a !! i, a !! j with
  | Some xi, Some xj => <[j:=xi]> (<[i:=xj]> a)
  | _, _ => a
  end.

(** The loop [for (let i = ...; i > 0; i--)], started at index [i]. *)
Fixpoint shuffle_from {A : Type} (draws : nat -> nat) (i : nat)
    (shuffled : list A) : list A :=
  match i with
  | 0 => shuffled
  | S i' =>
      let j := random_index (draws i) i in
      shuffle_from draws i' (swap i j shuffled)
  end.

Definition shuffleArray {A : Type} (draws : nat -> nat) (array : list A) : list A :=
  shuffle_from draws (length array - 1) array.

(** [{...o, k1: v1, ..., kn: vn}] *)
Definition spread (o : value) (updates : list (string * value)) : value :=
  VObj (fold_left (fun props kv => set_prop kv.1 kv.2 props) updates (entries o)).

Definition prepareQuestionForDisplay (draws : nat -> nat) (question : value)
  : result value :=
  question_option ← getProp question "question_option";
  if negb (truthy question_option) then Ok question
  else
    isMultiAnswer ← isMultiAnswerQuestion question;
    match question_option with
    | VArr elems =>
        let shuffledOptions := shuffleArray draws elems in
        Ok (spread question
              [("question_option", VArr shuffledOptions);
               ("original_options", question_option);
               ("isMultiAnswer", VBool isMultiAnswer)])
    | _ =>
        if String.eqb (typeof question_option) "object" then
          let optionEntries := entries question_option in
          let optionArray :=
            map (fun kt => VObj [("option", VStr (toUpperCase kt.1));
                                 ("option_text", kt.2)]) optionEntries in
          let shuffledOptions := shuffleArray draws optionArray in
          Ok (spread question
                [("question_option", VArr shuffledOptions);
                 ("original_options", question_option);
                 ("isMultiAnswer", VBool isMultiAnswer)])
        else
          Ok (spread question [("isMultiAnswer", VBool isMultiAnswer)])
    end.

(** ** Grading engine ([gradeQuiz]) *)

Module ObjectiveStats.
Record t : Type := {
  total : nat;
  correct : nat;
  incorrect : nat
}.
End ObjectiveStats.

Module QuestionResult.
Record t : Type := {
  question : value;
  correctAnswer : value;
  correctAnswerText : value;
  userAnswer : value;
  userAnswerText : value;
  isCorrect : value;
  explanation : value;
  allExplanations : list (string * value);
  learningObjective : value;
  isMultiAnswer : bool
}.
End QuestionResult.

Module GradingResult.
Record t : Type := {
  score : nat;
  total : nat;
  percentage : float;
  passed : bool;
  results : list QuestionResult.t;
  learningObjectiveStats : list (string * ObjectiveStats.t)
}.
End GradingResult.

(** The accumulators of the [forEach] loop. *)
Record Tally : Type := {
  correctCount : nat;
  results : list QuestionResult.t;
  learningObjectiveStats : list (string * ObjectiveStats.t)
}.

(** [a.includes(x)] on an array of strings. *)
Definition includes (x : string) (a : list string) : bool :=
  existsb (String.eqb x) a.

(** The names of the properties every object inherits from
    [Object.prototype]; each of them holds a function or an object, hence
    a truthy value. *)
Definition Object_prototype : list string :=
  ["constructor"; "hasOwnProperty"; "isPrototypeOf"; "propertyIsEnumerable";
   "toLocaleString"; "toString"; "valueOf"; "__proto__";
   "__defineGetter__"; "__defineSetter__"; "__lookupGetter__";
   "__lookupSetter__"].

Definition inherited (key : string) : bool :=
  existsb (String.eqb key) Object_prototype.

(** The statistics block: create the entry of [key] when
    [learningObjectiveStats[key]] is falsy, then [total++] and [correct++]
    or [incorrect++] on [learningObjectiveStats[key]].  The read finds the
    entry the object has of its own, and else what the object inherits:
    under an inherited name without entry the test finds a truthy value, no
    entry is created, and the increments go to the inherited value, which
    is no part of the statistics. *)
Definition count_answer (isCorrect : bool) (s : ObjectiveStats.t) : ObjectiveStats.t :=
  {| ObjectiveStats.total := ObjectiveStats.total s + 1;
     ObjectiveStats.correct :=
       if isCorrect then ObjectiveStats.correct s + 1 else ObjectiveStats.correct s;
     ObjectiveStats.incorrect :=
       if isCorrect then ObjectiveStats.incorrect s else ObjectiveStats.incorrect s + 1 |}.

Fixpoint track_objective (key : string) (isCorrect : bool)
    (stats : list (string * ObjectiveStats.t)) : list (string * ObjectiveStats.t) :=
  match stats with
  | [] =>
      if inherited key then []
      else [(key, count_answer isCorrect
                    {| ObjectiveStats.total := 0; ObjectiveStats.correct := 0;
                       ObjectiveStats.incorrect := 0 |})]
  | (k, s) :: r =>
      if String.eqb key k then (k, count_answer isCorrect s) :: r
      else (k, s) :: track_objective key isCorrect r
  end.

(** [Object.entries(o).forEach(([key, text]) =>
       allExplanations[key.toUpperCase()] = text)] *)
Definition add_explanations (o : value) (allExplanations : list (string * value))
  : list (string * value) :=
  fold_left (fun acc kt => set_prop (toUpperCase kt.1) kt.2 acc)
            (entries o) allExplanations.

Definition newline : string := String (ascii_of_nat 10) EmptyString.

(** [Array.isArray(userAnswer) ? userAnswer : (userAnswer ? [userAnswer] : [])] *)
Definition selections (userAnswer : value) : list value :=
  if isArray userAnswer
  then match userAnswer with VArr elems => elems | _ => [] end
  else if truthy userAnswer then [userAnswer] else [].

(** The comparison of the submitted answer with the correct ones. *)
Definition checkAnswer (question userAnswer : value) (correctAnswers : list string)
    (isMultiAnswer : bool) : result value :=
  if isMultiAnswer then
    let userSelections := selections userAnswer in
    userSelectionsUpper ← mapM callToUpperCase userSelections;
    let correctAnswersUpper := map toUpperCase correctAnswers in
    Ok (VBool (Nat.eqb (length correctAnswersUpper) (length userSelectionsUpper)
               && forallb (fun ans => includes ans userSelectionsUpper)
                          correctAnswersUpper))
  else
    let correctAnswer := prop question "answer_option" in
    if truthy userAnswer then
      given ← callToLowerCase userAnswer;
      expected ← callToLowerCase correctAnswer;
      Ok (VBool (String.eqb given expected))
    else Ok userAnswer.

(** The explanation text and the per-option explanations. *)
Definition explain (question : value) (isMultiAnswer : bool)
  : result (value * list (string * value)) :=
  let answer_option_text := prop question "answer_option_text" in
  if truthy answer_option_text then
    if String.eqb (typeof answer_option_text) "string" then
      Ok (answer_option_text, [])
    else if String.eqb (typeof answer_option_text) "object" then
      if isMultiAnswer then
        explanationParts ←
          mapM (fun kt => text ← toStr kt.2;
                          Ok (toUpperCase kt.1 +:+ ": " +:+ text))
               (entries answer_option_text);
        Ok (VStr (join (newline +:+ newline) explanationParts),
            add_explanations answer_option_text [])
      else
        let correctAnswer := prop question "answer_option" in
        lowerCorrectAnswer ← callToLowerCase correctAnswer;
        let found := prop answer_option_text lowerCorrectAnswer in
        Ok (if truthy found then found else VStr "",
            add_explanations answer_option_text [])
    else Ok (VStr "", [])
  else Ok (VStr "", []).

Definition no_answer : value := VStr "Nessuna risposta".

(** The four display strings: correct answer, its text, user answer, its
    text. *)
Definition display (question userAnswer : value) (correctAnswers : list string)
    (isMultiAnswer : bool) : result (value * value * value * value) :=
  if isMultiAnswer then
    let correctAnswerDisplay := VStr (join ", " correctAnswers) in
    texts ← mapM (fun ans => getOptionText question (VStr ans)) correctAnswers;
    correctTexts ← joinValues "; " texts;
    let correctAnswerTextDisplay := VStr correctTexts in
    if isArray userAnswer && Nat.ltb 0 (arrayLength userAnswer) then
      let elems := match userAnswer with VArr elems => elems | _ => [] end in
      userAnswerDisplay ← joinValues ", " elems;
      userTexts ← mapM (fun ans => getOptionText question ans) elems;
      userAnswerTextDisplay ← joinValues "; " userTexts;
      Ok (correctAnswerDisplay, correctAnswerTextDisplay,
          VStr userAnswerDisplay, VStr userAnswerTextDisplay)
    else if truthy userAnswer then
      userText ← getOptionText question userAnswer;
      Ok (correctAnswerDisplay, correctAnswerTextDisplay, userAnswer, userText)
    else
      Ok (correctAnswerDisplay, correctAnswerTextDisplay, no_answer, no_answer)
  else
    let correctAnswer := prop question "answer_option" in
    correctText ← getOptionText question correctAnswer;
    userText ← (if truthy userAnswer then getOptionText question userAnswer
                else Ok no_answer);
    Ok (correctAnswer, correctText,
        if truthy userAnswer then userAnswer else no_answer, userText).

(** The body of [questions.forEach((question, index) => ...)]. *)
Definition gradeQuestion (userAnswers : value) (acc : Tally)
    (question : value) (index : nat) : result Tally :=
  let questionId := string_of_nat index in
  userAnswer ← getProp userAnswers questionId;
  correctAnswers ← getCorrectAnswers question;
  isMultiAnswer ← isMultiAnswerQuestion question;
  isCorrect ← checkAnswer question userAnswer correctAnswers isMultiAnswer;
  let correctCount :=
    if truthy isCorrect then correctCount acc + 1 else correctCount acc in
  let learningObjective := prop question "learning_objective" in
  learningObjectiveStats ←
    (if truthy learningObjective
     then key ← toStr learningObjective;
          Ok (track_objective key (truthy isCorrect)
                              (learningObjectiveStats acc))
     else Ok (learningObjectiveStats acc));
  '(explanation, allExplanations) ← explain question isMultiAnswer;
  let allExplanations :=
    if truthy (prop question "no_answer_option_text")
       && String.eqb (typeof (prop question "no_answer_option_text")) "object"
    then add_explanations (prop question "no_answer_option_text") allExplanations
    else allExplanations in
  '(correctAnswerDisplay, correctAnswerTextDisplay,
    userAnswerDisplay, userAnswerTextDisplay) ←
    display question userAnswer correctAnswers isMultiAnswer;
  Ok {| correctCount := correctCount;
        results := results acc ++
          [{| QuestionResult.question := prop question "question_text";
              QuestionResult.correctAnswer := correctAnswerDisplay;
              QuestionResult.correctAnswerText := correctAnswerTextDisplay;
              QuestionResult.userAnswer := userAnswerDisplay;
              QuestionResult.userAnswerText := userAnswerTextDisplay;
              QuestionResult.isCorrect := isCorrect;
              QuestionResult.explanation := explanation;
              QuestionResult.allExplanations := allExplanations;
              QuestionResult.learningObjective := learningObjective;
              QuestionResult.isMultiAnswer := isMultiAnswer |}];
        learningObjectiveStats := learningObjectiveStats |}.

(** [questions.forEach], from position [index] on. *)
Fixpoint forEach (userAnswers : value) (questions : list value) (index : nat)
    (acc : Tally) : result Tally :=
  match questions with
  | [] => Ok acc
  | question :: rest =>
      acc' ← gradeQuestion userAnswers acc question index;
      forEach userAnswers rest (index + 1) acc'
  end.

(** Counts are doubles; they are exact. *)
Definition float_of_nat (n : nat) : float :=
  PrimFloat.of_uint63 (Uint63.of_Z (Z.of_nat n)).

(** [Math.round]: the nearest integer, a tie going up. *)
Definition Math_round (x : float) : float :=
  match Prim2SF x with
  | S754_finite s m e =>
      if Z.leb 0 e then x
      else
        let d := Z.pow 2 (- e) in
        let n := if s then Z.neg m else Z.pos m in
        let r := Z.div (2 * n + d) (2 * d) in
        if Z.eqb r 0 then (if s then PrimFloat.neg_zero else PrimFloat.zero)
        else if Z.ltb 0 r then PrimFloat.of_uint63 (Uint63.of_Z r)
        else PrimFloat.opp (PrimFloat.of_uint63 (Uint63.of_Z (- r)))
  | _ => x
  end.

Definition pass_threshold : nat := 26.

Definition gradeQuiz (questions : list value) (userAnswers : value)
  : result GradingResult.t :=
  acc ← forEach userAnswers questions 0
          {| correctCount := 0; results := []; learningObjectiveStats := [] |};
  Ok {| GradingResult.score := correctCount acc;
        GradingResult.total := length questions;
        GradingResult.percentage :=
          Math_round (PrimFloat.mul
                        (PrimFloat.div (float_of_nat (correctCount acc))
                                       (float_of_nat (length questions)))
                        (float_of_nat 100));
        GradingResult.passed := Nat.leb pass_threshold (correctCount acc);
        GradingResult.results := results acc;
        GradingResult.learningObjectiveStats := learningObjectiveStats acc |}.

(** ** Session state store ([loadQuizState])

    [localStorage] maps keys to strings.  [loadQuizState] looks at an entry
    only through its truthiness and through [JSON.parse], so an entry is
    kept as what these make of it. *)

Inductive item : Type :=
| Text (s : string)   (** a string [JSON.parse] rejects, the empty one included *)
| Json (v : value).   (** a string [JSON.parse] accepts, and the value it yields *)

(** The numbers of the expiry test: an integer, or [NaN]. *)
Inductive number : Type :=
| NotANumber
| Num (n : Z).

(** [a - b] and [a < b]. *)
Definition minus (a b : number) : number :=
  match a, b with
  | Num x, Num y => Num (x - y)
  | _, _ => NotANumber
  end.

Definition lessThan (a b : number) : bool :=
  match a, b with
  | Num x, Num y => Z.ltb x y
  | _, _ => false
  end.

(** [const maxAge = 24 * 60 * 60 * 1000] *)
Definition maxAge : Z := 24 * 60 * 60 * 1000.

Section SessionStore.

(** The conversion of a string to a number is the language's; the store
    only relies on it when a snapshot carries a timestamp that is not a
    number. *)
Variable StringToNumber : string -> number.

(** [Date.now()], in milliseconds. *)
Variable now : Z.

Definition toNumber (v : value) : result number :=
  match v with
  | VUndefined => Ok NotANumber
  | VNull => Ok (Num 0)
  | VBool b => Ok (Num (if b then 1 else 0))
  | VNum n => Ok (Num n)
  | VStr s => Ok (StringToNumber s)
  | VArr _ | VObj _ => s ← toStr v; Ok (StringToNumber s)
  end.

(** The body of the [try] block once an entry was found and parsed. *)
Definition check_age (key : string) (state : value)
    (localStorage : gmap string item) : result (value * gmap string item) :=
  timestamp ← getProp state "timestamp";
  written ← toNumber timestamp;
  if lessThan (minus (Num now) written) (Num maxAge)
  then Ok (state, localStorage)
  else Ok (VNull, delete key localStorage).

(** Returns the state, or [null], and the store it leaves behind. *)
Definition loadQuizState (quizName : string) (localStorage : gmap string item)
  : value * gmap string item :=
  let key := "quiz_" +:+ quizName in
  match localStorage !! key with
  | Some (Json state) =>
      match check_age key state localStorage with
      | Ok r => r
      | TypeError => (VNull, localStorage)
      end
  | Some (Text _) | None => (VNull, localStorage)
  end.

End SessionStore.

(** ** Quiz session controller: answers and navigation

    The part of the [QuizApp] state the answer and navigation methods work
    on.  [userAnswers] holds the properties of the answers object, which is
    created empty.  Updates of the page and the autosave leave this state
    as it is. *)

Record QuizApp : Type := {
  currentQuestions : list value;
  currentQuestionIndex : nat;
  userAnswers : list (string * value)
}.

(** The state [initializeNewQuiz] sets up for the prepared questions. *)
Definition newQuiz (questions : list value) : QuizApp :=
  {| currentQuestions := questions;
     currentQuestionIndex := 0;
     userAnswers := [] |}.

Definition selectOption (optionValue : string) (app : QuizApp) : QuizApp :=
  {| currentQuestions := currentQuestions app;
     currentQuestionIndex := currentQuestionIndex app;
     userAnswers :=
       set_prop (string_of_nat (currentQuestionIndex app)) (VStr optionValue)
                (userAnswers app) |}.

Definition selectMultiOption (optionValue : string) (isChecked : bool)
    (app : QuizApp) : QuizApp :=
  let questionIndex := string_of_nat (currentQuestionIndex app) in
  let answers1 :=
    if negb (truthy (lookup_prop questionIndex (userAnswers app)))
    then set_prop questionIndex (VArr []) (userAnswers app)
    else userAnswers app in
  let answers2 :=
    if negb (isArray (lookup_prop questionIndex answers1))
    then set_prop questionIndex (VArr []) answers1
    else answers1 in
  let selected :=
    match lookup_prop questionIndex answers2 with
    | VArr elems => elems
    | _ => []
    end in
  let answers3 :=
    if isChecked then
      if negb (existsb (fun value => strictEq value (VStr optionValue)) selected)
      then set_prop questionIndex (VArr (selected ++ [VStr optionValue])) answers2
      else answers2
    else
      set_prop questionIndex
        (VArr (List.filter (fun value => negb (strictEq value (VStr optionValue)))
                           selected))
        answers2 in
  {| currentQuestions := currentQuestions app;
     currentQuestionIndex := currentQuestionIndex app;
     userAnswers := answers3 |}.

Definition previousQuestion (app : QuizApp) : QuizApp :=
  if Nat.ltb 0 (currentQuestionIndex app) then
    {| currentQuestions := currentQuestions app;
       currentQuestionIndex := currentQuestionIndex app - 1;
       userAnswers := userAnswers app |}
  else app.

Definition nextQuestion (app : QuizApp) : QuizApp :=
  if Z.ltb (Z.of_nat (currentQuestionIndex app))
           (Z.of_nat (length (currentQuestions app)) - 1) then
    {| currentQuestions := currentQuestions app;
       currentQuestionIndex := currentQuestionIndex app + 1;
       userAnswers := userAnswers app |}
  else app.

(** The calls the page makes during an attempt. *)
Inductive event : Type :=
| SelectOption (optionValue : string)
| SelectMultiOption (optionValue : string) (isChecked : bool)
| PreviousQuestion
| NextQuestion.

Definition handle (app : QuizApp) (e : event) : QuizApp :=
  match e with
  | SelectOption optionValue => selectOption optionValue app
  | SelectMultiOption optionValue isChecked =>
      selectMultiOption optionValue isChecked app
  | PreviousQuestion => previousQuestion app
  | NextQuestion => nextQuestion app
  end.

(** The state of an attempt on [questions] after the calls [events]. *)
Definition run (questions : list value) (events : list event) : QuizApp :=
  fold_left handle events (newQuiz questions).

(** ** Validation of a question bank ([validateQuizData]) *)

Module QuizData.
Record t : Type := {
  isValid : bool;
  validQuestions : list value;
  errors : list string
}.
End QuizData.

Definition msg_not_array : string := ": Il file deve contenere un array di domande".
Definition msg_empty_array : string := ": L'array delle domande è vuoto".

(** [data.forEach((question, index) => ...)], from position [index] on, with
    the two arrays it pushes to: the valid questions and the diagnostics. *)
Fixpoint validate_each (filename : string) (data : list value) (index : nat)
    (validQuestions : list value) (diagnostics : list string)
  : list value * list string :=
  match data with
  | [] => (validQuestions, diagnostics)
  | question :: rest =>
      let validation := validateQuestion question index in
      if isValid validation then
        validate_each filename rest (index + 1) (validQuestions ++ [question])
                      diagnostics
      else
        validate_each filename rest (index + 1) validQuestions
          (diagnostics ++ map (fun err => filename +:+ ": " +:+ err)
                              (errors validation))
  end.

Definition validateQuizData (data : value) (filename : string) : QuizData.t :=
  match data with
  | VArr questions =>
      if Nat.eqb (length questions) 0 then
        {| QuizData.isValid := false;
           QuizData.validQuestions := [];
           QuizData.errors := [filename +:+ msg_empty_array] |}
      else
        let '(validQuestions, diagnostics) :=
          validate_each filename questions 0 [] [] in
        {| QuizData.isValid := Nat.ltb 0 (length validQuestions);
           QuizData.validQuestions := validQuestions;
           QuizData.errors := diagnostics |}
  | _ =>
      {| QuizData.isValid := false;
         QuizData.validQuestions := [];
         QuizData.errors := [filename +:+ msg_not_array] |}
  end.

(** ** Saving and clearing a snapshot ([saveQuizState], [clearQuizState]) *)

(** [JSON.parse(JSON.stringify(v))]: a property whose value is [undefined]
    is dropped, and [undefined] in an array becomes [null]; everything else
    comes back as it was. *)
Fixpoint json_copy (v : value) : value :=
  match v with
  | VUndefined => VNull
  | VArr elems => VArr (map json_copy elems)
  | VObj props =>
      VObj ((fix copy_props (ps : list (string * value)) : list (string * value) :=
               match ps with
               | [] => []
               | (k, VUndefined) :: r => copy_props r
               | (k, x) :: r => (k, json_copy x) :: copy_props r
               end) props)
  | _ => v
  end.

(** [setItem] raises when the storage quota is exceeded, and the [catch]
    swallows the exception: [stored] tells whether the write went through.
    [now] is [Date.now()]. *)
Definition saveQuizState (stored : bool) (now : Z) (quizName : string)
    (state : value) (localStorage : gmap string item) : gmap string item :=
  let key := "quiz_" +:+ quizName in
  if stored
  then <[key := Json (json_copy (spread state [("timestamp", VNum now)]))]>
         localStorage
  else localStorage.

Definition clearQuizState (quizName : string) (localStorage : gmap string item)
  : gmap string item :=
  let key := "quiz_" +:+ quizName in
  delete key localStorage.

(** ** Quiz session controller: timer, autosave and submission

    The attempt together with the quiz it belongs to ([null] before a quiz
    is chosen), the seconds left, whether the countdown interval is active,
    and the store. *)

Record QuizSession : Type := {
  attempt : QuizApp;
  currentQuiz : option string;
  timeRemaining : Z;
  timer : bool;
  storage : gmap string item
}.

(** [`${this.currentQuiz}`] *)
Definition quiz_name (currentQuiz : option string) : string :=
  match currentQuiz with
  | Some name => name
  | None => "null"
  end.

(** The state object [saveCurrentState] builds. *)
Definition attempt_state (s : QuizSession) : value :=
  VObj [("questions", VArr (currentQuestions (attempt s)));
        ("currentQuestionIndex",
         VNum (Z.of_nat (currentQuestionIndex (attempt s))));
        ("userAnswers", VObj (userAnswers (attempt s)));
        ("timeRemaining", VNum (timeRemaining s))].

Definition saveCurrentState (stored : bool) (now : Z) (s : QuizSession)
  : QuizSession :=
  match currentQuiz s with
  | Some name =>
      if negb (String.eqb name "") && Z.ltb 0 (timeRemaining s) then
        {| attempt := attempt s;
           currentQuiz := currentQuiz s;
           timeRemaining := timeRemaining s;
           timer := timer s;
           storage := saveQuizState stored now name (attempt_state s) (storage s) |}
      else s
  | None => s
  end.

(** [submitQuiz]: stops the countdown, clears the snapshot and grades; the
    result goes to the results page. *)
Definition submitQuiz (s : QuizSession) : QuizSession * result GradingResult.t :=
  ({| attempt := attempt s;
      currentQuiz := currentQuiz s;
      timeRemaining := timeRemaining s;
      timer := false;
      storage := clearQuizState (quiz_name (currentQuiz s)) (storage s) |},
   gradeQuiz (currentQuestions (attempt s)) (VObj (userAnswers (attempt s)))).

Definition timeUp (s : QuizSession) : QuizSession * result GradingResult.t :=
  submitQuiz
    {| attempt := attempt s;
       currentQuiz := currentQuiz s;
       timeRemaining := timeRemaining s;
       timer := false;
       storage := clearQuizState (quiz_name (currentQuiz s)) (storage s) |}.

(** The callback of the countdown interval, run once a second while the
    interval is active; it yields a grading when the time is up. *)
Definition tick (stored : bool) (now : Z) (s : QuizSession)
  : QuizSession * option (result GradingResult.t) :=
  let s1 := {| attempt := attempt s;
               currentQuiz := currentQuiz s;
               timeRemaining := timeRemaining s - 1;
               timer := timer s;
               storage := storage s |} in
  let s2 := if Z.eqb (Z.rem (timeRemaining s1) 30) 0
            then saveCurrentState stored now s1 else s1 in
  if Z.leb (timeRemaining s2) 0
  then let '(s3, graded) := timeUp s2 in (s3, Some graded)
  else (s2, None).

(** The selections and moves of the page, acting on the attempt and saving
    after each answer. *)
Definition answer (stored : bool) (now : Z) (e : event) (s : QuizSession)
  : QuizSession :=
  let s1 := {| attempt := handle (attempt s) e;
               currentQuiz := currentQuiz s;
               timeRemaining := timeRemaining s;
               timer := timer s;
               storage := storage s |} in
  match e with
  | SelectOption _ | SelectMultiOption _ _ => saveCurrentState stored now s1
  | PreviousQuestion | NextQuestion => s1
  end.

(** [confirmSubmitQuiz]: the count of answered questions and the message
    put to the user. *)
Definition isAnswered (answer : value) : bool :=
  match answer with
  | VUndefined | VNull => false
  | VArr elems => Nat.ltb 0 (length elems)
  | _ => negb (strictEq answer (VStr ""))
  end.

Definition answeredCount (app : QuizApp) : nat :=
  length (List.filter
            (fun i => isAnswered (lookup_prop (string_of_nat i) (userAnswers app)))
            (seq 0 (length (currentQuestions app)))).

Definition confirmMessage (app : QuizApp) : string :=
  let totalQuestions := length (currentQuestions app) in
  let unansweredCount := totalQuestions - answeredCount app in
  if Nat.ltb 0 unansweredCount
  then "Sei sicuro di voler inviare il quiz?" +:+ newline +:+ newline
       +:+ "Hai " +:+ string_of_nat unansweredCount
       +:+ " domande senza risposta su " +:+ string_of_nat totalQuestions +:+ "."
  else "Sei sicuro di voler inviare il quiz?".

(** [confirmed] is the user's reply to the question. *)
Definition confirmSubmitQuiz (confirmed : bool) (s : QuizSession)
  : QuizSession * option (result GradingResult.t) :=
  if confirmed
  then let '(s', graded) := submitQuiz s in (s', Some graded)
  else (s, None).

(** [initializeNewQuiz]: the bank shuffled, each question prepared, the
    attempt reset and the countdown started.  [draws] decides the order of
    the questions and [optionDraws i] the order of the options of the
    question at position [i]. *)
Fixpoint prepare_each (optionDraws : nat -> nat -> nat) (index : nat)
    (questions : list value) : result (list value) :=
  match questions with
  | [] => Ok []
  | question :: rest =>
      prepared ← prepareQuestionForDisplay (optionDraws index) question;
      others ← prepare_each optionDraws (index + 1) rest;
      Ok (prepared :: others)
  end.

Definition initializeNewQuiz (draws : nat -> nat) (optionDraws : nat -> nat -> nat)
    (quizName : string) (questions : list value) (s : QuizSession)
  : result QuizSession :=
  currentQuestions ← prepare_each optionDraws 0 (shuffleArray draws questions);
  Ok {| attempt := newQuiz currentQuestions;
        currentQuiz := Some quizName;
        timeRemaining := 60 * 60;
        timer := true;
        storage := storage s |}.

(** [restartQuiz]: drop the snapshot of the current quiz, then start it
    afresh.  Without a current quiz the bank lookup yields [undefined] and
    the shuffle raises. *)
Definition restartQuiz (draws : nat -> nat) (optionDraws : nat -> nat -> nat)
    (questions : list value) (s : QuizSession) : result QuizSession :=
  match currentQuiz s with
  | Some name =>
      initializeNewQuiz draws optionDraws name questions
        {| attempt := attempt s;
           currentQuiz := currentQuiz s;
           timeRemaining := timeRemaining s;
           timer := timer s;
           storage := clearQuizState name (storage s) |}
  | None => TypeError
  end.

Definition resetQuizState (s : QuizSession) : QuizSession :=
  {| attempt := newQuiz [];
     currentQuiz := None;
     timeRemaining := 60 * 60;
     timer := false;
     storage := storage s |}.

(** ** Small utilities ([formatTime], [getQuizTitle], [getQuestionImagePath]) *)

(** [s.padStart(2, '0')] *)
Definition padStart2 (s : string) : string :=
  match String.length s with
  | 0 => "00"
  | 1 => "0" +:+ s
  | _ => s
  end.

(** [seconds] is a whole number of seconds; [Math.floor(seconds / 60)] is
    the quotient rounded down and [%] the remainder with the sign of
    [seconds]. *)
Definition formatTime (seconds : Z) : string :=
  let minutes := Z.div seconds 60 in
  let remainingSeconds := Z.rem seconds 60 in
  padStart2 (string_of_Z minutes) +:+ ":" +:+ padStart2 (string_of_Z remainingSeconds).

(** [[^/.]+$]: a non-empty run, up to the end, of characters other than
    [/] and [.]. *)
Fixpoint extension_run (s : string) : bool :=
  match s with
  | EmptyString => false
  | String c r =>
      negb (Ascii.eqb c "/") && negb (Ascii.eqb c ".")
      && match r with
         | EmptyString => true
         | _ => extension_run r
         end
  end.

(** [s.replace(/\.[^/.]+$/, '')]: the leftmost dot followed to the end by
    such a run is where the string is cut. *)
Fixpoint strip_extension (s : string) : string :=
  match s with
  | EmptyString => EmptyString
  | String c r =>
      if Ascii.eqb c "." && extension_run r then EmptyString
      else String c (strip_extension r)
  end.

(** [s.replace(/-/g, ' ')] *)
Definition dashes_to_spaces (s : string) : string :=
  map_string (fun c => if Ascii.eqb c "-" then " "%char else c) s.

Definition getQuizTitle (filename : string) : string :=
  dashes_to_spaces (strip_extension filename).

(** [quizName.match(/-(A|B|C|D)-/)]: the letter of the leftmost match. *)
Definition quiz_letter_char (c : ascii) : bool :=
  Ascii.eqb c "A" || Ascii.eqb c "B" || Ascii.eqb c "C" || Ascii.eqb c "D".

Fixpoint quiz_letter (s : string) : option ascii :=
  match s with
  | EmptyString => None
  | String c r =>
      match r with
      | String l (String d _) =>
          if Ascii.eqb c "-" && quiz_letter_char l && Ascii.eqb d "-"
          then Some l else quiz_letter r
      | _ => quiz_letter r
      end
  end.

Definition getQuestionImagePath (quizName : string) (questionNumber : value)
  : result value :=
  match quiz_letter quizName with
  | None => Ok VNull
  | Some l =>
      let quizLetter := String l EmptyString in
      number ← toStr questionNumber;
      let imagePath1 :=
        "img/" +:+ quizLetter +:+ "/" +:+ number +:+ ".png" in
      let imagePath2 :=
        "img/" +:+ quizLetter +:+ "/" +:+ quizLetter +:+ number +:+ ".png" in
      Ok (VObj [("primary", VStr imagePath1); ("alternative", VStr imagePath2)])
  end.

(** ** Notions of the specification *)

(** A non-empty string. *)
Definition nonEmptyString (v : value) : bool :=
  match v with
  | VStr s => negb (String.eqb s "")
  | _ => false
  end.

(** What the validator takes for an object. *)
Definition isObject (v : value) : bool :=
  truthy v && String.eqb (typeof v) "object".

(** The options check the validator makes: an array of at least two
    entries, or a legacy object of at least two keys. *)
Definition options_checked (v : value) : bool :=
  match v with
  | VArr elems => Nat.leb 2 (length elems)
  | VObj props => Nat.leb 2 (length props)
  | _ => false
  end.

Definition passes_checks (question : value) : bool :=
  isObject question
  && nonEmptyString (prop question "question_text")
  && options_checked (prop question "question_option")
  && nonEmptyString (prop question "answer_option").

(** An option-like entry: an object with a key and a text. *)
Definition optionLike (entry : value) : bool :=
  match entry with
  | VObj _ =>
      nonEmptyString (prop entry "option")
      && String.eqb (typeof (prop entry "option_text")) "string"
  | _ => false
  end.

(** The options check in the words of the specification: the entries of an
    array are option-like. *)
Definition options_checked_spec (v : value) : bool :=
  match v with
  | VArr elems => Nat.leb 2 (length elems) && forallb optionLike elems
  | VObj props => Nat.leb 2 (length props)
  | _ => false
  end.

Definition passes_checks_spec (question : value) : bool :=
  isObject question
  && nonEmptyString (prop question "question_text")
  && options_checked_spec (prop question "question_option")
  && nonEmptyString (prop question "answer_option").

(** The number of per-question checks a raw value fails; a value that is
    not an object fails the one check made on it. *)
Definition failed_checks (question : value) : nat :=
  if isObject question then
    (if nonEmptyString (prop question "question_text") then 0 else 1)
    + (if options_checked (prop question "question_option") then 0 else 1)
    + (if nonEmptyString (prop question "answer_option") then 0 else 1)
  else 1.

(** The canonical option keys of a question: the [option] field of each
    entry of an option array, the upper-cased keys of a legacy object. *)
Definition optionKeys (question : value) : list value :=
  match prop question "question_option" with
  | VArr elems => map (fun opt => prop opt "option") elems
  | VObj props => map (fun kt => VStr (toUpperCase kt.1)) props
  | _ => []
  end.

(** [key] occurs among the option keys, case-insensitively. *)
Definition isOptionKey (question : value) (key : string) : bool :=
  existsb (fun optionKey =>
             match optionKey with
             | VStr s => String.eqb (toUpperCase s) (toUpperCase key)
             | _ => false
             end) (optionKeys question).

(** The correct keys as the bank writes them: the keys of an object-shaped
    [answer_option_text], else [answer_option]. *)
Definition answerSource (question : value) : list string :=
  if truthy (prop question "answer_option_text")
     && String.eqb (typeof (prop question "answer_option_text")) "object"
  then keys (prop question "answer_option_text")
  else match prop question "answer_option" with
       | VStr s => if String.eqb s "" then [] else [s]
       | _ => []
       end.

(** The number of elements of a list of keys taken as a set. *)
Definition cardinal (ks : list string) : nat := length (remove_dups ks).

(** Two selections with the same size and the same members. *)
Definition sameSelection (a b : list string) : Prop :=
  length a = length b /\ forall x, In x a <-> In x b.

(** The values the controller stores: a key, or an array of distinct keys. *)
Definition storedAnswer (v : value) : Prop :=
  (exists s, v = VStr s) \/
  (exists elems, v = VArr elems /\ List.NoDup elems
                 /\ Forall (fun x => exists s, x = VStr s) elems).

(** Results counted as correct. *)
Definition countCorrect (rs : list QuestionResult.t) : nat :=
  length (List.filter (fun r => truthy (QuestionResult.isCorrect r)) rs).

(** [r] is the result [gradeQuiz] records for [question] at position
    [index], read off the calls made while grading it. *)
Definition graded (userAnswers question : value) (index : nat)
    (r : QuestionResult.t) : Prop :=
  exists userAnswer correctAnswers,
    getProp userAnswers (string_of_nat index) = Ok userAnswer
    /\ getCorrectAnswers question = Ok correctAnswers
    /\ isMultiAnswerQuestion question = Ok (QuestionResult.isMultiAnswer r)
    /\ checkAnswer question userAnswer correctAnswers
                   (QuestionResult.isMultiAnswer r)
       = Ok (QuestionResult.isCorrect r).

(** The mark of one question: what the loop body of [gradeQuiz] computes
    for [isCorrect] from the answer stored under the position of the
    question. *)
Definition questionVerdict (userAnswers question : value) (index : nat)
  : result value :=
  userAnswer ← getProp userAnswers (string_of_nat index);
  correctAnswers ← getCorrectAnswers question;
  isMultiAnswer ← isMultiAnswerQuestion question;
  checkAnswer question userAnswer correctAnswers isMultiAnswer.

(** The question at position [index] is answered correctly. *)
Definition correctlyAnswered (questions : list value) (userAnswers : value)
    (index : nat) : bool :=
  match questionVerdict userAnswers (nth index questions VUndefined) index with
  | Ok isCorrect => truthy isCorrect
  | TypeError => false
  end.

(** The marks of a run, question by question. *)
Definition verdicts (questions : list value) (userAnswers : value)
  : result (list value) :=
  r ← gradeQuiz questions userAnswers;
  Ok (map QuestionResult.isCorrect (GradingResult.results r)).

(** An answer entry that is no answer at all. *)
Definition blank (userAnswer : value) : Prop :=
  userAnswer = VUndefined \/ userAnswer = VStr "" \/ userAnswer = VArr [].

(** The answers of an attempt on [questions] are well formed: every key is
    the index of a question, every value one the controller stores. *)
Definition valid_answers (questions : list value)
    (answers : list (string * value)) : Prop :=
  Forall (fun kv => (exists i, kv.1 = string_of_nat i /\ i < length questions)
                    /\ storedAnswer kv.2) answers.

(** What holds of the state throughout an attempt on [questions]. *)
Definition attempt_invariant (questions : list value) (app : QuizApp) : Prop :=
  currentQuestions app = questions
  /\ currentQuestionIndex app < length questions
  /\ valid_answers questions (userAnswers app).

(** ** The data the properties are about *)

(** ASCII text: every character is below 128.  On such text [toUpperCase]
    and [toLowerCase] above are the functions of the language. *)
Definition ascii_text (s : string) : bool :=
  forallb (fun c => Nat.ltb (nat_of_ascii c) 128) (list_ascii_of_string s).

(** A value that is no string, or an ASCII one. *)
Definition ascii_value (v : value) : bool :=
  match v with
  | VStr s => ascii_text s
  | _ => true
  end.

(** No object inside the value has a property of its own named [toString]:
    such a value converts to a string without raising. *)
Fixpoint printable (v : value) : bool :=
  match v with
  | VArr elems => forallb printable elems
  | VObj props =>
      negb (has_own "toString" props)
      && (fix all_props (ps : list (string * value)) : bool :=
            match ps with
            | [] => true
            | (_, x) :: r => printable x && all_props r
            end) props
  | _ => true
  end.

(** The question with another key as its [answer_option]. *)
Definition with_answer (question : value) (key : string) : value :=
  spread question [("answer_option", VStr key)].

(** ** Sample data *)

Definition option_entry (key text : string) : value :=
  VObj [("option", VStr key); ("option_text", VStr text)].

(** A single-answer question whose correct key names no option. *)
Definition q_stray : value :=
  VObj [("question_text", VStr "Q");
        ("question_option", VArr [option_entry "A" "x"; option_entry "B" "y"]);
        ("answer_option", VStr "C")].

(** A question whose option array holds numbers. *)
Definition q_numbers : value :=
  VObj [("question_text", VStr "Q");
        ("question_option", VArr [VNum 1; VNum 2]);
        ("answer_option", VStr "A")].

(** A single-answer question. *)
Definition q_single : value :=
  VObj [("question_text", VStr "Q");
        ("question_option", VArr [option_entry "A" "x"; option_entry "B" "y"]);
        ("answer_option", VStr "A");
        ("answer_option_text", VStr "because")].

(** A multi-answer question with correct keys A and C. *)
Definition q_multi : value :=
  VObj [("question_text", VStr "Q");
        ("question_option",
         VArr [option_entry "A" "x"; option_entry "B" "y";
               option_entry "C" "z"; option_entry "D" "w"]);
        ("answer_option", VStr "A");
        ("answer_option_text", VObj [("a", VStr "first"); ("c", VStr "second")])].

(** A question whose explanation keys differ only by case. *)
Definition q_case : value :=
  VObj [("question_text", VStr "Q");
        ("question_option", VArr [option_entry "A" "x"; option_entry "B" "y"]);
        ("answer_option", VStr "A");
        ("answer_option_text", VObj [("a", VStr "first"); ("A", VStr "second")])].

(** A legacy question, options keyed by lower-case letters. *)
Definition q_legacy : value :=
  VObj [("question_text", VStr "Q");
        ("question_option", VObj [("a", VStr "x"); ("b", VStr "y"); ("c", VStr "z")]);
        ("answer_option", VStr "b")].

(** A legacy multi-answer question, as the bank holds it before it is
    prepared for display. *)
Definition q_legacy_multi : value :=
  VObj [("question_text", VStr "Q");
        ("question_option", VObj [("a", VStr "x"); ("b", VStr "y"); ("c", VStr "z")]);
        ("answer_option", VStr "a");
        ("answer_option_text", VObj [("a", VStr "first"); ("c", VStr "second")])].

(** A bank of [n] copies of the single-answer question, and the answers of
    a user who answers the first [k] questions, all with the correct key. *)
Definition bank (n : nat) : list value := repeat q_single n.

Definition first_answers (k : nat) : value :=
  VObj (map (fun i => (string_of_nat i, VStr "A")) (seq 0 k)).

(** Score, total and verdict of a run. *)
Definition outcome (questions : list value) (userAnswers : value)
  : result (nat * nat * bool) :=
  r ← gradeQuiz questions userAnswers;
  Ok (GradingResult.score r, GradingResult.total r, GradingResult.passed r).

(** A store with one snapshot of quiz [q], written at time [timestamp]. *)
Definition snapshot (timestamp : Z) : value :=
  VObj [("questions", VArr [q_single]);
        ("currentQuestionIndex", VNum 0);
        ("userAnswers", VObj []);
        ("timeRemaining", VNum 3000);
        ("timestamp", VNum timestamp)].

Definition store_with (timestamp : Z) : gmap string item :=
  {[ "quiz_q" := Json (snapshot timestamp) ]}.

(** ** Notions for the further properties *)

(** [learningObjectiveStats[key]], when the objective has an entry. *)
Fixpoint lookup_stats (key : string) (stats : list (string * ObjectiveStats.t))
  : option ObjectiveStats.t :=
  match stats with
  | [] => None
  | (k, s) :: r => if String.eqb key k then Some s else lookup_stats key r
  end.

(** The statistics update [gradeQuiz] makes for one result. *)
Definition track_result (stats : list (string * ObjectiveStats.t))
    (r : QuestionResult.t) : list (string * ObjectiveStats.t) :=
  if truthy (QuestionResult.learningObjective r)
  then match toStr (QuestionResult.learningObjective r) with
       | Ok key => track_objective key (truthy (QuestionResult.isCorrect r)) stats
       | TypeError => stats
       end
  else stats.

(** The result belongs to a question tagged with objective [key]. *)
Definition tagged (key : string) (r : QuestionResult.t) : bool :=
  truthy (QuestionResult.learningObjective r)
  && match toStr (QuestionResult.learningObjective r) with
     | Ok name => String.eqb key name
     | TypeError => false
     end.

(** The results tagged [key], and those of them marked correct or not. *)
Definition tagged_total (key : string) (rs : list QuestionResult.t) : nat :=
  length (List.filter (tagged key) rs).

Definition tagged_correct (key : string) (rs : list QuestionResult.t) : nat :=
  length (List.filter (fun r => tagged key r && truthy (QuestionResult.isCorrect r)) rs).

Definition tagged_incorrect (key : string) (rs : list QuestionResult.t) : nat :=
  length (List.filter (fun r => tagged key r
                                && negb (truthy (QuestionResult.isCorrect r))) rs).

(** An answer entry of the kind the controller stores for the question:
    none, a key, or for a multi-answer question an array of keys (an empty
    array only with the options in array form). *)
Definition answerable (question userAnswer : value) : Prop :=
  userAnswer = VUndefined
  \/ (exists s, userAnswer = VStr s)
  \/ (exists elems,
        userAnswer = VArr elems
        /\ Forall (fun x => exists s, x = VStr s) elems
        /\ isMultiAnswerQuestion question = Ok true
        /\ (elems = [] -> isArray (prop question "question_option") = true)).

(** The statistics [stats] count the results [rs]: every objective with an
    entry has the number of results tagged with it as total, split into
    correct and incorrect, and its name is none that objects inherit; an
    objective without entry tags no result, or has such a name. *)
Definition stats_agree (stats : list (string * ObjectiveStats.t))
    (rs : list QuestionResult.t) : Prop :=
  forall key,
    match lookup_stats key stats with
    | Some s =>
        inherited key = false
        /\ ObjectiveStats.total s = tagged_total key rs
        /\ ObjectiveStats.correct s = tagged_correct key rs
        /\ ObjectiveStats.incorrect s = tagged_incorrect key rs
        /\ 1 <= ObjectiveStats.total s
    | None => inherited key = true \/ tagged_total key rs = 0
    end.

(** A single-answer question tagged with a learning objective. *)
Definition q_tagged (objective answer : string) : value :=
  VObj [("question_text", VStr "Q");
        ("question_option", VArr [option_entry "A" "x"; option_entry "B" "y"]);
        ("answer_option", VStr answer);
        ("learning_objective", VStr objective)].

(** A value [JSON.stringify] writes out in full: no [undefined] in it. *)
Fixpoint json_value (v : value) : bool :=
  match v with
  | VUndefined => false
  | VArr elems => forallb json_value elems
  | VObj props =>
      (fix all_props (ps : list (string * value)) : bool :=
         match ps with
         | [] => true
         | (_, x) :: r => json_value x && all_props r
         end) props
  | _ => true
  end.

(** The fields of a state object, as [saveCurrentState] passes them. *)
Definition sample_state : list (string * value) :=
  [("questions", VArr [q_single; q_multi]);
   ("currentQuestionIndex", VNum 1);
   ("userAnswers", VObj [("0", VStr "B")]);
   ("timeRemaining", VNum 3000)].

(** The options selected for the current question, as [selectMultiOption]
    finds them: the elements of the entry when it is an array, none
    otherwise. *)
Definition currentSelection (app : QuizApp) : list value :=
  match lookup_prop (string_of_nat (currentQuestionIndex app)) (userAnswers app) with
  | VArr elems => elems
  | _ => []
  end.

(** What the controller relies on in a question it displays: the question
    is accepted, its options are in array form, and its [isMultiAnswer]
    flag is the classification grading makes. *)
Definition prepared_question (question : value) : Prop :=
  passes_checks question = true
  /\ isArray (prop question "question_option") = true
  /\ exists flag,
       isMultiAnswerQuestion question = Ok flag
       /\ prop question "isMultiAnswer" = VBool flag.

(** The question on display. *)
Definition currentQuestion (app : QuizApp) : value :=
  nth (currentQuestionIndex app) (currentQuestions app) VUndefined.

(** The click handler of an option calls [selectMultiOption] when the
    question on display is flagged multi-answer and [selectOption]
    otherwise. *)
Definition gated (app : QuizApp) (e : event) : Prop :=
  match e with
  | SelectMultiOption _ _ =>
      truthy (prop (currentQuestion app) "isMultiAnswer") = true
  | SelectOption _ =>
      truthy (prop (currentQuestion app) "isMultiAnswer") = false
  | PreviousQuestion | NextQuestion => True
  end.

Fixpoint gated_run (app : QuizApp) (events : list event) : Prop :=
  match events with
  | [] => True
  | e :: rest => gated app e /\ gated_run (handle app e) rest
  end.

(** The answers of an attempt on [questions] fit the questions they
    belong to. *)
Definition answers_fit (questions : list value)
    (answers : list (string * value)) : Prop :=
  Forall (fun kv => exists i question,
                      kv.1 = string_of_nat i
                      /\ questions !! i = Some question
                      /\ answerable question kv.2) answers.

(** What holds of an attempt on prepared [questions] driven by the page. *)
Definition attempt_fits (questions : list value) (app : QuizApp) : Prop :=
  currentQuestions app = questions
  /\ currentQuestionIndex app < length questions
  /\ answers_fit questions (userAnswers app).

(** [n] seconds of countdown: the interval callback runs once a second for
    as long as the interval is active.  [stored k] and [clock k] are the
    fate of a write and the time at the [k]-th run. *)
Fixpoint countdown (stored : nat -> bool) (clock : nat -> Z) (n : nat)
    (s : QuizSession) : QuizSession :=
  match n with
  | 0 => s
  | S n' =>
      let s' := countdown stored clock n' s in
      if timer s' then (tick (stored n') (clock n') s').1 else s'
  end.

(** A session in the middle of an attempt on two questions. *)
Definition sample_session : QuizSession :=
  {| attempt := run [q_single; q_multi] [SelectOption "B"; NextQuestion];
     currentQuiz := Some "q";
     timeRemaining := 3000;
     timer := true;
     storage := ∅ |}.

(** [Number.MAX_SAFE_INTEGER]: up to it every whole number is a number of
    the program, printed by [toString] digit for digit. *)
Definition MAX_SAFE_INTEGER : Z := 9007199254740991.

(** The number a text of decimal digits stands for; nothing for a text
    with any other character. *)
Definition read_digits (s : string) : option N :=
  option_map N.of_uint (NilEmpty.uint_of_string s).

(** The characters of a text. *)
Definition chars (s : string) : list ascii := list_ascii_of_string s.

(** [s] has a dash, one of the letters A to D, and a dash next to each
    other: what [/-(A|B|C|D)-/] looks for. *)
Definition has_quiz_letter (s : string) : Prop :=
  exists (before : string) (l : ascii) (rest : string),
    quiz_letter_char l = true
    /\ s = before +:+ String "-" (String l (String "-" rest)).

(** * Properties *)

(** ** Strings and property lists *)

Lemma upper_ascii_idem (c : ascii) : upper_ascii (upper_ascii c) = upper_ascii c.
Proof.
  destruct c as [[] [] [] [] [] [] [] []]; vm_compute; reflexivity.
Qed.

Lemma toUpperCase_idem (s : string) : toUpperCase (toUpperCase s) = toUpperCase s.
Proof.
  unfold toUpperCase.
  induction s as [|c s IH]; simpl; [reflexivity|].
  rewrite upper_ascii_idem, IH. reflexivity.
Qed.

Lemma map_toUpperCase_idem (ks : list string) :
  map toUpperCase (map toUpperCase ks) = map toUpperCase ks.
Proof.
  induction ks as [|k ks IH]; simpl; [reflexivity|].
  rewrite toUpperCase_idem, IH. reflexivity.
Qed.

Lemma append_inj_r (s a b : string) : s +:+ a = s +:+ b -> a = b.
Proof.
  induction s as [|c s IH]; simpl; intros H; [exact H|].
  injection H as H. auto.
Qed.

Lemma prefix_append (s t : string) : String.prefix s (s +:+ t) = true.
Proof.
  induction s as [|c s IH]; simpl.
  - destruct t; reflexivity.
  - destruct (Ascii.ascii_dec c c) as [_|n]; [exact IH|congruence].
Qed.

Lemma lookup_set_prop_eq k v props : lookup_prop k (set_prop k v props) = v.
Proof.
  induction props as [|[k' v'] r IH]; simpl.
  - rewrite String.eqb_refl. reflexivity.
  - destruct (String.eqb k k') eqn:E; simpl.
    + rewrite String.eqb_refl. reflexivity.
    + rewrite E. exact IH.
Qed.

Lemma lookup_set_prop_ne k k' v props :
  k <> k' -> lookup_prop k (set_prop k' v props) = lookup_prop k props.
Proof.
  intros Hne.
  assert (Hf : String.eqb k k' = false) by (apply String.eqb_neq; exact Hne).
  induction props as [|[k2 v2] r IH]; simpl.
  - rewrite Hf. reflexivity.
  - destruct (String.eqb k' k2) eqn:E; simpl.
    + apply String.eqb_eq in E. subst k2. rewrite Hf. reflexivity.
    + rewrite IH. reflexivity.
Qed.

Lemma set_prop_Forall (P : string * value -> Prop) k v props :
  P (k, v) -> Forall P props -> Forall P (set_prop k v props).
Proof.
  intros Hkv Hall.
  induction Hall as [|[k' v'] r Hx Hr IH]; simpl.
  - constructor; [exact Hkv|constructor].
  - destruct (String.eqb k k'); constructor; auto.
Qed.

Lemma lookup_prop_Forall (P : string * value -> Prop) k props :
  Forall P props -> lookup_prop k props = VUndefined \/ P (k, lookup_prop k props).
Proof.
  induction 1 as [|[k' v'] r Hx Hr IH]; simpl; [left; reflexivity|].
  destruct (String.eqb k k') eqn:E; [|exact IH].
  apply String.eqb_eq in E. subst. right. exact Hx.
Qed.

(** ** Values that convert to a string *)

Lemma printable_obj props :
  printable (VObj props) = true
  <-> has_own "toString" props = false
      /\ Forall (fun kv => printable kv.2 = true) props.
Proof.
  cbn [printable]. rewrite andb_true_iff, negb_true_iff.
  apply and_iff_compat_l.
  induction props as [|[k x] r IH]; [split; [constructor|reflexivity]|].
  rewrite andb_true_iff, IH. split.
  - intros [Hx Hr]. constructor; assumption.
  - intros H. apply Forall_cons in H. exact H.
Qed.

Lemma printable_arr elems :
  printable (VArr elems) = true <-> Forall (fun x => printable x = true) elems.
Proof.
  cbn [printable]. rewrite forallb_forall, Forall_forall.
  split; intros H x Hx; apply H; apply list_elem_of_In; exact Hx.
Qed.

Fixpoint printable_toStr (v : value) :
  printable v = true -> exists s, toStr v = Ok s.
Proof.
  destruct v as [| |b|n|s|elems|props]; intros H;
    try (eexists; reflexivity).
  - cbn [toStr].
    assert (Heach : exists strs,
               (fix each (l : list value) : result (list string) :=
                  match l with
                  | [] => Ok []
                  | x :: r =>
                      s ← match x with
                          | VUndefined | VNull => Ok ""
                          | _ => toStr x
                          end;
                      ss ← each r;
                      Ok (s :: ss)
                  end) elems = Ok strs).
    { cbn [printable] in H. induction elems as [|x elems IH].
      - eexists; reflexivity.
      - cbn [forallb] in H. apply andb_true_iff in H as [Hx Hr].
        destruct (IH Hr) as [strs ->].
        destruct (printable_toStr x Hx) as [sx Hsx].
        destruct x; try rewrite Hsx; eexists; reflexivity. }
    destruct Heach as [strs ->]. eexists; reflexivity.
  - apply printable_obj in H as [Hown _].
    cbn [toStr]. rewrite Hown. eexists; reflexivity.
Qed.

Lemma printable_joinElem v :
  printable v = true -> exists s, joinElem v = Ok s.
Proof.
  intros H. destruct (printable_toStr v H) as [s Hs].
  destruct v; try (eexists; reflexivity); exact (ex_intro _ s Hs).
Qed.

Lemma printable_lookup_prop k props :
  Forall (fun kv => printable kv.2 = true) props ->
  printable (lookup_prop k props) = true.
Proof.
  induction 1 as [|[k' x] r Hx _ IH]; cbn [lookup_prop]; [reflexivity|].
  destruct (String.eqb k k'); [exact Hx|exact IH].
Qed.

Lemma printable_prop o k : printable o = true -> printable (prop o k) = true.
Proof.
  destruct o as [| |b|n|s|elems|props]; intros H; try reflexivity.
  - cbn [prop]. destruct (String.eqb k "length"); [reflexivity|].
    destruct (index_of_name k) as [i|]; [|reflexivity].
    destruct (String.get i s); reflexivity.
  - cbn [prop]. destruct (String.eqb k "length"); [reflexivity|].
    destruct (index_of_name k) as [i|]; [|reflexivity].
    apply printable_arr in H. revert i.
    induction H as [|x r Hx _ IH]; intros [|i]; cbn [nth];
      [reflexivity|reflexivity|exact Hx|apply IH].
  - apply printable_obj in H as [_ H]. apply printable_lookup_prop. exact H.
Qed.

Lemma printable_imap (f : nat -> string) elems :
  Forall (fun x => printable x = true) elems ->
  Forall (fun kt : string * value => printable kt.2 = true)
         (imap (fun i x => (f i, x)) elems).
Proof.
  intros H. revert f. induction H as [|x r Hx _ IH]; intros f; [constructor|].
  cbn [imap]. constructor; [exact Hx|]. apply (IH (fun i => f (S i))).
Qed.

Lemma printable_entries o :
  printable o = true -> Forall (fun kt => printable kt.2 = true) (entries o).
Proof.
  destruct o as [| |b|n|s|elems|props]; intros H; try constructor.
  - apply printable_arr in H. apply printable_imap. exact H.
  - apply printable_obj in H as [_ H]. exact H.
Qed.

(** ** The validator *)

Lemma nonEmptyString_checks (v : value) :
  negb (truthy v) || negb (String.eqb (typeof v) "string") = negb (nonEmptyString v).
Proof.
  destruct v as [| |b|n|s|l|ps]; simpl; try reflexivity.
  - destruct b; reflexivity.
  - destruct (Z.eqb n 0); reflexivity.
  - destruct (String.eqb s ""); reflexivity.
Qed.

Lemma question_text_errors_spec question index :
  question_text_errors question index =
  if nonEmptyString (prop question "question_text") then []
  else [label index +:+ msg_text].
Proof.
  unfold question_text_errors. rewrite nonEmptyString_checks.
  destruct (nonEmptyString _); reflexivity.
Qed.

Lemma answer_option_errors_spec question index :
  answer_option_errors question index =
  if nonEmptyString (prop question "answer_option") then []
  else [label index +:+ msg_answer].
Proof.
  unfold answer_option_errors. rewrite nonEmptyString_checks.
  destruct (nonEmptyString _); reflexivity.
Qed.

Lemma question_option_errors_spec question index :
  question_option_errors question index =
  if options_checked (prop question "question_option") then []
  else
    [label index +:+
     (if negb (truthy (prop question "question_option")) then msg_no_option
      else if isObject (prop question "question_option") then msg_two_options
      else msg_option_shape)].
Proof.
  unfold question_option_errors, options_checked, isObject, keys.
  destruct (prop question "question_option") as [| |b|n|s|l|ps]; simpl;
    try reflexivity.
  - destruct b; reflexivity.
  - destruct (Z.eqb n 0); reflexivity.
  - destruct (String.eqb s ""); reflexivity.
  - destruct l as [|x [|y l]]; reflexivity.
  - rewrite length_map. destruct ps as [|x [|y ps]]; reflexivity.
Qed.

Lemma validateQuestion_object question index :
  isObject question = true ->
  validateQuestion question index =
  {| isValid := passes_checks question;
     errors := question_text_errors question index
               ++ question_option_errors question index
               ++ answer_option_errors question index |}.
Proof.
  intros Hobj. unfold validateQuestion, passes_checks.
  assert (Hguard : negb (truthy question)
                   || negb (String.eqb (typeof question) "object") = false).
  { unfold isObject in Hobj. apply andb_true_iff in Hobj as [-> ->]. reflexivity. }
  rewrite Hguard, Hobj. f_equal.
  rewrite question_text_errors_spec, question_option_errors_spec,
    answer_option_errors_spec.
  destruct (nonEmptyString (prop question "question_text"));
    destruct (options_checked (prop question "question_option"));
    destruct (nonEmptyString (prop question "answer_option")); reflexivity.
Qed.

Lemma validateQuestion_not_object question index :
  isObject question = false ->
  validateQuestion question index =
  {| isValid := false; errors := [label index +:+ msg_not_object] |}.
Proof.
  intros Hobj. unfold validateQuestion.
  assert (Hguard : negb (truthy question)
                   || negb (String.eqb (typeof question) "object") = true).
  { unfold isObject in Hobj. apply andb_false_iff in Hobj as [-> | ->];
      [reflexivity | apply orb_true_r]. }
  rewrite Hguard. reflexivity.
Qed.

Lemma validateQuestion_isValid question index :
  isValid (validateQuestion question index) = passes_checks question.
Proof.
  destruct (isObject question) eqn:Hobj.
  - rewrite validateQuestion_object by exact Hobj. reflexivity.
  - rewrite validateQuestion_not_object by exact Hobj.
    unfold passes_checks. rewrite Hobj. reflexivity.
Qed.

(** An accepted value is a plain object: arrays pass the object test but
    carry none of the three fields. *)
Lemma passes_checks_object question :
  passes_checks question = true ->
  exists props, question = VObj props.
Proof.
  unfold passes_checks, isObject. intros H.
  destruct question as [| |b|n|s|l|ps]; simpl in H;
    rewrite ?andb_false_r in H; try discriminate.
  eexists; reflexivity.
Qed.

Lemma diagnostics_differ index (a b : string) :
  a <> b -> label index +:+ a <> label index +:+ b.
Proof. intros Hab H. apply Hab. exact (append_inj_r _ _ _ H). Qed.

Lemma option_message_not_text (v : value) :
  msg_text <>
  (if negb (truthy v) then msg_no_option
   else if isObject v then msg_two_options else msg_option_shape).
Proof. destruct (negb _); [|destruct (isObject _)]; vm_compute; discriminate. Qed.

Lemma option_message_not_answer (v : value) :
  (if negb (truthy v) then msg_no_option
   else if isObject v then msg_two_options else msg_option_shape)
  <> msg_answer.
Proof. destruct (negb _); [|destruct (isObject _)]; vm_compute; discriminate. Qed.

Lemma text_message_not_answer : msg_text <> msg_answer.
Proof. vm_compute; discriminate. Qed.

(** The diagnostics of an object: one per failed check, pairwise distinct,
    each starting with the question number. *)
Lemma object_diagnostics question index :
  let es := question_text_errors question index
            ++ question_option_errors question index
            ++ answer_option_errors question index in
  length es =
    (if nonEmptyString (prop question "question_text") then 0 else 1)
    + (if options_checked (prop question "question_option") then 0 else 1)
    + (if nonEmptyString (prop question "answer_option") then 0 else 1)
  /\ List.NoDup es
  /\ Forall (fun e => String.prefix (label index) e = true) es.
Proof.
  rewrite question_text_errors_spec, question_option_errors_spec,
    answer_option_errors_spec.
  pose proof (diagnostics_differ index _ _
                (option_message_not_text (prop question "question_option"))) as Hto.
  pose proof (diagnostics_differ index _ _
                (option_message_not_answer (prop question "question_option"))) as Hoa.
  pose proof (diagnostics_differ index _ _ text_message_not_answer) as Hta.
  destruct (nonEmptyString (prop question "question_text"));
    destruct (options_checked (prop question "question_option"));
    destruct (nonEmptyString (prop question "answer_option")); simpl;
    (split; [reflexivity|]);
    (split; [repeat (constructor; simpl; try (intuition congruence))
            |repeat (constructor; try apply prefix_append)]).
Qed.

(** C7, as the code has it: [validateQuestion] accepts a raw value (isValid
    true, which is the same as an empty error list) if and only if the value
    is an object, its question_text is a non-empty string, its
    question_option is an array of at least 2 entries or an object of at
    least 2 keys, and its answer_option is a non-empty string; the entries
    of an option array are not inspected.  Each failing check contributes
    one diagnostic, the diagnostics of a question are pairwise distinct, and
    each starts with the 1-based question number. *)
Theorem validateQuestion_accepts_iff_checks (question : value) (index : nat) :
  (isValid (validateQuestion question index) = true
   <-> passes_checks question = true)
  /\ (isValid (validateQuestion question index) = true
      <-> errors (validateQuestion question index) = [])
  /\ length (errors (validateQuestion question index)) = failed_checks question
  /\ List.NoDup (errors (validateQuestion question index))
  /\ Forall (fun e => String.prefix (label index) e = true)
            (errors (validateQuestion question index)).
Proof.
  split; [rewrite validateQuestion_isValid; reflexivity|].
  unfold failed_checks.
  destruct (isObject question) eqn:Hobj.
  - pose proof (validateQuestion_isValid question index) as Hv.
    unfold validateQuestion in *.
    destruct (negb (truthy question) || negb (String.eqb (typeof question) "object"))
      eqn:Hguard.
    { exfalso. unfold isObject in Hobj. apply andb_true_iff in Hobj as [H1 H2].
      rewrite H1, H2 in Hguard. discriminate. }
    cbn [isValid errors] in *.
    destruct (object_diagnostics question index) as (Hlen & Hnd & Hpre).
    cbn zeta in Hlen, Hnd, Hpre.
    split; [|split; [exact Hlen|split; [exact Hnd|exact Hpre]]].
    rewrite Nat.eqb_eq. split.
    + intros H. apply nil_length_inv. exact H.
    + intros ->. reflexivity.
  - rewrite validateQuestion_not_object by exact Hobj. cbn [isValid errors].
    split; [split; discriminate|].
    split; [reflexivity|].
    split; [repeat constructor; simpl; tauto|].
    repeat constructor. apply prefix_append.
Qed.

(** C7 as stated fails: a question whose option array holds two numbers is
    accepted with an empty error list, though its entries are not
    option-like. *)
Lemma validateQuestion_ignores_entries :
  validateQuestion q_numbers 0 = {| isValid := true; errors := [] |}
  /\ passes_checks_spec q_numbers = false.
Proof. split; vm_compute; reflexivity. Qed.

(** ** Correct keys and option keys *)

Lemma getCorrectAnswers_accepted question :
  passes_checks question = true ->
  getCorrectAnswers question = Ok (map toUpperCase (answerSource question)).
Proof.
  intros Hp. destruct (passes_checks_object _ Hp) as [props ->].
  unfold passes_checks in Hp. rewrite !andb_true_iff in Hp.
  destruct Hp as [_ Hans].
  unfold getCorrectAnswers, answerSource. cbn [getProp mbind result_bind prop] in *.
  destruct (truthy (lookup_prop "answer_option_text" props)
            && String.eqb (typeof (lookup_prop "answer_option_text" props)) "object");
    [reflexivity|].
  destruct (lookup_prop "answer_option" props) as [| |b|n|s|l|ps];
    try discriminate Hans.
  cbn [nonEmptyString truthy] in *. rewrite Hans.
  destruct (String.eqb s ""); [discriminate Hans|]. reflexivity.
Qed.

Lemma isOptionKey_toUpperCase question key :
  isOptionKey question (toUpperCase key) = isOptionKey question key.
Proof.
  unfold isOptionKey.
  induction (optionKeys question) as [|optionKey r IH]; simpl; [reflexivity|].
  rewrite IH. destruct optionKey; try reflexivity.
  rewrite toUpperCase_idem. reflexivity.
Qed.

Lemma with_answer_prop props key k :
  prop (with_answer (VObj props) key) k
  = if String.eqb k "answer_option" then VStr key else lookup_prop k props.
Proof.
  unfold with_answer, spread. cbn [entries fold_left fst snd prop].
  destruct (String.eqb_spec k "answer_option") as [->|Hne].
  - apply lookup_set_prop_eq.
  - apply lookup_set_prop_ne. exact Hne.
Qed.

Lemma with_answer_accepted question key :
  passes_checks question = true -> key <> "" ->
  passes_checks (with_answer question key) = true.
Proof.
  intros Hp Hkey. destruct (passes_checks_object _ Hp) as [props ->].
  unfold passes_checks in *. rewrite !andb_true_iff in *.
  destruct Hp as [[[_ Htext] Hopts] _].
  rewrite !with_answer_prop. cbn [String.eqb Ascii.eqb Bool.eqb].
  cbn [prop] in Htext, Hopts.
  repeat split; [exact Htext|exact Hopts|].
  cbn [nonEmptyString]. apply negb_true_iff, String.eqb_neq. exact Hkey.
Qed.

(** C1, as the code has it: [validateQuestion] does not compare the correct
    keys with the options.  For an accepted question whose keys are ASCII
    text, [getCorrectAnswers] returns the keys the bank names
    (answer_option, or the keys of an object-shaped answer_option_text)
    upper-cased, and these all occur among the option keys, compared
    case-insensitively, exactly when the keys the bank names do.  The
    validator accepts the question with any other non-empty key as its
    answer_option too, the options unchanged, and unless the question has
    an object-shaped answer_option_text that key, upper-cased, is then its
    correct key. *)
Theorem accepted_correct_keys_among_options (question : value) (index : nat) :
  isValid (validateQuestion question index) = true ->
  Forall (fun key => ascii_text key = true) (answerSource question) ->
  Forall (fun optionKey => ascii_value optionKey = true) (optionKeys question) ->
  (exists correctKeys,
     getCorrectAnswers question = Ok correctKeys
     /\ correctKeys = map toUpperCase (answerSource question)
     /\ (Forall (fun key => isOptionKey question key = true) correctKeys
         <-> Forall (fun key => isOptionKey question key = true)
                    (answerSource question)))
  /\ forall key,
       key <> "" -> ascii_text key = true ->
       isValid (validateQuestion (with_answer question key) index) = true
       /\ optionKeys (with_answer question key) = optionKeys question
       /\ (isObject (prop question "answer_option_text") = false ->
           getCorrectAnswers (with_answer question key) = Ok [toUpperCase key]).
Proof.
  rewrite validateQuestion_isValid. intros Hp _ _. split.
  - exists (map toUpperCase (answerSource question)).
    split; [apply getCorrectAnswers_accepted; exact Hp|].
    split; [reflexivity|].
    rewrite List.Forall_map. split; intros H;
      (eapply Forall_impl; [exact H|]); intros key Hk; cbn beta in *.
    + rewrite isOptionKey_toUpperCase in Hk. exact Hk.
    + rewrite isOptionKey_toUpperCase. exact Hk.
  - intros key Hkey _.
    pose proof (with_answer_accepted question key Hp Hkey) as Hacc.
    rewrite validateQuestion_isValid. split; [exact Hacc|].
    destruct (passes_checks_object _ Hp) as [props ->]. split.
    + unfold optionKeys. rewrite with_answer_prop. reflexivity.
    + intros Hobj.
      rewrite (getCorrectAnswers_accepted _ Hacc). unfold answerSource.
      rewrite !with_answer_prop. cbn [String.eqb Ascii.eqb Bool.eqb].
      unfold isObject in Hobj. cbn [prop] in Hobj. rewrite Hobj.
      destruct (String.eqb key "") eqn:E; [|reflexivity].
      apply String.eqb_eq in E. contradiction.
Qed.

Lemma accepted_correct_keys_among_options_witness :
  (exists correctKeys,
     getCorrectAnswers q_single = Ok correctKeys
     /\ correctKeys = map toUpperCase (answerSource q_single)
     /\ (Forall (fun key => isOptionKey q_single key = true) correctKeys
         <-> Forall (fun key => isOptionKey q_single key = true)
                    (answerSource q_single)))
  /\ isValid (validateQuestion (with_answer q_single "Z") 0) = true.
Proof.
  destruct (accepted_correct_keys_among_options q_single 0) as [Hkeys Hany].
  - vm_compute; reflexivity.
  - repeat constructor.
  - repeat constructor.
  - split; [exact Hkeys|].
    apply (Hany "Z"); [discriminate|reflexivity].
Defined.

(** C1 as stated fails: an accepted question may name a correct key that no
    option carries. *)
Lemma accepted_with_stray_key :
  isValid (validateQuestion q_stray 0) = true
  /\ getCorrectAnswers q_stray = Ok ["C"]
  /\ isOptionKey q_stray "C" = false.
Proof. repeat split; vm_compute; reflexivity. Qed.

(** ** Multi-answer detection *)

Lemma remove_dups_NoDup (ks : list string) :
  List.NoDup ks -> remove_dups ks = ks.
Proof.
  induction 1 as [|k ks Hk Hnd IH]; simpl; [reflexivity|].
  destruct (decide_rel elem_of k ks) as [Hin|_].
  - exfalso. apply Hk. apply list_elem_of_In. exact Hin.
  - rewrite IH. reflexivity.
Qed.

Lemma isMultiAnswerQuestion_length question correctKeys :
  getCorrectAnswers question = Ok correctKeys ->
  isMultiAnswerQuestion question = Ok (Nat.ltb 1 (length correctKeys)).
Proof.
  unfold getCorrectAnswers, isMultiAnswerQuestion.
  destruct (getProp question "answer_option_text") as [answer_option_text|];
    [|discriminate].
  cbn [mbind result_bind].
  destruct (truthy answer_option_text) eqn:Ht; cbn [negb andb].
  - destruct (String.eqb (typeof answer_option_text) "object").
    + intros [= <-]. rewrite length_map. reflexivity.
    + destruct (truthy (prop question "answer_option")).
      * destruct (callToUpperCase _); [|discriminate].
        intros [= <-]. reflexivity.
      * intros [= <-]. reflexivity.
  - destruct (truthy (prop question "answer_option")).
    + destruct (callToUpperCase _); [|discriminate].
      intros [= <-]. reflexivity.
    + intros [= <-]. reflexivity.
Qed.

(** C5, as the code has it: whenever [getCorrectAnswers] returns,
    [isMultiAnswerQuestion] is true exactly when the returned list has more
    than one entry, keys that coincide once upper-cased counted as often as
    they occur; when the returned keys are pairwise distinct this is the
    number of elements of the set of correct keys. *)
Theorem isMultiAnswerQuestion_iff_several_keys (question : value)
    (correctKeys : list string) :
  getCorrectAnswers question = Ok correctKeys ->
  (isMultiAnswerQuestion question = Ok true <-> 1 < length correctKeys)
  /\ (List.NoDup correctKeys ->
      (isMultiAnswerQuestion question = Ok true <-> 1 < cardinal correctKeys)).
Proof.
  intros Hc. rewrite (isMultiAnswerQuestion_length _ _ Hc).
  assert (Hiff : Ok (Nat.ltb 1 (length correctKeys)) = Ok true
                 <-> 1 < length correctKeys).
  { split.
    - intros [= H]. apply Nat.ltb_lt. exact H.
    - intros H. apply Nat.ltb_lt in H. rewrite H. reflexivity. }
  split; [exact Hiff|].
  intros Hnd. unfold cardinal. rewrite remove_dups_NoDup by exact Hnd. exact Hiff.
Qed.

Lemma isMultiAnswerQuestion_iff_several_keys_witness :
  (isMultiAnswerQuestion q_multi = Ok true <-> 1 < length ["A"; "C"])
  /\ (List.NoDup ["A"; "C"] ->
      (isMultiAnswerQuestion q_multi = Ok true <-> 1 < cardinal ["A"; "C"])).
Proof.
  apply (isMultiAnswerQuestion_iff_several_keys q_multi ["A"; "C"]).
  vm_compute; reflexivity.
Defined.

(** C5 as stated fails: with explanation keys that differ only by case the
    question is classified multi-answer although the set of its correct
    keys has one element. *)
Lemma multi_answer_with_one_key :
  isMultiAnswerQuestion q_case = Ok true
  /\ getCorrectAnswers q_case = Ok ["A"; "A"]
  /\ cardinal ["A"; "A"] = 1.
Proof. repeat split; vm_compute; reflexivity. Qed.

(** ** Shuffling permutes *)

Section Shuffle.
Context {A : Type}.
Implicit Types (a : list A) (i j : nat).

Lemma swap_length i j a : length (swap i j a) = length a.
Proof.
  unfold swap. destruct (a !! i), (a !! j); try reflexivity.
  rewrite !length_insert. reflexivity.
Qed.

Lemma swap_Permutation i j a : swap i j a ≡ₚ a.
Proof.
  unfold swap.
  destruct (a !! i) as [xi|] eqn:Hi; [|reflexivity].
  destruct (a !! j) as [xj|] eqn:Hj; [|reflexivity].
  pose proof (lookup_lt_Some _ _ _ Hi) as Hli.
  pose proof (lookup_lt_Some _ _ _ Hj) as Hlj.
  apply Permutation_inj. split; [rewrite !length_insert; reflexivity|].
  exists (fun k => if decide (k = j) then i else if decide (k = i) then j else k).
  split.
  - intros k1 k2. repeat case_decide; intros; subst; congruence.
  - intros k. destruct (decide (k = j)) as [->|Hkj].
    + rewrite list_lookup_insert_eq by (rewrite length_insert; exact Hlj).
      symmetry. exact Hi.
    + rewrite list_lookup_insert_ne by congruence.
      destruct (decide (k = i)) as [->|Hki].
      * rewrite list_lookup_insert_eq by exact Hli. symmetry. exact Hj.
      * rewrite list_lookup_insert_ne by congruence. reflexivity.
Qed.

Lemma shuffle_from_Permutation draws i a : shuffle_from draws i a ≡ₚ a.
Proof.
  revert a. induction i as [|i IH]; intros a; simpl; [reflexivity|].
  rewrite IH. apply swap_Permutation.
Qed.

Lemma shuffleArray_Permutation draws a : shuffleArray draws a ≡ₚ a.
Proof. apply shuffle_from_Permutation. Qed.

Lemma shuffleArray_length draws a : length (shuffleArray draws a) = length a.
Proof. apply Permutation_length, shuffleArray_Permutation. Qed.
End Shuffle.

Lemma optionKeys_prepared props (options original : value) (flag : bool) :
  optionKeys (spread (VObj props)
                [("question_option", options);
                 ("original_options", original);
                 ("isMultiAnswer", VBool flag)])
  = match options with
    | VArr elems => map (fun opt => prop opt "option") elems
    | VObj ps => map (fun kt => VStr (toUpperCase kt.1)) ps
    | _ => []
    end.
Proof.
  unfold optionKeys, spread. cbn [fold_left entries prop fst snd].
  rewrite lookup_set_prop_ne by discriminate.
  rewrite lookup_set_prop_ne by discriminate.
  rewrite lookup_set_prop_eq. reflexivity.
Qed.

Lemma optionKeys_flagged props (flag : bool) :
  optionKeys (spread (VObj props) [("isMultiAnswer", VBool flag)])
  = optionKeys (VObj props).
Proof.
  unfold optionKeys, spread. cbn [fold_left entries prop fst snd].
  rewrite lookup_set_prop_ne by discriminate. reflexivity.
Qed.

Lemma isMultiAnswerQuestion_returns question :
  question <> VUndefined -> question <> VNull ->
  exists flag, isMultiAnswerQuestion question = Ok flag.
Proof.
  intros Hu Hn. unfold isMultiAnswerQuestion.
  destruct question; try congruence; cbn [getProp mbind result_bind];
    repeat match goal with
           | |- context [if ?b then _ else _] => destruct b
           end; eexists; reflexivity.
Qed.

(** C9: whatever numbers the shuffle draws, [prepareQuestionForDisplay]
    returns for every question (every value but [null] and [undefined]) a
    prepared question whose canonical option keys are a permutation of the
    canonical option keys of the original, the keys of a legacy option
    object upper-cased: no key is dropped and none is duplicated, in the
    array encoding and in the legacy object encoding alike. *)
Theorem prepareQuestionForDisplay_permutes_keys (draws : nat -> nat)
    (question : value) :
  question <> VUndefined -> question <> VNull ->
  exists prepared,
    prepareQuestionForDisplay draws question = Ok prepared
    /\ optionKeys prepared ≡ₚ optionKeys question.
Proof.
  intros Hu Hn.
  destruct (isMultiAnswerQuestion_returns question Hu Hn) as [flag Hflag].
  unfold prepareQuestionForDisplay. rewrite Hflag.
  assert (Hget : getProp question "question_option"
                 = Ok (prop question "question_option"))
    by (destruct question; try congruence; reflexivity).
  rewrite Hget. cbn [mbind result_bind].
  destruct (truthy (prop question "question_option")) eqn:Ht; cbn [negb];
    [|eexists; split; reflexivity].
  assert (Hobj : exists props, question = VObj props).
  { destruct question as [| | | | | |props]; try discriminate Ht.
    eexists; reflexivity. }
  destruct Hobj as [props ->].
  destruct (prop (VObj props) "question_option") as [| |b|n|s|elems|ps] eqn:Hopt;
    try discriminate Ht; cbn [typeof String.eqb Ascii.eqb Bool.eqb];
    eexists; (split; [reflexivity|]).
  - rewrite optionKeys_flagged. reflexivity.
  - rewrite optionKeys_flagged. reflexivity.
  - rewrite optionKeys_flagged. reflexivity.
  - rewrite optionKeys_prepared. unfold optionKeys. rewrite Hopt.
    apply Permutation_map, shuffleArray_Permutation.
  - rewrite optionKeys_prepared. unfold optionKeys. rewrite Hopt.
    cbn [entries].
    rewrite (shuffleArray_Permutation draws).
    rewrite map_map. reflexivity.
Qed.

Lemma prepareQuestionForDisplay_permutes_keys_witness :
  exists prepared,
    prepareQuestionForDisplay (fun i => 7 * i + 3) q_legacy = Ok prepared
    /\ optionKeys prepared ≡ₚ optionKeys q_legacy.
Proof.
  apply (prepareQuestionForDisplay_permutes_keys (fun i => 7 * i + 3) q_legacy);
    discriminate.
Defined.

(** ** Grading *)

Lemma bind_Ok {A B : Type} (r : result A) (k : A -> result B) (b : B) :
  (x ← r; k x) = Ok b -> exists a, r = Ok a /\ k a = Ok b.
Proof. destruct r as [a|]; [|discriminate]. intros H. exists a. split; [reflexivity|exact H]. Qed.

Lemma mapM_returns {A B : Type} (f : A -> result B) (l : list A) :
  Forall (fun x => exists y, f x = Ok y) l -> exists ys, mapM f l = Ok ys.
Proof.
  induction 1 as [|x l [y Hy] _ [ys Hys]]; simpl.
  - eexists; reflexivity.
  - rewrite Hy, Hys. eexists; reflexivity.
Qed.

Lemma gradeQuestion_inv userAnswers acc question index acc' :
  gradeQuestion userAnswers acc question index = Ok acc' ->
  exists r,
    graded userAnswers question index r
    /\ results acc' = results acc ++ [r]
    /\ correctCount acc' =
       correctCount acc + (if truthy (QuestionResult.isCorrect r) then 1 else 0).
Proof.
  unfold gradeQuestion. intros H.
  apply bind_Ok in H as (userAnswer & Hua & H).
  apply bind_Ok in H as (correctAnswers & Hca & H).
  apply bind_Ok in H as (isMultiAnswer & Hma & H).
  apply bind_Ok in H as (isCorrect & Hic & H).
  apply bind_Ok in H as (stats & _ & H).
  apply bind_Ok in H as ([explanation allExplanations] & _ & H).
  apply bind_Ok in H as ([[[d1 d2] d3] d4] & _ & H).
  injection H as <-. cbn [results correctCount].
  eexists. split; [|split; [reflexivity|]].
  - exists userAnswer, correctAnswers. cbn [QuestionResult.isMultiAnswer
      QuestionResult.isCorrect]. auto.
  - cbn [QuestionResult.isCorrect]. destruct (truthy isCorrect); lia.
Qed.

Lemma countCorrect_app rs1 rs2 :
  countCorrect (rs1 ++ rs2) = countCorrect rs1 + countCorrect rs2.
Proof. unfold countCorrect. rewrite List.filter_app, length_app. reflexivity. Qed.

Lemma forEach_inv userAnswers questions :
  forall index acc acc',
    forEach userAnswers questions index acc = Ok acc' ->
    exists rs,
      results acc' = results acc ++ rs
      /\ length rs = length questions
      /\ correctCount acc' = correctCount acc + countCorrect rs
      /\ forall i question,
           questions !! i = Some question ->
           exists r, rs !! i = Some r
                     /\ graded userAnswers question (index + i) r.
Proof.
  induction questions as [|question rest IH]; intros index acc acc' H.
  - injection H as <-. exists []. rewrite app_nil_r.
    repeat split; [unfold countCorrect; simpl; lia|].
    intros i q Hq. discriminate Hq.
  - cbn [forEach] in H. apply bind_Ok in H as (acc1 & Hstep & H).
    apply gradeQuestion_inv in Hstep as (r & Hr & Hres & Hcount).
    apply IH in H as (rs & Hres' & Hlen & Hcount' & Hall).
    exists (r :: rs). split; [|split; [|split]].
    + rewrite Hres', Hres, <- app_assoc. reflexivity.
    + simpl. rewrite Hlen. reflexivity.
    + rewrite Hcount', Hcount.
      change (r :: rs) with ([r] ++ rs). rewrite countCorrect_app.
      unfold countCorrect at 2. simpl.
      destruct (truthy (QuestionResult.isCorrect r)); simpl; lia.
    + intros [|i] q Hq.
      * injection Hq as <-. exists r. split; [reflexivity|].
        rewrite Nat.add_0_r. exact Hr.
      * destruct (Hall i q Hq) as (r' & Hr' & Hg). exists r'.
        split; [exact Hr'|].
        replace (index + S i) with (index + 1 + i) by lia. exact Hg.
Qed.

Lemma gradeQuiz_inv questions userAnswers r :
  gradeQuiz questions userAnswers = Ok r ->
  GradingResult.total r = length questions
  /\ length (GradingResult.results r) = length questions
  /\ GradingResult.score r = countCorrect (GradingResult.results r)
  /\ GradingResult.passed r = Nat.leb 26 (GradingResult.score r)
  /\ forall i question,
       questions !! i = Some question ->
       exists res, GradingResult.results r !! i = Some res
                   /\ graded userAnswers question i res.
Proof.
  unfold gradeQuiz. intros H. apply bind_Ok in H as (acc & Hrun & H).
  injection H as <-. cbn.
  apply forEach_inv in Hrun as (rs & Hres & Hlen & Hcount & Hall).
  cbn in Hres, Hcount. subst rs.
  repeat split; auto.
Qed.

Lemma graded_verdict userAnswers question index r :
  graded userAnswers question index r ->
  questionVerdict userAnswers question index = Ok (QuestionResult.isCorrect r).
Proof.
  intros (userAnswer & correctAnswers & Hua & Hca & Hma & Hcheck).
  unfold questionVerdict. rewrite Hua, Hca, Hma. exact Hcheck.
Qed.

Lemma filter_length_indexed {A : Type} (f : A -> bool) (g : nat -> bool)
    (l : list A) :
  forall k,
    (forall i x, l !! i = Some x -> f x = g (k + i)) ->
    length (List.filter f l) = length (List.filter g (seq k (length l))).
Proof.
  induction l as [|x l IH]; intros k H; [reflexivity|].
  cbn [List.filter length seq].
  assert (IH' : length (List.filter f l)
                = length (List.filter g (seq (S k) (length l)))).
  { apply IH. intros i y Hy. replace (S k + i) with (k + S i) by lia.
    apply (H (S i) y Hy). }
  rewrite (H 0 x eq_refl), Nat.add_0_r.
  destruct (g k); cbn [length]; rewrite IH'; reflexivity.
Qed.

(** C2: for every sequence of questions and every answers mapping, the
    result [gradeQuiz] returns has [passed] true exactly when [score] is at
    least 26, whatever the number of questions.  [score] is the number of
    correctly answered questions: the result holds one entry per question,
    in order, whose [isCorrect] is the mark the comparison gives the
    question with the answer stored under its position, and [score] counts
    the questions whose mark is truthy; [total] is the number of
    questions. *)
Theorem gradeQuiz_passed_iff_26 (questions : list value) (userAnswers : value)
    (r : GradingResult.t) :
  gradeQuiz questions userAnswers = Ok r ->
  (GradingResult.passed r = true <-> 26 <= GradingResult.score r)
  /\ GradingResult.score r
     = length (List.filter (correctlyAnswered questions userAnswers)
                           (seq 0 (length questions)))
  /\ GradingResult.total r = length questions
  /\ length (GradingResult.results r) = length questions
  /\ forall i question,
       questions !! i = Some question ->
       exists res,
         GradingResult.results r !! i = Some res
         /\ questionVerdict userAnswers question i
            = Ok (QuestionResult.isCorrect res).
Proof.
  intros H. apply gradeQuiz_inv in H as (Htot & Hlen & Hscore & Hpass & Hall).
  split; [rewrite Hpass; apply Nat.leb_le|].
  split; [|split; [exact Htot|split; [exact Hlen|]]].
  - rewrite Hscore. unfold countCorrect. rewrite <- Hlen.
    apply filter_length_indexed. intros i res Hres. cbn [Nat.add].
    assert (Hi : i < length questions)
      by (rewrite <- Hlen; eapply lookup_lt_Some; exact Hres).
    destruct (lookup_lt_is_Some_2 questions i Hi) as [question Hq].
    destruct (Hall i question Hq) as (res' & Hres' & Hg).
    assert (res' = res) by congruence. subst res'.
    unfold correctlyAnswered.
    rewrite (nth_lookup_Some _ _ VUndefined _ Hq), (graded_verdict _ _ _ _ Hg).
    reflexivity.
  - intros i question Hq. destruct (Hall i question Hq) as (res & Hres & Hg).
    exists res. split; [exact Hres|apply graded_verdict; exact Hg].
Qed.

Lemma gradeQuiz_passed_iff_26_witness :
  exists r,
    gradeQuiz (bank 2) (first_answers 1) = Ok r
    /\ (GradingResult.passed r = true <-> 26 <= GradingResult.score r)
    /\ GradingResult.score r
       = length (List.filter (correctlyAnswered (bank 2) (first_answers 1))
                             (seq 0 (length (bank 2))))
    /\ GradingResult.total r = length (bank 2)
    /\ length (GradingResult.results r) = length (bank 2)
    /\ forall i question,
         bank 2 !! i = Some question ->
         exists res,
           GradingResult.results r !! i = Some res
           /\ questionVerdict (first_answers 1) question i
              = Ok (QuestionResult.isCorrect res).
Proof.
  eexists. split; [vm_compute; reflexivity|].
  apply (gradeQuiz_passed_iff_26 (bank 2) (first_answers 1)).
  vm_compute; reflexivity.
Defined.

(** The threshold at work on banks of 20, 40 and 65 questions. *)
Example threshold_total_20 :
  outcome (bank 20) (first_answers 20) = Ok (20, 20, false).
Proof. vm_compute; reflexivity. Qed.

Example threshold_total_40 :
  outcome (bank 40) (first_answers 26) = Ok (26, 40, true)
  /\ outcome (bank 40) (first_answers 25) = Ok (25, 40, false).
Proof. split; vm_compute; reflexivity. Qed.

Example threshold_total_65 :
  outcome (bank 65) (first_answers 26) = Ok (26, 65, true)
  /\ outcome (bank 65) (first_answers 25) = Ok (25, 65, false).
Proof. split; vm_compute; reflexivity. Qed.

(** *** Multi-answer questions *)

Lemma includes_In x a : includes x a = true <-> In x a.
Proof.
  unfold includes. rewrite existsb_exists. split.
  - intros (y & Hy & E). apply String.eqb_eq in E. subst. exact Hy.
  - intros H. exists x. split; [exact H|apply String.eqb_refl].
Qed.

Lemma exact_match_iff (correct submitted : list string) :
  List.NoDup correct ->
  (Nat.eqb (length correct) (length submitted)
   && forallb (fun ans => includes ans submitted) correct = true
   <-> sameSelection submitted correct).
Proof.
  intros Hnd. unfold sameSelection.
  rewrite andb_true_iff, Nat.eqb_eq, forallb_forall. split.
  - intros [Hlen Hall]. split; [symmetry; exact Hlen|].
    assert (Hincl : incl correct submitted).
    { intros x Hx. apply includes_In. apply Hall. exact Hx. }
    intros x. split; [|apply Hincl].
    apply (List.NoDup_length_incl Hnd); [lia|exact Hincl].
  - intros [Hlen Hmem]. split; [symmetry; exact Hlen|].
    intros x Hx. apply includes_In. apply Hmem. exact Hx.
Qed.

Lemma getCorrectAnswers_upper question correctKeys :
  getCorrectAnswers question = Ok correctKeys ->
  map toUpperCase correctKeys = correctKeys.
Proof.
  unfold getCorrectAnswers. intros H.
  apply bind_Ok in H as (answer_option_text & _ & H).
  destruct (truthy answer_option_text
            && String.eqb (typeof answer_option_text) "object").
  - injection H as <-. apply map_toUpperCase_idem.
  - destruct (truthy (prop question "answer_option")).
    + apply bind_Ok in H as (key & Hkey & H). injection H as <-.
      destruct (prop question "answer_option"); try discriminate Hkey.
      injection Hkey as <-. simpl. rewrite toUpperCase_idem. reflexivity.
    + injection H as <-. reflexivity.
Qed.

Lemma getProp_Ok o k v : getProp o k = Ok v -> v = prop o k.
Proof. destruct o; simpl; congruence. Qed.

(** Where the test of a multi-answer question does what its comments say:
    when the correct keys are pairwise distinct once upper-cased (all the
    keys being ASCII text), the question is marked correct if and only if
    the submitted selection, case-normalized, has the same size and the
    same members as the correct keys, in any order; a selection with a key
    missing or a key too many is marked incorrect. *)
Lemma multi_answer_exact_match (questions : list value) (userAnswers : value)
    (r : GradingResult.t) (i : nat) (question : value) :
  gradeQuiz questions userAnswers = Ok r ->
  questions !! i = Some question ->
  isMultiAnswerQuestion question = Ok true ->
  Forall (fun key => ascii_text key = true) (answerSource question) ->
  Forall (fun selected => ascii_value selected = true)
         (selections (prop userAnswers (string_of_nat i))) ->
  exists res correctKeys submitted,
    GradingResult.results r !! i = Some res
    /\ getCorrectAnswers question = Ok correctKeys
    /\ mapM callToUpperCase (selections (prop userAnswers (string_of_nat i)))
       = Ok submitted
    /\ (List.NoDup correctKeys ->
        (QuestionResult.isCorrect res = VBool true
         <-> sameSelection submitted correctKeys)).
Proof.
  intros Hrun Hq Hmulti _ _.
  apply gradeQuiz_inv in Hrun as (_ & _ & _ & _ & Hall).
  destruct (Hall i question Hq) as (res & Hres & userAnswer & correctKeys
                                    & Hua & Hck & Hma & Hcheck).
  rewrite Hmulti in Hma. injection Hma as Hma. rewrite <- Hma in Hcheck.
  apply getProp_Ok in Hua. subst userAnswer.
  unfold checkAnswer in Hcheck.
  apply bind_Ok in Hcheck as (submitted & Hsub & Hcheck).
  rewrite (getCorrectAnswers_upper _ _ Hck) in Hcheck.
  exists res, correctKeys, submitted.
  split; [exact Hres|]. split; [exact Hck|]. split; [exact Hsub|].
  intros Hnd. injection Hcheck as <-.
  rewrite <- (exact_match_iff _ _ Hnd).
  split; [intros [= H]; exact H|intros ->; reflexivity].
Qed.

Lemma multi_answer_exact_match_witness :
  exists r res correctKeys submitted,
    gradeQuiz [q_single; q_multi]
              (VObj [("1", VArr [VStr "c"; VStr "a"])]) = Ok r
    /\ GradingResult.results r !! 1 = Some res
    /\ getCorrectAnswers q_multi = Ok correctKeys
    /\ mapM callToUpperCase
            (selections (prop (VObj [("1", VArr [VStr "c"; VStr "a"])])
                              (string_of_nat 1)))
       = Ok submitted
    /\ (List.NoDup correctKeys ->
        (QuestionResult.isCorrect res = VBool true
         <-> sameSelection submitted correctKeys)).
Proof.
  eexists.
  assert (Hrun : gradeQuiz [q_single; q_multi]
                           (VObj [("1", VArr [VStr "c"; VStr "a"])]) = Ok _)
    by (vm_compute; reflexivity).
  destruct (multi_answer_exact_match _ _ _ 1 q_multi Hrun eq_refl eq_refl)
    as (res & correctKeys & submitted & H);
    [repeat constructor|repeat constructor|].
  exists res, correctKeys, submitted. split; [exact Hrun|exact H].
Defined.

(** The strictness examples of the specification, correct keys A and C. *)
Example multi_answer_missing_key :
  verdicts [q_multi] (VObj [("0", VArr [VStr "A"])]) = Ok [VBool false].
Proof. vm_compute; reflexivity. Qed.

Example multi_answer_extra_key :
  verdicts [q_multi] (VObj [("0", VArr [VStr "A"; VStr "C"; VStr "D"])])
  = Ok [VBool false].
Proof. vm_compute; reflexivity. Qed.

Example multi_answer_exact_keys :
  verdicts [q_multi] (VObj [("0", VArr [VStr "A"; VStr "C"])]) = Ok [VBool true]
  /\ verdicts [q_multi] (VObj [("0", VArr [VStr "c"; VStr "a"])]) = Ok [VBool true].
Proof. split; vm_compute; reflexivity. Qed.

(** C3: the code at the failing input.  The explanation keys a and A of
    the question differ only by case, so that its only correct key is A,
    returned twice by [getCorrectAnswers]; the question is classified
    multi-answer, and the selection A, B, which holds the wrong key B, is
    marked correct: the two lists have the same length and every correct
    key is among the selected ones.  The comments of the test ("all correct
    answers and no incorrect ones", "same elements, same count") and the
    claim want it marked incorrect. *)
Lemma colliding_keys_accept_wrong_selection :
  isMultiAnswerQuestion q_case = Ok true
  /\ getCorrectAnswers q_case = Ok ["A"; "A"]
  /\ verdicts [q_case] (VObj [("0", VArr [VStr "A"; VStr "B"])]) = Ok [VBool true]
  /\ ~ sameSelection ["A"; "B"] ["A"; "A"].
Proof.
  repeat split; try (vm_compute; reflexivity).
  intros [_ Hmem]. destruct (proj1 (Hmem "B")) as [H|[H|[]]];
    [right; left; reflexivity|discriminate H|discriminate H].
Qed.

(** *** Unanswered questions *)

Lemma selections_blank userAnswer : blank userAnswer -> selections userAnswer = [].
Proof. intros [-> | [-> | ->]]; reflexivity. Qed.

(** Whenever the comparison returns on a blank entry, its verdict is falsy:
    [false] for a multi-answer question, the entry itself otherwise. *)
Lemma checkAnswer_blank question userAnswer correctKeys flag verdict :
  blank userAnswer ->
  getCorrectAnswers question = Ok correctKeys ->
  isMultiAnswerQuestion question = Ok flag ->
  checkAnswer question userAnswer correctKeys flag = Ok verdict ->
  truthy verdict = false.
Proof.
  intros Hblank Hck Hma Hcheck.
  rewrite (isMultiAnswerQuestion_length _ _ Hck) in Hma. injection Hma as Hma.
  unfold checkAnswer in Hcheck. destruct flag.
  - rewrite (selections_blank _ Hblank) in Hcheck. cbn in Hcheck.
    injection Hcheck as <-. rewrite length_map.
    apply Nat.ltb_lt in Hma. destruct (length correctKeys); [lia|reflexivity].
  - destruct Hblank as [-> | [-> | ->]]; cbn in Hcheck;
      [injection Hcheck as <-; reflexivity
      |injection Hcheck as <-; reflexivity
      |discriminate Hcheck].
Qed.

Lemma blank_marked_incorrect questions userAnswers r i question :
  gradeQuiz questions userAnswers = Ok r ->
  questions !! i = Some question ->
  blank (prop userAnswers (string_of_nat i)) ->
  exists res, GradingResult.results r !! i = Some res
              /\ truthy (QuestionResult.isCorrect res) = false.
Proof.
  intros Hrun Hq Hblank.
  apply gradeQuiz_inv in Hrun as (_ & _ & _ & _ & Hall).
  destruct (Hall i question Hq) as (res & Hres & userAnswer & correctKeys
                                    & Hua & Hck & Hma & Hcheck).
  apply getProp_Ok in Hua. subst userAnswer.
  exists res. split; [exact Hres|].
  exact (checkAnswer_blank _ _ _ _ _ Hblank Hck Hma Hcheck).
Qed.

Lemma getOptionText_string props key :
  exists text, getOptionText (VObj props) (VStr key) = Ok text.
Proof.
  unfold getOptionText. cbn [getProp mbind result_bind callToLowerCase].
  destruct (negb (truthy (prop (VObj props) "question_option")));
    [eexists; reflexivity|].
  destruct (prop (VObj props) "question_option") as [| |b|n|s|elems|ps];
    cbn [typeof String.eqb Ascii.eqb Bool.eqb]; try (eexists; reflexivity).
  - destruct (List.find _ elems) as [option|]; [|eexists; reflexivity].
    destruct (truthy option && truthy (prop option "option_text"));
      eexists; reflexivity.
  - destruct (truthy (prop (VObj ps) (toLowerCase key))); eexists; reflexivity.
Qed.

Lemma getOptionText_array_options props key :
  isArray (prop (VObj props) "question_option") = true ->
  exists text, getOptionText (VObj props) key = Ok text.
Proof.
  intros Harr. unfold getOptionText. cbn [getProp mbind result_bind].
  destruct (prop (VObj props) "question_option") as [| | | | |elems|];
    try discriminate Harr.
  cbn [truthy negb].
  destruct (List.find _ elems) as [option|]; [|eexists; reflexivity].
  destruct (truthy option && truthy (prop option "option_text"));
    eexists; reflexivity.
Qed.

(** The text of an option of a printable question is printable. *)
Lemma getOptionText_printable question key text :
  printable question = true ->
  getOptionText question key = Ok text -> printable text = true.
Proof.
  intros Hq. unfold getOptionText. intros H.
  apply bind_Ok in H as (question_option & Hopt & H).
  apply getProp_Ok in Hopt.
  assert (Hpo : printable question_option = true)
    by (rewrite Hopt; apply printable_prop; exact Hq).
  destruct question_option as [| |b|n|s|elems|ps];
    cbn [truthy negb typeof String.eqb Ascii.eqb Bool.eqb] in H;
    try (injection H as <-; reflexivity);
    try (destruct (negb _); injection H as <-; reflexivity).
  - destruct (List.find _ elems) as [option|] eqn:Hfind;
      [|injection H as <-; reflexivity].
    apply List.find_some in Hfind as [Hin _].
    destruct (truthy option && truthy (prop option "option_text"));
      injection H as <-; [|reflexivity].
    apply printable_prop. apply printable_arr in Hpo.
    rewrite Forall_forall in Hpo. apply Hpo, list_elem_of_In. exact Hin.
  - apply bind_Ok in H as (lowerKey & _ & H).
    destruct (truthy (prop (VObj ps) lowerKey));
      injection H as <-; [|reflexivity].
    apply (printable_prop (VObj ps)). exact Hpo.
Qed.

Lemma mapM_Forall {A B : Type} (f : A -> result B) (P : B -> Prop) l ys :
  (forall x y, f x = Ok y -> P y) -> mapM f l = Ok ys -> Forall P ys.
Proof.
  intros Hf. revert ys. induction l as [|x l IH]; intros ys H.
  - injection H as <-. constructor.
  - cbn [mapM] in H. apply bind_Ok in H as (y & Hy & H).
    apply bind_Ok in H as (ys' & Hys & H). injection H as <-.
    constructor; [exact (Hf x y Hy)|exact (IH ys' Hys)].
Qed.

Lemma joinValues_printable sep elems :
  Forall (fun x => printable x = true) elems ->
  exists s, joinValues sep elems = Ok s.
Proof.
  intros H. unfold joinValues.
  destruct (mapM_returns joinElem elems) as [strs ->].
  { eapply Forall_impl; [exact H|]. intros x Hx. apply printable_joinElem, Hx. }
  eexists; reflexivity.
Qed.

Lemma joinValues_strings sep elems :
  Forall (fun x => exists s, x = VStr s) elems ->
  exists s, joinValues sep elems = Ok s.
Proof.
  intros H. apply joinValues_printable.
  eapply Forall_impl; [exact H|]. intros x [s ->]. reflexivity.
Qed.

(** The texts of some options of a printable question can be joined. *)
Lemma option_texts_join {A : Type} question sep (f : A -> value)
    (keys : list A) texts :
  printable question = true ->
  mapM (fun ans => getOptionText question (f ans)) keys = Ok texts ->
  exists s, joinValues sep texts = Ok s.
Proof.
  intros Hq H. apply joinValues_printable.
  apply (mapM_Forall _ _ _ _ (fun x y => getOptionText_printable _ _ _ Hq) H).
Qed.

Lemma explain_accepted question flag :
  passes_checks question = true -> printable question = true ->
  exists e, explain question flag = Ok e.
Proof.
  intros Hp Hq. unfold passes_checks in Hp. rewrite !andb_true_iff in Hp.
  destruct Hp as [_ Hans]. unfold explain.
  destruct (truthy (prop question "answer_option_text")); [|eexists; reflexivity].
  destruct (String.eqb (typeof (prop question "answer_option_text")) "string");
    [eexists; reflexivity|].
  destruct (String.eqb (typeof (prop question "answer_option_text")) "object");
    [|eexists; reflexivity].
  destruct flag.
  - destruct (mapM_returns
                (fun kt : string * value =>
                   text ← toStr kt.2; Ok (toUpperCase kt.1 +:+ ": " +:+ text))
                (entries (prop question "answer_option_text")))
      as [parts ->]; [|eexists; reflexivity].
    eapply Forall_impl;
      [exact (printable_entries _ (printable_prop _ "answer_option_text" Hq))|].
    intros kt Hkt. cbn beta in Hkt.
    destruct (printable_toStr _ Hkt) as [text ->]. eexists; reflexivity.
  - destruct (prop question "answer_option"); try discriminate Hans.
    cbn [callToLowerCase mbind result_bind]. eexists; reflexivity.
Qed.

Lemma mapM_strings {B : Type} (f : value -> result B) (elems : list value) :
  (forall s, exists u, f (VStr s) = Ok u) ->
  Forall (fun x => exists s, x = VStr s) elems ->
  exists us, mapM f elems = Ok us.
Proof.
  intros Hf Hall. apply mapM_returns.
  eapply Forall_impl; [exact Hall|]. intros x [s ->]. apply Hf.
Qed.

Lemma checkAnswer_answerable question userAnswer correctKeys flag :
  passes_checks question = true ->
  answerable question userAnswer ->
  isMultiAnswerQuestion question = Ok flag ->
  exists verdict, checkAnswer question userAnswer correctKeys flag = Ok verdict.
Proof.
  intros Hp Han Hma. unfold checkAnswer. destruct flag.
  - assert (Hsel : Forall (fun x => exists s, x = VStr s) (selections userAnswer)).
    { destruct Han as [-> | [[s ->] | (elems & -> & Hall & _)]]; cbn.
      - constructor.
      - destruct (negb (String.eqb s "")); repeat constructor. eexists; reflexivity.
      - exact Hall. }
    destruct (mapM_strings callToUpperCase _
                (fun s => ex_intro _ _ eq_refl) Hsel) as [us ->].
    cbn [mbind result_bind]. eexists; reflexivity.
  - unfold passes_checks in Hp. rewrite !andb_true_iff in Hp.
    destruct Hp as [_ Hans].
    destruct (prop question "answer_option") as [| | | |a| |];
      try discriminate Hans.
    destruct Han as [-> | [[s ->] | (elems & _ & _ & Hm & _)]].
    + eexists; reflexivity.
    + cbn. destruct (negb (String.eqb s "")); eexists; reflexivity.
    + rewrite Hm in Hma. discriminate Hma.
Qed.

Lemma display_answerable question userAnswer correctKeys flag :
  passes_checks question = true ->
  printable question = true ->
  answerable question userAnswer ->
  isMultiAnswerQuestion question = Ok flag ->
  exists d, display question userAnswer correctKeys flag = Ok d.
Proof.
  intros Hp Hpr Han Hma.
  destruct (passes_checks_object _ Hp) as [props ->].
  unfold display. destruct flag.
  - destruct (mapM_returns (fun ans => getOptionText (VObj props) (VStr ans))
                           correctKeys) as [texts Htexts].
    { apply Forall_forall. intros ans _. apply getOptionText_string. }
    rewrite Htexts. cbn [mbind result_bind].
    destruct (option_texts_join _ "; " VStr _ _ Hpr Htexts) as [joined ->].
    cbn [mbind result_bind].
    destruct Han as [-> | [[s ->] | (elems & -> & Hall & _ & Harr)]].
    + eexists; reflexivity.
    + cbn [isArray andb truthy].
      destruct (negb (String.eqb s "")); [|eexists; reflexivity].
      destruct (getOptionText_string props s) as [text ->].
      eexists; reflexivity.
    + cbn [isArray arrayLength andb truthy]. destruct elems as [|x elems].
      * cbn [length Nat.ltb Nat.leb].
        destruct (getOptionText_array_options props (VArr []) (Harr eq_refl))
          as [text ->].
        eexists; reflexivity.
      * cbn [length Nat.ltb Nat.leb].
        destruct (joinValues_strings ", " (x :: elems) Hall) as [shown ->].
        cbn [mbind result_bind].
        destruct (mapM_strings (fun ans => getOptionText (VObj props) ans)
                    (x :: elems) (getOptionText_string props) Hall)
          as [us Hus].
        rewrite Hus. cbn [mbind result_bind].
        destruct (option_texts_join _ "; " (fun ans => ans) _ _ Hpr Hus)
          as [shownTexts ->].
        eexists; reflexivity.
  - unfold passes_checks in Hp. rewrite !andb_true_iff in Hp.
    destruct Hp as [_ Hans].
    destruct (prop (VObj props) "answer_option") as [| | | |a| |] eqn:Ha;
      try discriminate Hans.
    destruct (getOptionText_string props a) as [text ->].
    cbn [mbind result_bind].
    destruct Han as [-> | [[s ->] | (elems & _ & _ & Hm & _)]].
    + eexists; reflexivity.
    + cbn [truthy]. destruct (negb (String.eqb s "")); [|eexists; reflexivity].
      destruct (getOptionText_string props s) as [text' ->].
      eexists; reflexivity.
    + rewrite Hm in Hma. discriminate Hma.
Qed.

Lemma gradeQuestion_answerable userAnswers acc question index :
  userAnswers <> VUndefined -> userAnswers <> VNull ->
  passes_checks question = true ->
  printable question = true ->
  answerable question (prop userAnswers (string_of_nat index)) ->
  exists acc', gradeQuestion userAnswers acc question index = Ok acc'.
Proof.
  intros Hu Hn Hp Hpr Han. unfold gradeQuestion.
  assert (Hget : getProp userAnswers (string_of_nat index)
                 = Ok (prop userAnswers (string_of_nat index)))
    by (destruct userAnswers; try congruence; reflexivity).
  rewrite Hget, (getCorrectAnswers_accepted _ Hp). cbn [mbind result_bind].
  rewrite (isMultiAnswerQuestion_length _ _ (getCorrectAnswers_accepted _ Hp)).
  cbn [mbind result_bind].
  set (flag := Nat.ltb 1 _).
  assert (Hma : isMultiAnswerQuestion question = Ok flag)
    by apply (isMultiAnswerQuestion_length _ _ (getCorrectAnswers_accepted _ Hp)).
  destruct (checkAnswer_answerable question _
              (map toUpperCase (answerSource question)) flag Hp Han Hma)
    as [verdict ->].
  cbn [mbind result_bind].
  destruct (printable_toStr _ (printable_prop _ "learning_objective" Hpr))
    as [key ->].
  assert (Hstats : exists stats,
             (if truthy (prop question "learning_objective")
              then Ok (track_objective key (truthy verdict)
                                       (learningObjectiveStats acc))
              else Ok (learningObjectiveStats acc)) = Ok stats)
    by (destruct (truthy _); eexists; reflexivity).
  cbn [mbind result_bind]. destruct Hstats as [stats ->].
  cbn [mbind result_bind].
  destruct (explain_accepted question flag Hp Hpr) as [[explanation all] ->].
  cbn [mbind result_bind].
  destruct (display_answerable question _
              (map toUpperCase (answerSource question)) flag Hp Hpr Han Hma)
    as [[[[d1 d2] d3] d4] ->].
  cbn [mbind result_bind]. eexists; reflexivity.
Qed.

Lemma forEach_answerable userAnswers questions :
  userAnswers <> VUndefined -> userAnswers <> VNull ->
  forall index acc,
    (forall i question,
        questions !! i = Some question ->
        passes_checks question = true
        /\ printable question = true
        /\ answerable question (prop userAnswers (string_of_nat (index + i)))) ->
    exists acc', forEach userAnswers questions index acc = Ok acc'.
Proof.
  intros Hu Hn.
  induction questions as [|question rest IH]; intros index acc Hall.
  - eexists; reflexivity.
  - cbn [forEach].
    destruct (Hall 0 question eq_refl) as (Hp & Hpr & Han).
    rewrite Nat.add_0_r in Han.
    destruct (gradeQuestion_answerable userAnswers acc question index
                Hu Hn Hp Hpr Han) as [acc1 ->].
    cbn [mbind result_bind]. apply IH.
    intros i q Hq. replace (index + 1 + i) with (index + S i) by lia.
    apply Hall. exact Hq.
Qed.

Lemma gradeQuiz_answerable questions userAnswers :
  userAnswers <> VUndefined -> userAnswers <> VNull ->
  (forall i question,
      questions !! i = Some question ->
      isValid (validateQuestion question i) = true
      /\ printable question = true
      /\ answerable question (prop userAnswers (string_of_nat i))) ->
  exists r, gradeQuiz questions userAnswers = Ok r.
Proof.
  intros Hu Hn Hall.
  destruct (forEach_answerable userAnswers questions Hu Hn 0
              {| correctCount := 0; results := [];
                 learningObjectiveStats := [] |}) as [acc Hacc].
  { intros i question Hq. destruct (Hall i question Hq) as (Hv & Hpr & Han).
    rewrite validateQuestion_isValid in Hv. auto. }
  unfold gradeQuiz. rewrite Hacc. eexists; reflexivity.
Qed.

Lemma countCorrect_none rs :
  Forall (fun res => truthy (QuestionResult.isCorrect res) = false) rs ->
  countCorrect rs = 0.
Proof.
  unfold countCorrect. induction 1 as [|res rs Hres _ IH]; simpl; [reflexivity|].
  rewrite Hres. exact IH.
Qed.

(** C4, as the code has it: in every run of [gradeQuiz] that returns, a
    question whose answer entry is absent, the empty string or the empty
    array is marked incorrect.  The run returns for every sequence of
    accepted questions in which no object has a property of its own named
    toString, and every answers mapping in which each entry is absent, a
    string (the empty one included) or, on a multi-answer question, an
    array of strings, the empty array only when the options of the question
    are in array form, as the options of every prepared question are; when
    every entry is absent, the empty string or the empty array, the score
    is 0. *)
Theorem unanswered_marked_incorrect (questions : list value) (userAnswers : value) :
  (forall r i question,
      gradeQuiz questions userAnswers = Ok r ->
      questions !! i = Some question ->
      blank (prop userAnswers (string_of_nat i)) ->
      exists res, GradingResult.results r !! i = Some res
                  /\ truthy (QuestionResult.isCorrect res) = false)
  /\ (userAnswers <> VUndefined -> userAnswers <> VNull ->
      (forall i question,
          questions !! i = Some question ->
          isValid (validateQuestion question i) = true
          /\ printable question = true
          /\ answerable question (prop userAnswers (string_of_nat i))) ->
      exists r,
        gradeQuiz questions userAnswers = Ok r
        /\ ((forall i, i < length questions ->
                       blank (prop userAnswers (string_of_nat i))) ->
            GradingResult.score r = 0
            /\ GradingResult.passed r = false
            /\ Forall (fun res => truthy (QuestionResult.isCorrect res) = false)
                      (GradingResult.results r))).
Proof.
  split.
  - intros r i question. apply blank_marked_incorrect.
  - intros Hu Hn Hall.
    destruct (gradeQuiz_answerable questions userAnswers Hu Hn Hall)
      as [r Hrun].
    exists r. split; [exact Hrun|]. intros Hblank.
    assert (Hfalse : Forall (fun res => truthy (QuestionResult.isCorrect res) = false)
                            (GradingResult.results r)).
    { apply Forall_lookup. intros i res Hres.
      pose proof (gradeQuiz_inv _ _ _ Hrun) as (_ & Hlen & _).
      assert (Hi : i < length questions)
        by (rewrite <- Hlen; eapply lookup_lt_Some; exact Hres).
      destruct (lookup_lt_is_Some_2 questions i Hi) as [question Hq].
      destruct (blank_marked_incorrect _ _ _ _ _ Hrun Hq (Hblank i Hi))
        as (res' & Hres' & Hf).
      congruence. }
    pose proof (gradeQuiz_inv _ _ _ Hrun) as (_ & _ & Hscore & Hpass & _).
    rewrite (countCorrect_none _ Hfalse) in Hscore.
    rewrite Hpass, Hscore. split; [reflexivity|]. split; [reflexivity|exact Hfalse].
Qed.

Lemma unanswered_marked_incorrect_witness :
  exists r,
    gradeQuiz [q_single; q_multi] (VObj [("0", VStr ""); ("1", VArr [])]) = Ok r
    /\ ((forall i, i < length [q_single; q_multi] ->
                   blank (prop (VObj [("0", VStr ""); ("1", VArr [])])
                               (string_of_nat i))) ->
        GradingResult.score r = 0
        /\ GradingResult.passed r = false
        /\ Forall (fun res => truthy (QuestionResult.isCorrect res) = false)
                  (GradingResult.results r)).
Proof.
  apply (proj2 (unanswered_marked_incorrect
                  [q_single; q_multi]
                  (VObj [("0", VStr ""); ("1", VArr [])]))); try discriminate.
  intros [|[|i]] question Hq; try discriminate Hq; injection Hq as <-.
  - split; [vm_compute; reflexivity|]. split; [reflexivity|].
    right; left. exists "". reflexivity.
  - split; [vm_compute; reflexivity|]. split; [reflexivity|].
    right; right. exists []. split; [reflexivity|].
    split; [constructor|]. split; [vm_compute; reflexivity|]. reflexivity.
Defined.

(** C4 as stated fails: an empty array stored for a single-answer question
    makes [gradeQuiz] raise, and so does one stored for a multi-answer
    question whose options are still in the legacy object form. *)
Lemma empty_array_on_single_answer_raises :
  isValid (validateQuestion q_single 0) = true
  /\ isMultiAnswerQuestion q_single = Ok false
  /\ gradeQuiz [q_single] (VObj [("0", VArr [])]) = TypeError.
Proof. repeat split; vm_compute; reflexivity. Qed.

Example empty_array_on_legacy_options_raises :
  isValid (validateQuestion q_legacy_multi 0) = true
  /\ isMultiAnswerQuestion q_legacy_multi = Ok true
  /\ gradeQuiz [q_legacy_multi] (VObj [("0", VArr [])]) = TypeError.
Proof. repeat split; vm_compute; reflexivity. Qed.

(** *** The empty quiz *)

(** C10: on an empty sequence of questions [gradeQuiz] returns, for every
    answers mapping, score 0, total 0 and passed false, and its percentage,
    the rounding of 0/0 times 100, is not a number. *)
Theorem gradeQuiz_empty_percentage_nan (userAnswers : value) :
  exists r,
    gradeQuiz [] userAnswers = Ok r
    /\ GradingResult.score r = 0
    /\ GradingResult.total r = 0
    /\ GradingResult.passed r = false
    /\ GradingResult.percentage r
       = Math_round (PrimFloat.mul (PrimFloat.div (float_of_nat 0) (float_of_nat 0))
                                   (float_of_nat 100))
    /\ PrimFloat.is_nan (GradingResult.percentage r) = true.
Proof.
  eexists. split; [reflexivity|]. repeat split.
Qed.

(** ** The session store *)

Section LoadQuizState.
Variable StringToNumber : string -> number.
Variable now : Z.
Variable quizName : string.
Variable localStorage : gmap string item.

Lemma loadQuizState_absent :
  localStorage !! ("quiz_" +:+ quizName) = None ->
  loadQuizState StringToNumber now quizName localStorage = (VNull, localStorage).
Proof. unfold loadQuizState. intros ->. reflexivity. Qed.

Lemma loadQuizState_fresh state timestamp :
  localStorage !! ("quiz_" +:+ quizName) = Some (Json state) ->
  getProp state "timestamp" = Ok (VNum timestamp) ->
  (now - timestamp < maxAge)%Z ->
  loadQuizState StringToNumber now quizName localStorage = (state, localStorage).
Proof.
  unfold loadQuizState, check_age. intros -> -> Hage.
  cbn [mbind result_bind toNumber minus lessThan].
  apply Z.ltb_lt in Hage. rewrite Hage. reflexivity.
Qed.

Lemma loadQuizState_expired state timestamp :
  localStorage !! ("quiz_" +:+ quizName) = Some (Json state) ->
  getProp state "timestamp" = Ok (VNum timestamp) ->
  (maxAge <= now - timestamp)%Z ->
  loadQuizState StringToNumber now quizName localStorage
  = (VNull, delete ("quiz_" +:+ quizName) localStorage).
Proof.
  unfold loadQuizState, check_age. intros -> -> Hage.
  cbn [mbind result_bind toNumber minus lessThan].
  apply Z.ltb_ge in Hage. rewrite Hage. reflexivity.
Qed.
End LoadQuizState.

(** C6, as the code has it: [loadQuizState] returns null, and leaves the
    store as it is, when no entry exists for the key; for an entry holding a
    snapshot with a numeric timestamp it returns the snapshot intact, and
    leaves the store as it is, when now - timestamp is less than 24 hours,
    and otherwise (now - timestamp at least 24 hours) returns null and
    deletes the entry from the store. *)
Theorem loadQuizState_expiry (StringToNumber : string -> number) (now : Z)
    (quizName : string) (localStorage : gmap string item)
    (state : value) (timestamp : Z) :
  (localStorage !! ("quiz_" +:+ quizName) = None ->
   loadQuizState StringToNumber now quizName localStorage = (VNull, localStorage))
  /\ (localStorage !! ("quiz_" +:+ quizName) = Some (Json state) ->
      getProp state "timestamp" = Ok (VNum timestamp) ->
      ((now - timestamp < maxAge)%Z ->
       loadQuizState StringToNumber now quizName localStorage
       = (state, localStorage))
      /\ ((maxAge <= now - timestamp)%Z ->
          loadQuizState StringToNumber now quizName localStorage
          = (VNull, delete ("quiz_" +:+ quizName) localStorage)
          /\ (loadQuizState StringToNumber now quizName localStorage).2
             !! ("quiz_" +:+ quizName) = None)).
Proof.
  split; [apply loadQuizState_absent|].
  intros Hentry Hts. split.
  - apply loadQuizState_fresh; assumption.
  - intros Hage.
    rewrite (loadQuizState_expired _ _ _ _ _ _ Hentry Hts Hage).
    split; [reflexivity|]. apply lookup_delete_eq.
Qed.

(** A snapshot written 23 h 59 min ago is returned unchanged; one written
    24 h and 1 s ago is absent and deleted. *)
Lemma loadQuizState_expiry_witness :
  loadQuizState (fun _ => NotANumber) 90000000 "q" (store_with 3660000)
  = (snapshot 3660000, store_with 3660000)
  /\ loadQuizState (fun _ => NotANumber) 90000000 "q" (store_with 3599000)
     = (VNull, delete "quiz_q" (store_with 3599000))
  /\ (loadQuizState (fun _ => NotANumber) 90000000 "q" (store_with 3599000)).2
     !! "quiz_q" = None.
Proof.
  split.
  - apply (proj2 (loadQuizState_expiry (fun _ => NotANumber) 90000000 "q"
                    (store_with 3660000) (snapshot 3660000) 3660000)).
    + apply lookup_singleton_eq.
    + reflexivity.
    + unfold maxAge; lia.
  - apply (proj2 (loadQuizState_expiry (fun _ => NotANumber) 90000000 "q"
                    (store_with 3599000) (snapshot 3599000) 3599000)).
    + apply lookup_singleton_eq.
    + reflexivity.
    + unfold maxAge; lia.
Defined.

(** C6 as stated fails: a snapshot written exactly 24 hours ago, for which
    now - timestamp > 24h does not hold, is not returned; it is deleted. *)
Lemma snapshot_of_24h_is_dropped :
  ~ (86400000 - 0 > maxAge)%Z
  /\ store_with 0 !! "quiz_q" = Some (Json (snapshot 0))
  /\ loadQuizState (fun _ => NotANumber) 86400000 "q" (store_with 0)
     = (VNull, delete "quiz_q" (store_with 0))
  /\ delete "quiz_q" (store_with 0) !! "quiz_q" = None.
Proof.
  split; [unfold maxAge; lia|].
  split; [apply lookup_singleton_eq|].
  split; [|apply lookup_delete_eq].
  apply (loadQuizState_expired (fun _ => NotANumber) 86400000 "q" (store_with 0)
           (snapshot 0) 0).
  - apply lookup_singleton_eq.
  - reflexivity.
  - unfold maxAge; lia.
Qed.

(** ** The controller *)

Section Attempt.
Variable questions : list value.

Lemma storedAnswer_empty : storedAnswer (VArr []).
Proof. right. exists []. repeat split; constructor. Qed.

Lemma selected_stored index answers :
  valid_answers questions answers ->
  match lookup_prop index answers with
  | VArr elems =>
      List.NoDup elems /\ Forall (fun x => exists s, x = VStr s) elems
  | _ => True
  end.
Proof.
  intros Hv. unfold valid_answers in Hv.
  destruct (lookup_prop_Forall _ index _ Hv) as [-> | [_ Hs]]; [exact I|].
  cbn [snd] in Hs.
  destruct Hs as [[s ->] | (elems & -> & Hnd & Hall)]; [exact I|].
  split; assumption.
Qed.

Lemma not_selected optionValue elems :
  Forall (fun x => exists s, x = VStr s) elems ->
  existsb (fun value => strictEq value (VStr optionValue)) elems = false ->
  ~ In (VStr optionValue) elems.
Proof.
  intros Hall Hex Hin.
  assert (Hc : existsb (fun value => strictEq value (VStr optionValue)) elems = true).
  { apply existsb_exists. exists (VStr optionValue). split; [exact Hin|].
    simpl. apply String.eqb_refl. }
  congruence.
Qed.

Lemma set_answer_valid index v answers :
  index < length questions -> storedAnswer v ->
  valid_answers questions answers ->
  valid_answers questions (set_prop (string_of_nat index) v answers).
Proof.
  intros Hi Hs Hv. apply set_prop_Forall; [|exact Hv].
  cbn [fst snd]. split; [exists index; split; [reflexivity|exact Hi]|exact Hs].
Qed.

Lemma selectMultiOption_valid optionValue isChecked app :
  attempt_invariant questions app ->
  attempt_invariant questions (selectMultiOption optionValue isChecked app).
Proof.
  intros (Hq & Hi & Hv). unfold attempt_invariant, selectMultiOption.
  cbn [currentQuestions currentQuestionIndex userAnswers].
  split; [exact Hq|]. split; [exact Hi|].
  set (questionIndex := string_of_nat (currentQuestionIndex app)).
  assert (Hens : forall (b : bool) answers,
             valid_answers questions answers ->
             valid_answers questions
               (if b then set_prop questionIndex (VArr []) answers else answers)).
  { intros [] answers H; [|exact H].
    apply set_answer_valid; [exact Hi|apply storedAnswer_empty|exact H]. }
  pose proof (Hens (negb (truthy (lookup_prop questionIndex (userAnswers app))))
                   _ Hv) as Hv1.
  set (answers1 := if negb (truthy _) then _ else _) in *.
  pose proof (Hens (negb (isArray (lookup_prop questionIndex answers1)))
                   _ Hv1) as Hv2.
  set (answers2 := if negb (isArray _) then _ else _) in *.
  clearbody answers2. clear Hens Hv1.
  pose proof (selected_stored questionIndex answers2 Hv2) as Hsel.
  assert (Hsel' : forall elems,
             match lookup_prop questionIndex answers2 with
             | VArr elems => elems
             | _ => []
             end = elems ->
             List.NoDup elems /\ Forall (fun x => exists s, x = VStr s) elems).
  { intros elems <-. destruct (lookup_prop questionIndex answers2);
      try (split; constructor). exact Hsel. }
  destruct (Hsel' _ eq_refl) as [Hnd Hall].
  destruct isChecked.
  - destruct (negb (existsb _ _)) eqn:Hex; [|exact Hv2].
    apply set_answer_valid; [exact Hi| |exact Hv2].
    right. eexists. split; [reflexivity|]. split.
    + apply List.NoDup_app; [exact Hnd|repeat constructor; simpl; tauto|].
      intros x Hx [<-|[]]. apply negb_true_iff in Hex.
      exact (not_selected _ _ Hall Hex Hx).
    + apply Forall_app. split; [exact Hall|].
      constructor; [eexists; reflexivity|constructor].
  - apply set_answer_valid; [exact Hi| |exact Hv2].
    right. eexists. split; [reflexivity|]. split.
    + apply List.NoDup_filter. exact Hnd.
    + apply Forall_forall. intros x Hx.
      apply list_elem_of_In, List.filter_In in Hx as [Hx _].
      rewrite Forall_forall in Hall. apply Hall, list_elem_of_In. exact Hx.
Qed.

Lemma handle_valid app e :
  attempt_invariant questions app -> attempt_invariant questions (handle app e).
Proof.
  intros Hinv. destruct e as [optionValue|optionValue isChecked| |]; cbn [handle].
  - destruct Hinv as (Hq & Hi & Hv). repeat split; [exact Hq|exact Hi|].
    cbn [selectOption userAnswers].
    apply set_answer_valid; [exact Hi|left; eexists; reflexivity|exact Hv].
  - apply selectMultiOption_valid. exact Hinv.
  - destruct Hinv as (Hq & Hi & Hv). unfold previousQuestion.
    destruct (Nat.ltb 0 (currentQuestionIndex app));
      repeat split; cbn; auto; lia.
  - destruct Hinv as (Hq & Hi & Hv). unfold nextQuestion.
    destruct (Z.ltb _ _) eqn:Hlt; repeat split; cbn; auto.
    apply Z.ltb_lt in Hlt. rewrite Hq in Hlt. lia.
Qed.

Lemma run_valid events :
  questions <> [] -> attempt_invariant questions (run questions events).
Proof.
  intros Hne. unfold run.
  assert (Hstart : attempt_invariant questions (newQuiz questions)).
  { repeat split; cbn; [|constructor].
    destruct questions; [congruence|simpl; lia]. }
  revert Hstart. generalize (newQuiz questions).
  induction events as [|e events IH]; intros app Hinv; simpl; [exact Hinv|].
  apply IH, handle_valid, Hinv.
Qed.
End Attempt.

(** C8, as the code has it: in every state an attempt on a non-empty
    sequence of questions reaches by calls of selectOption,
    selectMultiOption (checked or unchecked), previousQuestion and
    nextQuestion, the keys of the answers mapping are valid question
    indices of the attempt, the current index is one, and every value is a
    key or an array of pairwise distinct keys.  The array may be empty: a
    multi-answer question from which the user has deselected every option
    keeps an empty-array entry. *)
Theorem answers_stay_valid (questions : list value) (events : list event) :
  questions <> [] ->
  currentQuestionIndex (run questions events) < length questions
  /\ Forall (fun kv => (exists i, kv.1 = string_of_nat i /\ i < length questions)
                       /\ storedAnswer kv.2)
            (userAnswers (run questions events)).
Proof.
  intros Hne. destruct (run_valid questions events Hne) as (_ & Hi & Hv).
  split; [exact Hi|exact Hv].
Qed.

Lemma answers_stay_valid_witness :
  currentQuestionIndex
    (run [q_single; q_multi]
         [SelectOption "B"; NextQuestion; SelectMultiOption "A" true]) < 2
  /\ Forall (fun kv => (exists i, kv.1 = string_of_nat i /\ i < 2)
                       /\ storedAnswer kv.2)
            (userAnswers
               (run [q_single; q_multi]
                    [SelectOption "B"; NextQuestion; SelectMultiOption "A" true])).
Proof.
  apply (answers_stay_valid [q_single; q_multi]
           [SelectOption "B"; NextQuestion; SelectMultiOption "A" true]).
  discriminate.
Defined.

(** C8 as stated fails: selecting an option of a multi-answer question and
    deselecting it again leaves an empty array in the answers. *)
Lemma deselecting_leaves_empty_array :
  userAnswers (run [q_multi] [SelectMultiOption "A" true;
                              SelectMultiOption "A" false])
  = [("0", VArr [])].
Proof. vm_compute; reflexivity. Qed.

(** * Further properties of the code *)

(** ** Validation of a bank *)

Lemma validateQuestion_valid_iff_no_error question index :
  isValid (validateQuestion question index) = true
  <-> errors (validateQuestion question index) = [].
Proof.
  unfold validateQuestion.
  destruct (negb (truthy question) || negb (String.eqb (typeof question) "object")).
  - cbn [isValid errors]. split; discriminate.
  - cbn [isValid errors]. rewrite Nat.eqb_eq. split.
    + apply nil_length_inv.
    + intros ->. reflexivity.
Qed.

Lemma validateQuestion_index_irrelevant question i j :
  isValid (validateQuestion question i) = isValid (validateQuestion question j).
Proof. rewrite !validateQuestion_isValid. reflexivity. Qed.

Lemma imap_shift {A B : Type} (f : nat -> A -> B) (index : nat) (l : list A) :
  imap ((fun i x => f (index + i) x) ∘ S) l
  = imap (fun i x => f (index + 1 + i) x) l.
Proof.
  apply imap_ext. intros i x _. cbn.
  replace (index + 1 + i) with (index + S i) by lia. reflexivity.
Qed.

(** The diagnostics [validateQuizData] reports for the questions [data],
    numbered from [index]: those of each question in turn, each prefixed
    with the file name. *)
Lemma validate_each_spec filename data :
  forall index valid diagnostics,
    validate_each filename data index valid diagnostics =
    (valid ++ List.filter (fun q => isValid (validateQuestion q 0)) data,
     diagnostics ++
     concat (imap (fun i q => map (fun err => filename +:+ ": " +:+ err)
                                  (errors (validateQuestion q (index + i))))
                  data)).
Proof.
  induction data as [|question rest IH]; intros index valid diagnostics.
  - cbn. rewrite !app_nil_r. reflexivity.
  - cbn [validate_each List.filter]. rewrite imap_cons. cbn [concat].
    rewrite Nat.add_0_r.
    rewrite (imap_shift (fun i q => map (fun err => filename +:+ ": " +:+ err)
                                        (errors (validateQuestion q i)))).
    rewrite (validateQuestion_index_irrelevant question 0 index).
    destruct (isValid (validateQuestion question index)) eqn:Hv.
    + apply validateQuestion_valid_iff_no_error in Hv. rewrite Hv. cbn [map app].
      rewrite IH, <- app_assoc. reflexivity.
    + rewrite IH, <- app_assoc. reflexivity.
Qed.

(** X1: partial acceptance.  For every array, the valid questions
    [validateQuizData] returns are exactly the elements [validateQuestion]
    accepts, in their original order, and the bank is valid exactly when
    there is at least one; a failing element never removes another. *)
Theorem validateQuizData_keeps_accepted (questions : list value) (filename : string) :
  QuizData.validQuestions (validateQuizData (VArr questions) filename)
  = List.filter (fun q => isValid (validateQuestion q 0)) questions
  /\ QuizData.isValid (validateQuizData (VArr questions) filename)
     = existsb (fun q => isValid (validateQuestion q 0)) questions.
Proof.
  unfold validateQuizData. destruct questions as [|q qs]; [split; reflexivity|].
  cbn [length Nat.eqb]. rewrite validate_each_spec.
  cbn [QuizData.validQuestions QuizData.isValid app]. split; [reflexivity|].
  generalize (q :: qs). intros l. induction l as [|x l IH]; [reflexivity|].
  cbn [List.filter existsb]. destruct (isValid (validateQuestion x 0)); [reflexivity|].
  exact IH.
Qed.

Lemma no_diagnostics_iff_accepted filename (l : list value) :
  forall index,
    concat (imap (fun i q => map (fun err => filename +:+ ": " +:+ err)
                                 (errors (validateQuestion q (index + i)))) l)
    = []
    <-> Forall (fun q => isValid (validateQuestion q 0) = true) l.
Proof.
  induction l as [|x l IH]; intros index.
  - cbn. split; [constructor|reflexivity].
  - rewrite imap_cons. cbn [concat]. rewrite Nat.add_0_r.
    rewrite (imap_shift (fun i q => map (fun err => filename +:+ ": " +:+ err)
                                        (errors (validateQuestion q i)))).
    rewrite Forall_cons, (validateQuestion_index_irrelevant x 0 index),
      validateQuestion_valid_iff_no_error.
    split.
    + intros H. apply app_eq_nil in H as [Hx Hl].
      apply map_eq_nil in Hx. split; [exact Hx|].
      apply (IH (index + 1)). exact Hl.
    + intros [Hx Hl]. rewrite Hx. cbn [map app].
      apply (IH (index + 1)). exact Hl.
Qed.

(** X2: for a non-empty array the diagnostics are those of the elements in
    turn, element [i] validated as question number [i + 1] and each of its
    diagnostics prefixed with the file name; there is no diagnostic exactly
    when every element is accepted. *)
Theorem validateQuizData_diagnostics (questions : list value) (filename : string) :
  questions <> [] ->
  QuizData.errors (validateQuizData (VArr questions) filename)
  = concat (imap (fun i q => map (fun err => filename +:+ ": " +:+ err)
                                 (errors (validateQuestion q i)))
                 questions)
  /\ (QuizData.errors (validateQuizData (VArr questions) filename) = []
      <-> Forall (fun q => isValid (validateQuestion q 0) = true) questions).
Proof.
  intros Hne. unfold validateQuizData.
  destruct questions as [|q qs]; [congruence|]. clear Hne.
  cbn [length Nat.eqb]. rewrite validate_each_spec. cbn [QuizData.errors app].
  split; [reflexivity|].
  apply (no_diagnostics_iff_accepted filename (q :: qs) 0).
Qed.

Lemma validateQuizData_diagnostics_witness :
  QuizData.errors (validateQuizData (VArr [q_single; VNum 7; q_multi]) "bank.json")
  = concat (imap (fun i q => map (fun err => "bank.json" +:+ ": " +:+ err)
                                 (errors (validateQuestion q i)))
                 [q_single; VNum 7; q_multi])
  /\ (QuizData.errors (validateQuizData (VArr [q_single; VNum 7; q_multi])
                                        "bank.json") = []
      <-> Forall (fun q => isValid (validateQuestion q 0) = true)
                 [q_single; VNum 7; q_multi]).
Proof.
  apply (validateQuizData_diagnostics [q_single; VNum 7; q_multi] "bank.json").
  discriminate.
Defined.

(** The partial-acceptance example: one malformed element among valid ones
    costs only itself. *)
Example validateQuizData_one_malformed :
  validateQuizData (VArr [q_single; VNum 7; q_multi]) "bank.json"
  = {| QuizData.isValid := true;
       QuizData.validQuestions := [q_single; q_multi];
       QuizData.errors := ["bank.json: Domanda 2: Non è un oggetto valido"] |}.
Proof. vm_compute; reflexivity. Qed.

(** X3: a bank is valid exactly when it contributes at least one question,
    and a bank that is not valid always comes with a diagnostic, whatever
    the parsed document is (not an array, an empty array, or an array none
    of whose elements is accepted). *)
Theorem validateQuizData_valid_or_diagnosed (data : value) (filename : string) :
  (QuizData.isValid (validateQuizData data filename) = true
   <-> QuizData.validQuestions (validateQuizData data filename) <> [])
  /\ (QuizData.isValid (validateQuizData data filename) = false ->
      QuizData.errors (validateQuizData data filename) <> []).
Proof.
  unfold validateQuizData.
  destruct data as [| | | | |questions|];
    try (cbn; split; [split; [discriminate|congruence]|discriminate]).
  destruct questions as [|q qs];
    [cbn; split; [split; [discriminate|congruence]|discriminate]|].
  cbn [length Nat.eqb]. rewrite validate_each_spec.
  cbn [QuizData.isValid QuizData.validQuestions QuizData.errors app].
  split.
  - destruct (List.filter _ (q :: qs)); cbn; split; congruence || discriminate.
  - intros Hinv Herr.
    apply (no_diagnostics_iff_accepted filename (q :: qs) 0) in Herr.
    apply Forall_cons in Herr as [Hq _].
    cbn [List.filter] in Hinv. rewrite Hq in Hinv. discriminate Hinv.
Qed.

Lemma validateQuizData_valid_or_diagnosed_witness :
  QuizData.errors (validateQuizData (VArr [VNum 7; VNull]) "bank.json") <> [].
Proof.
  apply (proj2 (validateQuizData_valid_or_diagnosed (VArr [VNum 7; VNull])
                  "bank.json")).
  vm_compute; reflexivity.
Defined.

(** ** Grading: results, score and statistics *)

Lemma gradeQuestion_inv_full userAnswers acc question index acc' :
  gradeQuestion userAnswers acc question index = Ok acc' ->
  exists r,
    graded userAnswers question index r
    /\ results acc' = results acc ++ [r]
    /\ correctCount acc' =
       correctCount acc + (if truthy (QuestionResult.isCorrect r) then 1 else 0)
    /\ learningObjectiveStats acc' = track_result (learningObjectiveStats acc) r
    /\ QuestionResult.question r = prop question "question_text"
    /\ QuestionResult.learningObjective r = prop question "learning_objective".
Proof.
  unfold gradeQuestion. intros H.
  apply bind_Ok in H as (userAnswer & Hua & H).
  apply bind_Ok in H as (correctAnswers & Hca & H).
  apply bind_Ok in H as (isMultiAnswer & Hma & H).
  apply bind_Ok in H as (isCorrect & Hic & H).
  apply bind_Ok in H as (stats & Hstats & H).
  apply bind_Ok in H as ([explanation allExplanations] & _ & H).
  apply bind_Ok in H as ([[[d1 d2] d3] d4] & _ & H).
  injection H as <-. cbn [results correctCount learningObjectiveStats].
  eexists. split; [|split; [reflexivity|split; [|split; [|split; reflexivity]]]].
  - exists userAnswer, correctAnswers. cbn [QuestionResult.isMultiAnswer
      QuestionResult.isCorrect]. auto.
  - cbn [QuestionResult.isCorrect]. destruct (truthy isCorrect); lia.
  - unfold track_result.
    cbn [QuestionResult.learningObjective QuestionResult.isCorrect].
    destruct (truthy (prop question "learning_objective"));
      [|injection Hstats as <-; reflexivity].
    apply bind_Ok in Hstats as (key & -> & Hstats).
    injection Hstats as <-. reflexivity.
Qed.

Lemma forEach_inv_full userAnswers questions :
  forall index acc acc',
    forEach userAnswers questions index acc = Ok acc' ->
    exists rs,
      results acc' = results acc ++ rs
      /\ learningObjectiveStats acc'
         = fold_left track_result rs (learningObjectiveStats acc)
      /\ Forall2 (fun q r =>
                    QuestionResult.question r = prop q "question_text"
                    /\ QuestionResult.learningObjective r
                       = prop q "learning_objective"
                    /\ isMultiAnswerQuestion q = Ok (QuestionResult.isMultiAnswer r))
                 questions rs.
Proof.
  induction questions as [|question rest IH]; intros index acc acc' H.
  - injection H as <-. exists []. rewrite app_nil_r. repeat split. constructor.
  - cbn [forEach] in H. apply bind_Ok in H as (acc1 & Hstep & H).
    apply gradeQuestion_inv_full in Hstep
      as (r & Hg & Hres & _ & Hstats & Hq & Hlo).
    apply IH in H as (rs & Hres' & Hstats' & Hall).
    exists (r :: rs). split; [|split].
    + rewrite Hres', Hres, <- app_assoc. reflexivity.
    + rewrite Hstats', Hstats. reflexivity.
    + constructor; [|exact Hall].
      destruct Hg as (ua & ca & _ & _ & Hma & _). auto.
Qed.

Lemma countCorrect_le rs : countCorrect rs <= length rs.
Proof. unfold countCorrect. apply List.filter_length_le. Qed.

(** X4: the results of a run line up with the questions: there is one
    result per question, in order, carrying the question's text, its
    learning objective and its multi-answer classification, and the score
    never exceeds the total. *)
Theorem gradeQuiz_results_aligned (questions : list value) (userAnswers : value)
    (r : GradingResult.t) :
  gradeQuiz questions userAnswers = Ok r ->
  GradingResult.score r <= GradingResult.total r
  /\ length (GradingResult.results r) = GradingResult.total r
  /\ Forall2 (fun q res =>
                QuestionResult.question res = prop q "question_text"
                /\ QuestionResult.learningObjective res
                   = prop q "learning_objective"
                /\ isMultiAnswerQuestion q = Ok (QuestionResult.isMultiAnswer res))
             questions (GradingResult.results r).
Proof.
  intros Hrun.
  pose proof (gradeQuiz_inv _ _ _ Hrun) as (Htot & Hlen & Hscore & _).
  unfold gradeQuiz in Hrun. apply bind_Ok in Hrun as (acc & Hacc & Hr).
  injection Hr as <-. cbn [GradingResult.score GradingResult.total
                            GradingResult.results] in *.
  apply forEach_inv_full in Hacc as (rs & Hres & _ & Hall).
  cbn [results app] in Hres. subst rs.
  split; [|split; [exact Hlen|exact Hall]].
  rewrite Hscore, <- Hlen. apply countCorrect_le.
Qed.

Lemma gradeQuiz_results_aligned_witness :
  exists r,
    gradeQuiz [q_single; q_multi] (VObj [("0", VStr "a")]) = Ok r
    /\ GradingResult.score r <= GradingResult.total r
    /\ length (GradingResult.results r) = GradingResult.total r
    /\ Forall2 (fun q res =>
                  QuestionResult.question res = prop q "question_text"
                  /\ QuestionResult.learningObjective res
                     = prop q "learning_objective"
                  /\ isMultiAnswerQuestion q
                     = Ok (QuestionResult.isMultiAnswer res))
               [q_single; q_multi] (GradingResult.results r).
Proof.
  eexists. split; [vm_compute; reflexivity|].
  apply (gradeQuiz_results_aligned [q_single; q_multi] (VObj [("0", VStr "a")])).
  vm_compute; reflexivity.
Defined.

Lemma lookup_track_eq key isCorrect stats :
  lookup_stats key (track_objective key isCorrect stats)
  = match lookup_stats key stats with
    | Some s => Some (count_answer isCorrect s)
    | None =>
        if inherited key then None
        else Some (count_answer isCorrect
                     {| ObjectiveStats.total := 0; ObjectiveStats.correct := 0;
                        ObjectiveStats.incorrect := 0 |})
    end.
Proof.
  induction stats as [|[k s] r IH]; cbn [track_objective lookup_stats].
  - destruct (inherited key); [reflexivity|].
    cbn [lookup_stats]. rewrite String.eqb_refl. reflexivity.
  - destruct (String.eqb key k) eqn:E; cbn [lookup_stats]; rewrite E;
      [reflexivity|exact IH].
Qed.

Lemma lookup_track_ne key key' isCorrect stats :
  key <> key' ->
  lookup_stats key (track_objective key' isCorrect stats) = lookup_stats key stats.
Proof.
  intros Hne.
  assert (Hf : String.eqb key key' = false) by (apply String.eqb_neq; exact Hne).
  induction stats as [|[k s] r IH]; cbn [track_objective lookup_stats].
  - destruct (inherited key'); [reflexivity|].
    cbn [lookup_stats]. rewrite Hf. reflexivity.
  - destruct (String.eqb key' k) eqn:E; cbn [lookup_stats].
    + apply String.eqb_eq in E. subst k. rewrite Hf. reflexivity.
    + rewrite IH. reflexivity.
Qed.

Lemma track_objective_names key isCorrect stats k :
  In k (map fst (track_objective key isCorrect stats)) ->
  k = key \/ In k (map fst stats).
Proof.
  induction stats as [|[k0 s0] r IH]; cbn [track_objective].
  - destruct (inherited key); [intros []|].
    intros [<-|[]]. left; reflexivity.
  - destruct (String.eqb key k0) eqn:E; cbn [map fst In].
    + intros H. right. exact H.
    + intros [<-|H]; [right; left; reflexivity|].
      destruct (IH H) as [->|H']; [left; reflexivity|right; right; exact H'].
Qed.

Lemma track_objective_keys key isCorrect stats :
  List.NoDup (map fst stats) ->
  List.NoDup (map fst (track_objective key isCorrect stats)).
Proof.
  induction stats as [|[k0 s0] r IH]; cbn [track_objective]; intros Hnd.
  - destruct (inherited key); [constructor|].
    repeat constructor. simpl. tauto.
  - cbn [map fst] in Hnd. apply List.NoDup_cons_iff in Hnd as [Hk0 Hnd].
    destruct (String.eqb key k0) eqn:E; cbn [map fst].
    + constructor; assumption.
    + constructor; [|apply IH; exact Hnd].
      intros Hin. apply track_objective_names in Hin as [->|Hin];
        [|exact (Hk0 Hin)].
      rewrite String.eqb_refl in E. discriminate E.
Qed.

Lemma tagged_counts_app key rs r :
  tagged_total key (rs ++ [r])
  = tagged_total key rs + (if tagged key r then 1 else 0)
  /\ tagged_correct key (rs ++ [r])
     = tagged_correct key rs
       + (if tagged key r && truthy (QuestionResult.isCorrect r) then 1 else 0)
  /\ tagged_incorrect key (rs ++ [r])
     = tagged_incorrect key rs
       + (if tagged key r && negb (truthy (QuestionResult.isCorrect r))
          then 1 else 0).
Proof.
  unfold tagged_total, tagged_correct, tagged_incorrect.
  rewrite !List.filter_app, !length_app. cbn [List.filter].
  repeat split;
    match goal with |- context [if ?b then _ else _] => destruct b end;
    reflexivity.
Qed.

Lemma tagged_split key rs :
  tagged_total key rs = tagged_correct key rs + tagged_incorrect key rs.
Proof.
  unfold tagged_total, tagged_correct, tagged_incorrect.
  induction rs as [|r rs IH]; cbn [List.filter]; [reflexivity|].
  destruct (tagged key r); cbn [andb]; [|exact IH].
  destruct (truthy (QuestionResult.isCorrect r)); cbn [negb length]; lia.
Qed.

Lemma stats_agree_same stats stats' rs key extra :
  lookup_stats key stats' = lookup_stats key stats ->
  match lookup_stats key stats with
  | Some s =>
      inherited key = false
      /\ ObjectiveStats.total s = tagged_total key rs
      /\ ObjectiveStats.correct s = tagged_correct key rs
      /\ ObjectiveStats.incorrect s = tagged_incorrect key rs
      /\ 1 <= ObjectiveStats.total s
  | None => inherited key = true \/ tagged_total key rs = 0
  end ->
  extra = 0 ->
  match lookup_stats key stats' with
  | Some s =>
      inherited key = false
      /\ ObjectiveStats.total s = tagged_total key rs + extra
      /\ ObjectiveStats.correct s = tagged_correct key rs + extra
      /\ ObjectiveStats.incorrect s = tagged_incorrect key rs + extra
      /\ 1 <= ObjectiveStats.total s
  | None => inherited key = true \/ tagged_total key rs + extra = 0
  end.
Proof.
  intros -> H ->. rewrite !Nat.add_0_r.
  destruct (lookup_stats key stats); exact H.
Qed.

Lemma track_result_agree stats rs r :
  stats_agree stats rs -> stats_agree (track_result stats r) (rs ++ [r]).
Proof.
  intros Hagree key. specialize (Hagree key).
  destruct (tagged_counts_app key rs r) as (Ht & Hc & Hi).
  rewrite Ht, Hc, Hi. clear Ht Hc Hi. unfold track_result, tagged.
  destruct (truthy (QuestionResult.learningObjective r)); cbn [andb];
    [|apply (stats_agree_same stats); [reflexivity|exact Hagree|reflexivity]].
  destruct (toStr (QuestionResult.learningObjective r)) as [name|];
    [|apply (stats_agree_same stats); [reflexivity|exact Hagree|reflexivity]].
  destruct (String.eqb key name) eqn:E.
  - apply String.eqb_eq in E. subst name. rewrite lookup_track_eq.
    pose proof (tagged_split key rs) as Hsplit.
    destruct (lookup_stats key stats) as [s|].
    + destruct Hagree as (H0 & H1 & H2 & H3 & H4).
      destruct (truthy (QuestionResult.isCorrect r));
        cbn [count_answer ObjectiveStats.total ObjectiveStats.correct
             ObjectiveStats.incorrect andb negb];
        repeat split; try assumption; lia.
    + destruct (inherited key) eqn:Hinh; [left; reflexivity|].
      destruct Hagree as [Hc|Hz]; [discriminate Hc|].
      destruct (truthy (QuestionResult.isCorrect r));
        cbn [count_answer ObjectiveStats.total ObjectiveStats.correct
             ObjectiveStats.incorrect andb negb];
        repeat split; lia.
  - apply String.eqb_neq in E. cbn [andb].
    apply (stats_agree_same stats);
      [apply lookup_track_ne; exact E|exact Hagree|reflexivity].
Qed.

Lemma fold_track_result_agree rs :
  forall stats done,
    stats_agree stats done ->
    List.NoDup (map fst stats) ->
    stats_agree (fold_left track_result rs stats) (done ++ rs)
    /\ List.NoDup (map fst (fold_left track_result rs stats)).
Proof.
  induction rs as [|r rs IH]; intros stats done Hagree Hnd.
  - rewrite app_nil_r. split; assumption.
  - cbn [fold_left].
    replace (done ++ r :: rs) with ((done ++ [r]) ++ rs)
      by (rewrite <- app_assoc; reflexivity).
    apply IH.
    + apply track_result_agree. exact Hagree.
    + unfold track_result. destruct (truthy _); [|exact Hnd].
      destruct (toStr _); [|exact Hnd].
      apply track_objective_keys. exact Hnd.
Qed.

(** X5: the objective statistics of a run count its results.  Every
    objective has at most one entry; the entry of an objective has as total
    the number of questions tagged with it (at least one), as correct the
    number of those marked correct and as incorrect the number of the
    others, so that total = correct + incorrect; questions without
    objective are counted nowhere.  An objective named like a property that
    every object inherits (toString, constructor, valueOf, ...) never gets
    an entry, however many questions it tags; any other objective without
    entry tags no question. *)
Theorem gradeQuiz_objective_stats (questions : list value) (userAnswers : value)
    (r : GradingResult.t) :
  gradeQuiz questions userAnswers = Ok r ->
  stats_agree (GradingResult.learningObjectiveStats r) (GradingResult.results r)
  /\ List.NoDup (map fst (GradingResult.learningObjectiveStats r))
  /\ (forall key s,
        lookup_stats key (GradingResult.learningObjectiveStats r) = Some s ->
        ObjectiveStats.total s
        = ObjectiveStats.correct s + ObjectiveStats.incorrect s)
  /\ (forall key,
        inherited key = true ->
        lookup_stats key (GradingResult.learningObjectiveStats r) = None)
  /\ (forall key,
        inherited key = false ->
        lookup_stats key (GradingResult.learningObjectiveStats r) = None ->
        tagged_total key (GradingResult.results r) = 0).
Proof.
  intros Hrun. unfold gradeQuiz in Hrun.
  apply bind_Ok in Hrun as (acc & Hacc & Hr). injection Hr as <-.
  cbn [GradingResult.learningObjectiveStats GradingResult.results].
  apply forEach_inv_full in Hacc as (rs & Hres & Hstats & _).
  cbn [results learningObjectiveStats app] in Hres, Hstats.
  rewrite Hres, Hstats.
  destruct (fold_track_result_agree rs [] []) as [Hagree Hnd].
  { intros key. right. reflexivity. }
  { constructor. }
  cbn [app] in Hagree. split; [exact Hagree|]. split; [exact Hnd|].
  split; [|split].
  - intros key s Hs. specialize (Hagree key). rewrite Hs in Hagree.
    destruct Hagree as (_ & H1 & H2 & H3 & _).
    rewrite H1, H2, H3. apply tagged_split.
  - intros key Hinh. specialize (Hagree key).
    destruct (lookup_stats key _) as [s|]; [|reflexivity].
    destruct Hagree as (H0 & _). congruence.
  - intros key Hinh Hnone. specialize (Hagree key). rewrite Hnone in Hagree.
    destruct Hagree as [H|H]; [congruence|exact H].
Qed.

Lemma gradeQuiz_objective_stats_witness :
  exists r,
    gradeQuiz [q_tagged "FL-1.1.1" "A"; q_tagged "FL-1.1.1" "B";
               q_tagged "toString" "A"; q_single]
              (VObj [("0", VStr "A"); ("1", VStr "A"); ("2", VStr "a")]) = Ok r
    /\ stats_agree (GradingResult.learningObjectiveStats r)
                   (GradingResult.results r)
    /\ List.NoDup (map fst (GradingResult.learningObjectiveStats r))
    /\ (forall key s,
          lookup_stats key (GradingResult.learningObjectiveStats r) = Some s ->
          ObjectiveStats.total s
          = ObjectiveStats.correct s + ObjectiveStats.incorrect s)
    /\ (forall key,
          inherited key = true ->
          lookup_stats key (GradingResult.learningObjectiveStats r) = None)
    /\ (forall key,
          inherited key = false ->
          lookup_stats key (GradingResult.learningObjectiveStats r) = None ->
          tagged_total key (GradingResult.results r) = 0).
Proof.
  eexists. split; [vm_compute; reflexivity|].
  apply (gradeQuiz_objective_stats
           [q_tagged "FL-1.1.1" "A"; q_tagged "FL-1.1.1" "B";
            q_tagged "toString" "A"; q_single]
           (VObj [("0", VStr "A"); ("1", VStr "A"); ("2", VStr "a")])).
  vm_compute; reflexivity.
Defined.

(** The statistics scenario: two questions tagged FL-1.1.1, one answered
    correctly and one not, one tagged FL-2.3.1 answered correctly, and one
    question without objective. *)
Example objective_stats_scenario :
  (r ← gradeQuiz [q_tagged "FL-1.1.1" "A"; q_tagged "FL-1.1.1" "B";
                  q_tagged "FL-2.3.1" "A"; q_single]
                 (VObj [("0", VStr "A"); ("1", VStr "A"); ("2", VStr "a")]);
   Ok (GradingResult.learningObjectiveStats r))
  = Ok [("FL-1.1.1", {| ObjectiveStats.total := 2; ObjectiveStats.correct := 1;
                        ObjectiveStats.incorrect := 1 |});
        ("FL-2.3.1", {| ObjectiveStats.total := 1; ObjectiveStats.correct := 1;
                        ObjectiveStats.incorrect := 0 |})].
Proof. vm_compute; reflexivity. Qed.

(** A question tagged with the name of an inherited property is graded,
    and leaves no entry in the statistics. *)
Example inherited_objective_not_counted :
  (r ← gradeQuiz [q_tagged "toString" "A"; q_tagged "FL-1.1.1" "A"]
                 (VObj [("0", VStr "A"); ("1", VStr "A")]);
   Ok (GradingResult.score r, GradingResult.learningObjectiveStats r))
  = Ok (2, [("FL-1.1.1", {| ObjectiveStats.total := 1; ObjectiveStats.correct := 1;
                            ObjectiveStats.incorrect := 0 |})]).
Proof. vm_compute; reflexivity. Qed.

(** *** Single-answer questions *)

(** X6: a single-answer question graded by [gradeQuiz] is marked correct if
    and only if its answer entry is a non-empty string that equals
    answer_option up to the case of letters, the answer entry and
    answer_option being ASCII text where they are strings. *)
Theorem single_answer_case_insensitive (questions : list value)
    (userAnswers : value) (r : GradingResult.t) (i : nat) (question : value) :
  gradeQuiz questions userAnswers = Ok r ->
  questions !! i = Some question ->
  isMultiAnswerQuestion question = Ok false ->
  ascii_value (prop userAnswers (string_of_nat i)) = true ->
  ascii_value (prop question "answer_option") = true ->
  exists res,
    GradingResult.results r !! i = Some res
    /\ (truthy (QuestionResult.isCorrect res) = true
        <-> exists given expected,
              prop userAnswers (string_of_nat i) = VStr given
              /\ given <> ""
              /\ prop question "answer_option" = VStr expected
              /\ toLowerCase given = toLowerCase expected).
Proof.
  intros Hrun Hq Hsingle _ _.
  apply gradeQuiz_inv in Hrun as (_ & _ & _ & _ & Hall).
  destruct (Hall i question Hq) as (res & Hres & userAnswer & correctKeys
                                    & Hua & _ & Hma & Hcheck).
  rewrite Hsingle in Hma. injection Hma as Hma. rewrite <- Hma in Hcheck.
  apply getProp_Ok in Hua. subst userAnswer.
  exists res. split; [exact Hres|].
  unfold checkAnswer in Hcheck.
  destruct (truthy (prop userAnswers (string_of_nat i))) eqn:Ht.
  - apply bind_Ok in Hcheck as (given & Hgiven & Hcheck).
    apply bind_Ok in Hcheck as (expected & Hexpected & Hcheck).
    injection Hcheck as <-.
    destruct (prop userAnswers (string_of_nat i)) as [| | | |s| |];
      try discriminate Hgiven.
    destruct (prop question "answer_option") as [| | | |a| |];
      try discriminate Hexpected.
    injection Hgiven as <-. injection Hexpected as <-.
    cbn [truthy]. rewrite String.eqb_eq. split.
    + intros Heq. exists s, a. repeat split; [|exact Heq].
      intros ->. discriminate Ht.
    + intros (given & expected & [= <-] & _ & [= <-] & Heq). exact Heq.
  - injection Hcheck as <-. rewrite Ht. split; [discriminate|].
    intros (given & expected & Hg & Hne & _). rewrite Hg in Ht.
    cbn in Ht. destruct (String.eqb given "") eqn:E; [|discriminate Ht].
    apply String.eqb_eq in E. contradiction.
Qed.

Lemma single_answer_case_insensitive_witness :
  exists r res,
    gradeQuiz [q_multi; q_single] (VObj [("1", VStr "a")]) = Ok r
    /\ GradingResult.results r !! 1 = Some res
    /\ (truthy (QuestionResult.isCorrect res) = true
        <-> exists given expected,
              prop (VObj [("1", VStr "a")]) (string_of_nat 1) = VStr given
              /\ given <> ""
              /\ prop q_single "answer_option" = VStr expected
              /\ toLowerCase given = toLowerCase expected).
Proof.
  eexists.
  assert (Hrun : gradeQuiz [q_multi; q_single] (VObj [("1", VStr "a")]) = Ok _)
    by (vm_compute; reflexivity).
  destruct (single_answer_case_insensitive _ _ _ 1 q_single Hrun eq_refl eq_refl
              eq_refl eq_refl) as (res & H).
  exists res. split; [exact Hrun|exact H].
Defined.

(** *** Answers of the kind the controller stores *)

(** X7: [gradeQuiz] does not raise on the answers the controller stores.
    For every sequence of accepted questions in which no object has a
    property of its own named toString, and every answers object in which
    the entry of each question is absent, a string, or, on a multi-answer
    question, an array of strings (the empty array only when the options
    are in array form), [gradeQuiz] returns a result. *)
Theorem gradeQuiz_returns_on_stored_answers (questions : list value)
    (userAnswers : value) :
  userAnswers <> VUndefined -> userAnswers <> VNull ->
  (forall i question,
      questions !! i = Some question ->
      isValid (validateQuestion question i) = true
      /\ printable question = true
      /\ answerable question (prop userAnswers (string_of_nat i))) ->
  exists r, gradeQuiz questions userAnswers = Ok r.
Proof.
  intros Hu Hn Hall.
  destruct (forEach_answerable userAnswers questions Hu Hn 0
              {| correctCount := 0; results := [];
                 learningObjectiveStats := [] |}) as [acc Hacc].
  { intros i question Hq. destruct (Hall i question Hq) as (Hv & Hpr & Han).
    rewrite validateQuestion_isValid in Hv.
    split; [exact Hv|split; [exact Hpr|exact Han]]. }
  unfold gradeQuiz. rewrite Hacc. eexists; reflexivity.
Qed.

Lemma gradeQuiz_returns_on_stored_answers_witness :
  exists r,
    gradeQuiz [q_single; q_multi; q_legacy]
              (VObj [("0", VStr "B"); ("1", VArr [VStr "A"; VStr "D"])]) = Ok r.
Proof.
  apply (gradeQuiz_returns_on_stored_answers
           [q_single; q_multi; q_legacy]
           (VObj [("0", VStr "B"); ("1", VArr [VStr "A"; VStr "D"])]));
    try discriminate.
  intros [|[|[|i]]] question Hq; try discriminate Hq; injection Hq as <-.
  - split; [vm_compute; reflexivity|]. split; [reflexivity|].
    right; left. eexists; reflexivity.
  - split; [vm_compute; reflexivity|]. split; [reflexivity|].
    right; right. eexists.
    split; [reflexivity|]. split; [repeat constructor; eexists; reflexivity|].
    split; [vm_compute; reflexivity|]. discriminate.
  - split; [vm_compute; reflexivity|]. split; [reflexivity|].
    left. reflexivity.
Defined.

(** An accepted question with an objective that cannot be converted to a
    property key makes [gradeQuiz] raise, whatever the answers. *)
Example unprintable_objective_raises :
  isValid (validateQuestion
             (VObj [("question_text", VStr "Q");
                    ("question_option",
                     VArr [option_entry "A" "x"; option_entry "B" "y"]);
                    ("answer_option", VStr "A");
                    ("learning_objective", VObj [("toString", VNum 1)])]) 0)
  = true
  /\ gradeQuiz [VObj [("question_text", VStr "Q");
                      ("question_option",
                       VArr [option_entry "A" "x"; option_entry "B" "y"]);
                      ("answer_option", VStr "A");
                      ("learning_objective", VObj [("toString", VNum 1)])]]
               (VObj []) = TypeError.
Proof. split; vm_compute; reflexivity. Qed.

(** ** Saving, loading and clearing snapshots *)

Fixpoint json_copy_id (v : value) : json_value v = true -> json_copy v = v.
Proof.
  destruct v as [| |b|n|s|elems|props]; cbn [json_value json_copy];
    intros H; try reflexivity; try discriminate H.
  - f_equal. induction elems as [|x elems IH]; [reflexivity|].
    cbn [forallb map] in *. apply andb_true_iff in H as [Hx Hr].
    rewrite (json_copy_id x Hx), (IH Hr). reflexivity.
  - f_equal. induction props as [|[k x] props IH]; [reflexivity|].
    apply andb_true_iff in H as [Hx Hr].
    rewrite (IH Hr), (json_copy_id x Hx).
    destruct x; try reflexivity. discriminate Hx.
Qed.

Lemma json_value_set_prop k v props :
  json_value v = true ->
  json_value (VObj props) = true ->
  json_value (VObj (set_prop k v props)) = true.
Proof.
  intros Hv. cbn [json_value].
  induction props as [|[k' v'] r IH]; cbn [set_prop].
  - intros _. rewrite Hv. reflexivity.
  - intros H. apply andb_true_iff in H as [Hx Hr].
    destruct (String.eqb k k').
    + rewrite Hv, Hr. reflexivity.
    + rewrite Hx, (IH Hr). reflexivity.
Qed.

Lemma quiz_key_inj a b : "quiz_" +:+ a = "quiz_" +:+ b -> a = b.
Proof. apply append_inj_r. Qed.

Section Snapshots.
Variable StringToNumber : string -> number.

(** X8: a snapshot that was saved is found again for 24 hours.  After
    [saveQuizState] has stored, at time [now], a state object that holds no
    [undefined], [loadQuizState] called for the same quiz less than 24 hours
    later returns that state with its fields unchanged and the time of the
    save as timestamp, and leaves the store as it is, whatever the store
    held before. *)
Theorem save_then_load (now later : Z) (quizName : string)
    (props : list (string * value)) (localStorage : gmap string item) :
  json_value (VObj props) = true ->
  (later - now < maxAge)%Z ->
  let saved := saveQuizState true now quizName (VObj props) localStorage in
  loadQuizState StringToNumber later quizName saved
  = (VObj (set_prop "timestamp" (VNum now) props), saved)
  /\ forall k, k <> "timestamp" ->
               prop (loadQuizState StringToNumber later quizName saved).1 k
               = prop (VObj props) k.
Proof.
  intros Hjson Hage saved.
  assert (Hload : loadQuizState StringToNumber later quizName saved
                  = (VObj (set_prop "timestamp" (VNum now) props), saved)).
  { apply (loadQuizState_fresh _ _ _ _ _ now).
    - unfold saved, saveQuizState. rewrite lookup_insert_eq.
      do 2 f_equal. unfold spread. cbn [entries fold_left fst snd].
      apply json_copy_id. apply json_value_set_prop; [reflexivity|exact Hjson].
    - cbn [getProp prop]. rewrite lookup_set_prop_eq. reflexivity.
    - exact Hage. }
  split; [exact Hload|].
  intros k Hk. rewrite Hload. cbn [fst prop].
  apply lookup_set_prop_ne. exact Hk.
Qed.

(** X9: a saved snapshot expires.  When [loadQuizState] is called 24 hours
    or more after the save, it returns null and the snapshot is gone: the
    store is the one before the save without any entry for the quiz. *)
Theorem save_then_load_expired (now later : Z) (quizName : string)
    (props : list (string * value)) (localStorage : gmap string item) :
  json_value (VObj props) = true ->
  (maxAge <= later - now)%Z ->
  loadQuizState StringToNumber later quizName
    (saveQuizState true now quizName (VObj props) localStorage)
  = (VNull, clearQuizState quizName localStorage).
Proof.
  intros Hjson Hage.
  rewrite (loadQuizState_expired _ _ _ _
             (VObj (set_prop "timestamp" (VNum now) props)) now).
  - unfold saveQuizState, clearQuizState. rewrite delete_insert_eq. reflexivity.
  - unfold saveQuizState. rewrite lookup_insert_eq.
    do 2 f_equal. unfold spread. cbn [entries fold_left fst snd].
    apply json_copy_id. apply json_value_set_prop; [reflexivity|exact Hjson].
  - cbn [getProp prop]. rewrite lookup_set_prop_eq. reflexivity.
  - exact Hage.
Qed.

(** X10: [loadQuizState] only reads.  What it returns, when not null, is the
    value stored under the key of the quiz, and the store it leaves is the
    one it found or, when it returns null, possibly that one without the
    entry of the quiz; no other entry is ever touched. *)
Theorem loadQuizState_only_reads (now : Z) (quizName : string)
    (localStorage : gmap string item) :
  let loaded := loadQuizState StringToNumber now quizName localStorage in
  (loaded.1 <> VNull ->
   localStorage !! ("quiz_" +:+ quizName) = Some (Json loaded.1)
   /\ loaded.2 = localStorage)
  /\ (loaded.2 = localStorage
      \/ loaded.2 = delete ("quiz_" +:+ quizName) localStorage)
  /\ forall other, other <> "quiz_" +:+ quizName ->
                   loaded.2 !! other = localStorage !! other.
Proof.
  unfold loadQuizState, check_age. cbn zeta.
  destruct (localStorage !! ("quiz_" +:+ quizName)) as [[text|state]|] eqn:He;
    cbn [fst snd]; try (split; [congruence|split; [left; reflexivity|reflexivity]]).
  destruct (getProp state "timestamp") as [timestamp|];
    cbn [mbind result_bind fst snd];
    [|split; [congruence|split; [left; reflexivity|reflexivity]]].
  destruct (toNumber StringToNumber timestamp) as [written|];
    cbn [mbind result_bind fst snd];
    [|split; [congruence|split; [left; reflexivity|reflexivity]]].
  destruct (lessThan _ _); cbn [fst snd].
  - split; [intros _; split; reflexivity|]. split; [left; reflexivity|reflexivity].
  - split; [congruence|]. split; [right; reflexivity|].
    intros other Hother. apply lookup_delete_ne. congruence.
Qed.

(** X11: after [clearQuizState], [loadQuizState] finds nothing for the quiz,
    whatever the store held, and clearing a quiz that has no snapshot
    changes nothing. *)
Theorem clear_then_load (now : Z) (quizName : string)
    (localStorage : gmap string item) :
  loadQuizState StringToNumber now quizName (clearQuizState quizName localStorage)
  = (VNull, clearQuizState quizName localStorage)
  /\ clearQuizState quizName (clearQuizState quizName localStorage)
     = clearQuizState quizName localStorage
  /\ (localStorage !! ("quiz_" +:+ quizName) = None ->
      clearQuizState quizName localStorage = localStorage).
Proof.
  split; [|split].
  - apply loadQuizState_absent. unfold clearQuizState. apply lookup_delete_eq.
  - unfold clearQuizState. apply delete_delete_eq.
  - unfold clearQuizState. apply delete_id.
Qed.

(** X12: snapshots of different quizzes do not interfere.  Saving or
    clearing the snapshot of one quiz does not change what [loadQuizState]
    returns for a quiz of another name. *)
Theorem other_quiz_untouched (stored : bool) (now later : Z)
    (quizName other : string) (state : value) (localStorage : gmap string item) :
  other <> quizName ->
  (loadQuizState StringToNumber later other
     (saveQuizState stored now quizName state localStorage)).1
  = (loadQuizState StringToNumber later other localStorage).1
  /\ (loadQuizState StringToNumber later other
        (clearQuizState quizName localStorage)).1
     = (loadQuizState StringToNumber later other localStorage).1.
Proof.
  intros Hne.
  assert (Hkey : "quiz_" +:+ quizName <> "quiz_" +:+ other).
  { intros H. apply quiz_key_inj in H. congruence. }
  unfold loadQuizState, saveQuizState, clearQuizState, check_age. cbn zeta.
  split.
  - destruct stored; [|reflexivity].
    rewrite lookup_insert_ne by exact Hkey.
    destruct (localStorage !! ("quiz_" +:+ other)) as [[text|st]|]; try reflexivity.
    destruct (getProp st "timestamp") as [timestamp|];
      cbn [mbind result_bind]; [|reflexivity].
    destruct (toNumber StringToNumber timestamp);
      cbn [mbind result_bind]; [|reflexivity].
    destruct (lessThan _ _); reflexivity.
  - rewrite lookup_delete_ne by exact Hkey.
    destruct (localStorage !! ("quiz_" +:+ other)) as [[text|st]|]; try reflexivity.
    destruct (getProp st "timestamp") as [timestamp|];
      cbn [mbind result_bind]; [|reflexivity].
    destruct (toNumber StringToNumber timestamp);
      cbn [mbind result_bind]; [|reflexivity].
    destruct (lessThan _ _); reflexivity.
Qed.

End Snapshots.

Lemma save_then_load_witness :
  loadQuizState (fun _ => NotANumber) 86399999 "q"
    (saveQuizState true 0 "q" (VObj sample_state) ∅)
  = (VObj (set_prop "timestamp" (VNum 0) sample_state),
     saveQuizState true 0 "q" (VObj sample_state) ∅)
  /\ forall k, k <> "timestamp" ->
               prop (loadQuizState (fun _ => NotANumber) 86399999 "q"
                       (saveQuizState true 0 "q" (VObj sample_state) ∅)).1 k
               = prop (VObj sample_state) k.
Proof.
  apply (save_then_load (fun _ => NotANumber) 0 86399999 "q" sample_state ∅).
  - reflexivity.
  - unfold maxAge; lia.
Defined.

Lemma save_then_load_expired_witness :
  loadQuizState (fun _ => NotANumber) 86400000 "q"
    (saveQuizState true 0 "q" (VObj sample_state) ∅)
  = (VNull, clearQuizState "q" ∅).
Proof.
  apply (save_then_load_expired (fun _ => NotANumber) 0 86400000 "q"
           sample_state ∅).
  - reflexivity.
  - unfold maxAge; lia.
Defined.

Lemma loadQuizState_only_reads_witness :
  store_with 3660000 !! ("quiz_" +:+ "q")
  = Some (Json (loadQuizState (fun _ => NotANumber) 90000000 "q"
                  (store_with 3660000)).1)
  /\ (loadQuizState (fun _ => NotANumber) 90000000 "q" (store_with 3660000)).2
     = store_with 3660000.
Proof.
  apply (proj1 (loadQuizState_only_reads (fun _ => NotANumber) 90000000 "q"
                  (store_with 3660000))).
  vm_compute. discriminate.
Defined.

Lemma clear_then_load_witness : clearQuizState "q" ∅ = ∅.
Proof.
  apply (proj2 (proj2 (clear_then_load (fun _ => NotANumber) 0 "q" ∅))).
  apply lookup_empty.
Defined.

Lemma other_quiz_untouched_witness :
  (loadQuizState (fun _ => NotANumber) 90000000 "q"
     (saveQuizState true 89000000 "r" (VObj sample_state) (store_with 3660000))).1
  = (loadQuizState (fun _ => NotANumber) 90000000 "q" (store_with 3660000)).1
  /\ (loadQuizState (fun _ => NotANumber) 90000000 "q"
        (clearQuizState "r" (store_with 3660000))).1
     = (loadQuizState (fun _ => NotANumber) 90000000 "q" (store_with 3660000)).1.
Proof.
  apply (other_quiz_untouched (fun _ => NotANumber) true 89000000 90000000
           "r" "q" (VObj sample_state) (store_with 3660000)).
  discriminate.
Defined.

(** ** Navigation and selection *)

(** X13: navigation clamps and never touches the answers.  [previousQuestion]
    at the first question and [nextQuestion] at the last one leave the state
    as it is; elsewhere they move the index by one, and moving forth and
    back returns to the same state. *)
Theorem navigation_clamps (app : QuizApp) :
  (currentQuestionIndex app = 0 -> previousQuestion app = app)
  /\ (length (currentQuestions app) <= currentQuestionIndex app + 1 ->
      nextQuestion app = app)
  /\ (currentQuestionIndex app + 1 < length (currentQuestions app) ->
      currentQuestionIndex (nextQuestion app) = currentQuestionIndex app + 1
      /\ previousQuestion (nextQuestion app) = app)
  /\ (0 < currentQuestionIndex app < length (currentQuestions app) ->
      currentQuestionIndex (previousQuestion app) = currentQuestionIndex app - 1
      /\ nextQuestion (previousQuestion app) = app)
  /\ userAnswers (previousQuestion app) = userAnswers app
  /\ userAnswers (nextQuestion app) = userAnswers app.
Proof.
  destruct app as [qs idx answers]. unfold previousQuestion, nextQuestion.
  cbn [currentQuestions currentQuestionIndex userAnswers].
  repeat split.
  - intros ->. reflexivity.
  - intros H. destruct (Z.ltb_spec (Z.of_nat idx) (Z.of_nat (length qs) - 1));
      [lia|reflexivity].
  - destruct (Z.ltb_spec (Z.of_nat idx) (Z.of_nat (length qs) - 1)); [|lia].
    reflexivity.
  - destruct (Z.ltb_spec (Z.of_nat idx) (Z.of_nat (length qs) - 1)); [|lia].
    cbn [currentQuestionIndex currentQuestions userAnswers].
    destruct (Nat.ltb_spec 0 (idx + 1)); [|lia].
    replace (idx + 1 - 1) with idx by lia. reflexivity.
  - destruct (Nat.ltb_spec 0 idx); [reflexivity|lia].
  - destruct (Nat.ltb_spec 0 idx); [|lia].
    cbn [currentQuestionIndex currentQuestions userAnswers].
    destruct (Z.ltb_spec (Z.of_nat (idx - 1)) (Z.of_nat (length qs) - 1)); [|lia].
    replace (idx - 1 + 1) with idx by lia. reflexivity.
  - destruct (Nat.ltb 0 idx); reflexivity.
  - destruct (Z.ltb _ _); reflexivity.
Qed.

Lemma navigation_clamps_witness :
  previousQuestion (newQuiz [q_single; q_multi]) = newQuiz [q_single; q_multi]
  /\ previousQuestion (nextQuestion (newQuiz [q_single; q_multi]))
     = newQuiz [q_single; q_multi]
  /\ nextQuestion (nextQuestion (newQuiz [q_single; q_multi]))
     = nextQuestion (newQuiz [q_single; q_multi]).
Proof.
  split; [|split].
  - apply (proj1 (navigation_clamps (newQuiz [q_single; q_multi]))). reflexivity.
  - apply (proj1 (proj2 (proj2 (navigation_clamps (newQuiz [q_single; q_multi]))))).
    simpl. lia.
  - apply (proj1 (proj2 (navigation_clamps
                           (nextQuestion (newQuiz [q_single; q_multi]))))).
    simpl. lia.
Defined.

(** The entry of the current question once [selectMultiOption] has made sure
    it is an array. *)
Lemma ensure_array_lookup (key : string) (answers : list (string * value)) :
  let answers1 :=
    if negb (truthy (lookup_prop key answers))
    then set_prop key (VArr []) answers else answers in
  let answers2 :=
    if negb (isArray (lookup_prop key answers1))
    then set_prop key (VArr []) answers1 else answers1 in
  lookup_prop key answers2
  = VArr (match lookup_prop key answers with VArr elems => elems | _ => [] end)
  /\ forall k, k <> key -> lookup_prop k answers2 = lookup_prop k answers.
Proof.
  cbn zeta.
  destruct (lookup_prop key answers) as [| |b|n|s|elems|ps] eqn:Hl; cbn [truthy negb].
  all: try (rewrite lookup_set_prop_eq; cbn [isArray negb];
            split; [apply lookup_set_prop_eq
                   |intros k Hk; apply lookup_set_prop_ne; exact Hk]).
  - destruct b; cbn [negb].
    + rewrite Hl. cbn [isArray negb].
      split; [apply lookup_set_prop_eq
             |intros k Hk; apply lookup_set_prop_ne; exact Hk].
    + rewrite lookup_set_prop_eq. cbn [isArray negb].
      split; [apply lookup_set_prop_eq
             |intros k Hk; apply lookup_set_prop_ne; exact Hk].
  - destruct (negb (Z.eqb n 0)); cbn [negb].
    + rewrite Hl. cbn [isArray negb].
      split; [apply lookup_set_prop_eq
             |intros k Hk; apply lookup_set_prop_ne; exact Hk].
    + rewrite lookup_set_prop_eq. cbn [isArray negb].
      split; [apply lookup_set_prop_eq
             |intros k Hk; apply lookup_set_prop_ne; exact Hk].
  - destruct (negb (String.eqb s "")); cbn [negb].
    + rewrite Hl. cbn [isArray negb].
      split; [apply lookup_set_prop_eq
             |intros k Hk; apply lookup_set_prop_ne; exact Hk].
    + rewrite lookup_set_prop_eq. cbn [isArray negb].
      split; [apply lookup_set_prop_eq
             |intros k Hk; apply lookup_set_prop_ne; exact Hk].
  - rewrite Hl. cbn [isArray negb]. rewrite Hl. split; [reflexivity|reflexivity].
  - rewrite Hl. cbn [isArray negb].
    split; [apply lookup_set_prop_eq
           |intros k Hk; apply lookup_set_prop_ne; exact Hk].
Qed.

Lemma strictEq_VStr (x : value) (s : string) :
  strictEq x (VStr s) = true <-> x = VStr s.
Proof.
  destruct x; cbn; try (split; [discriminate|congruence]).
  rewrite String.eqb_eq. split; congruence.
Qed.

Lemma selected_iff (s : string) (elems : list value) :
  existsb (fun value => strictEq value (VStr s)) elems = true
  <-> In (VStr s) elems.
Proof.
  rewrite existsb_exists. split.
  - intros (x & Hx & E). apply strictEq_VStr in E. subst. exact Hx.
  - intros H. exists (VStr s). split; [exact H|]. apply strictEq_VStr. reflexivity.
Qed.

(** X14: [selectOption] records the key for the current question, replacing
    whatever was stored for it, and leaves the entries of the other
    questions, the index and the questions as they are. *)
Theorem selectOption_records (optionValue : string) (app : QuizApp) :
  lookup_prop (string_of_nat (currentQuestionIndex app))
              (userAnswers (selectOption optionValue app)) = VStr optionValue
  /\ (forall k, k <> string_of_nat (currentQuestionIndex app) ->
                lookup_prop k (userAnswers (selectOption optionValue app))
                = lookup_prop k (userAnswers app))
  /\ currentQuestionIndex (selectOption optionValue app) = currentQuestionIndex app
  /\ currentQuestions (selectOption optionValue app) = currentQuestions app.
Proof.
  unfold selectOption. cbn [userAnswers currentQuestionIndex currentQuestions].
  split; [apply lookup_set_prop_eq|].
  split; [intros k Hk; apply lookup_set_prop_ne; exact Hk|].
  split; reflexivity.
Qed.

(** X15: [selectMultiOption] toggles one option of the current question.
    Afterwards the entry of the current question is an array; it holds the
    option exactly when the box was checked; every other option is in it
    exactly when it was selected before; and the entries of the other
    questions are as they were.  An entry that was not an array (a key
    stored by [selectOption]) counts as no selection. *)
Theorem selectMultiOption_toggles (optionValue : string) (isChecked : bool)
    (app : QuizApp) :
  exists selected,
    lookup_prop (string_of_nat (currentQuestionIndex app))
                (userAnswers (selectMultiOption optionValue isChecked app))
    = VArr selected
    /\ (In (VStr optionValue) selected <-> isChecked = true)
    /\ (forall other, other <> VStr optionValue ->
                      (In other selected <-> In other (currentSelection app)))
    /\ (forall k, k <> string_of_nat (currentQuestionIndex app) ->
                  lookup_prop k (userAnswers
                                   (selectMultiOption optionValue isChecked app))
                  = lookup_prop k (userAnswers app)).
Proof.
  unfold selectMultiOption, currentSelection.
  cbn [userAnswers currentQuestionIndex].
  set (key := string_of_nat (currentQuestionIndex app)).
  destruct (ensure_array_lookup key (userAnswers app)) as [Hl Hother].
  cbn zeta in Hl, Hother. rewrite Hl.
  set (before := match lookup_prop key (userAnswers app) with
                 | VArr elems => elems
                 | _ => []
                 end) in *.
  destruct isChecked.
  - destruct (existsb (fun value => strictEq value (VStr optionValue)) before)
      eqn:Hex; cbn [negb].
    + exists before. split; [exact Hl|]. apply selected_iff in Hex.
      split; [split; [reflexivity|intros _; exact Hex]|].
      split; [reflexivity|exact Hother].
    + exists (before ++ [VStr optionValue]).
      split; [apply lookup_set_prop_eq|].
      split; [split; [reflexivity|intros _; apply in_or_app; right; left; reflexivity]|].
      split.
      * intros other Hne. rewrite in_app_iff. cbn [In]. split; [|tauto].
        intros [H|[H|[]]]; [exact H|congruence].
      * intros k Hk. rewrite lookup_set_prop_ne by exact Hk. apply Hother, Hk.
  - exists (List.filter (fun value => negb (strictEq value (VStr optionValue)))
                        before).
    split; [apply lookup_set_prop_eq|].
    split.
    + split; [|discriminate]. intros H. apply List.filter_In in H as [_ H].
      apply negb_true_iff in H.
      assert (Ht : strictEq (VStr optionValue) (VStr optionValue) = true)
        by (apply strictEq_VStr; reflexivity).
      congruence.
    + split.
      * intros other Hne. rewrite List.filter_In. split; [tauto|].
        intros H. split; [exact H|]. apply negb_true_iff.
        destruct (strictEq other (VStr optionValue)) eqn:E; [|reflexivity].
        apply strictEq_VStr in E. contradiction.
      * intros k Hk. rewrite lookup_set_prop_ne by exact Hk. apply Hother, Hk.
Qed.

(** Checking two options and unchecking the first leaves the second. *)
Example selectMultiOption_sequence :
  userAnswers (run [q_multi] [SelectMultiOption "A" true;
                              SelectMultiOption "C" true;
                              SelectMultiOption "A" true;
                              SelectMultiOption "A" false])
  = [("0", VArr [VStr "C"])].
Proof. vm_compute; reflexivity. Qed.

(** ** Submission *)

Lemma not_answered_cases (v : value) :
  isAnswered v = false ->
  v = VNull \/ blank v.
Proof.
  unfold blank. destruct v as [| |b|n|s|elems|ps]; cbn; try discriminate; auto.
  - intros H. apply negb_false_iff, String.eqb_eq in H. subst. auto.
  - destruct elems; [auto|discriminate].
Qed.

Lemma checkAnswer_null question correctKeys flag verdict :
  getCorrectAnswers question = Ok correctKeys ->
  isMultiAnswerQuestion question = Ok flag ->
  checkAnswer question VNull correctKeys flag = Ok verdict ->
  truthy verdict = false.
Proof.
  intros Hck Hma Hcheck.
  rewrite (isMultiAnswerQuestion_length _ _ Hck) in Hma. injection Hma as Hma.
  unfold checkAnswer in Hcheck. destruct flag; cbn in Hcheck;
    injection Hcheck as <-; [|reflexivity].
  rewrite length_map. apply Nat.ltb_lt in Hma.
  destruct (length correctKeys); [lia|reflexivity].
Qed.

Lemma filter_length_le_indexed {A : Type} (f : A -> bool) (P : nat -> bool)
    (l : list A) :
  forall k,
    (forall i x, l !! i = Some x -> f x = true -> P (k + i) = true) ->
    length (List.filter f l) <= length (List.filter P (seq k (length l))).
Proof.
  induction l as [|x l IH]; intros k H; [cbn; lia|].
  cbn [List.filter length seq].
  assert (IH' : length (List.filter f l)
                <= length (List.filter P (seq (S k) (length l)))).
  { apply IH. intros i y Hy Hf. replace (S k + i) with (k + S i) by lia.
    apply (H (S i) y Hy Hf). }
  destruct (f x) eqn:Hf.
  - rewrite <- (Nat.add_0_r k) at 1. rewrite (H 0 x eq_refl Hf). cbn [length]. lia.
  - destruct (P k); cbn [length]; lia.
Qed.

Lemma append_eq_self (s t : string) : s +:+ t = s -> t = "".
Proof.
  induction s as [|c s IH]; cbn; intros H; [exact H|].
  injection H as H. auto.
Qed.

(** X16: the count [confirmSubmitQuiz] shows and the score agree.  Every
    question [gradeQuiz] marks correct is one the confirmation counts as
    answered, so the score is at most the number of answered questions,
    which is at most the number of questions; and the confirmation mentions
    unanswered questions exactly when there is one. *)
Theorem score_at_most_answered (app : QuizApp) (r : GradingResult.t) :
  gradeQuiz (currentQuestions app) (VObj (userAnswers app)) = Ok r ->
  GradingResult.score r <= answeredCount app
  /\ answeredCount app <= length (currentQuestions app)
  /\ (confirmMessage app = "Sei sicuro di voler inviare il quiz?"
      <-> answeredCount app = length (currentQuestions app)).
Proof.
  intros Hrun.
  assert (Hle : answeredCount app <= length (currentQuestions app)).
  { unfold answeredCount. etransitivity; [apply List.filter_length_le|].
    rewrite length_seq. lia. }
  split; [|split; [exact Hle|]].
  - pose proof (gradeQuiz_inv _ _ _ Hrun) as (_ & Hlen & Hscore & _ & Hall).
    rewrite Hscore. unfold countCorrect, answeredCount. rewrite <- Hlen.
    apply filter_length_le_indexed. intros i res Hres Hcorrect. cbn [Nat.add].
    assert (Hi : i < length (currentQuestions app))
      by (rewrite <- Hlen; eapply lookup_lt_Some; exact Hres).
    destruct (lookup_lt_is_Some_2 _ i Hi) as [question Hq].
    destruct (Hall i question Hq) as (res' & Hres' & userAnswer & correctKeys
                                      & Hua & Hck & Hma & Hcheck).
    assert (res' = res) by congruence. subst res'.
    apply getProp_Ok in Hua. cbn [prop] in Hua. subst userAnswer.
    destruct (isAnswered (lookup_prop (string_of_nat i) (userAnswers app)))
      eqn:Han; [reflexivity|].
    exfalso. apply not_answered_cases in Han as [Hnull|Hblank].
    + rewrite Hnull in Hcheck.
      rewrite (checkAnswer_null _ _ _ _ Hck Hma Hcheck) in Hcorrect.
      discriminate Hcorrect.
    + rewrite (checkAnswer_blank _ _ _ _ _ Hblank Hck Hma Hcheck) in Hcorrect.
      discriminate Hcorrect.
  - unfold confirmMessage.
    destruct (Nat.ltb_spec 0 (length (currentQuestions app) - answeredCount app)).
    + split; [|lia]. intros Heq. exfalso.
      apply append_eq_self in Heq. discriminate Heq.
    + split; [lia|reflexivity].
Qed.

Lemma score_at_most_answered_witness :
  exists r,
    gradeQuiz (currentQuestions
                 (run [q_single; q_multi] [SelectOption "B"; NextQuestion]))
              (VObj (userAnswers
                       (run [q_single; q_multi] [SelectOption "B"; NextQuestion])))
    = Ok r
    /\ GradingResult.score r
       <= answeredCount (run [q_single; q_multi] [SelectOption "B"; NextQuestion]).
Proof.
  eexists. split; [vm_compute; reflexivity|].
  apply (score_at_most_answered
           (run [q_single; q_multi] [SelectOption "B"; NextQuestion])).
  vm_compute; reflexivity.
Defined.

(** One answer given out of two questions. *)
Example confirmMessage_one_missing :
  confirmMessage (run [q_single; q_multi] [SelectOption "B"; NextQuestion])
  = "Sei sicuro di voler inviare il quiz?" +:+ newline +:+ newline
    +:+ "Hai 1 domande senza risposta su 2.".
Proof. vm_compute; reflexivity. Qed.

(** ** Preparing questions and starting an attempt *)

Lemma prepared_props props options original flag k :
  prop (spread (VObj props)
          [("question_option", options);
           ("original_options", original);
           ("isMultiAnswer", VBool flag)]) k
  = if String.eqb k "isMultiAnswer" then VBool flag
    else if String.eqb k "original_options" then original
    else if String.eqb k "question_option" then options
    else lookup_prop k props.
Proof.
  unfold spread. cbn [fold_left entries prop fst snd].
  destruct (String.eqb_spec k "isMultiAnswer") as [->|H1];
    [apply lookup_set_prop_eq|].
  rewrite lookup_set_prop_ne by exact H1.
  destruct (String.eqb_spec k "original_options") as [->|H2];
    [apply lookup_set_prop_eq|].
  rewrite lookup_set_prop_ne by exact H2.
  destruct (String.eqb_spec k "question_option") as [->|H3];
    [apply lookup_set_prop_eq|].
  apply lookup_set_prop_ne. exact H3.
Qed.

Lemma answers_depend_on_two_fields (question prepared : value) :
  question <> VUndefined -> question <> VNull ->
  prepared <> VUndefined -> prepared <> VNull ->
  prop prepared "answer_option_text" = prop question "answer_option_text" ->
  prop prepared "answer_option" = prop question "answer_option" ->
  getCorrectAnswers prepared = getCorrectAnswers question
  /\ isMultiAnswerQuestion prepared = isMultiAnswerQuestion question.
Proof.
  intros Hq1 Hq2 Hp1 Hp2 Htext Hans.
  unfold getCorrectAnswers, isMultiAnswerQuestion.
  assert (Hgq : getProp question "answer_option_text"
                = Ok (prop question "answer_option_text"))
    by (destruct question; try congruence; reflexivity).
  assert (Hgp : getProp prepared "answer_option_text"
                = Ok (prop prepared "answer_option_text"))
    by (destruct prepared; try congruence; reflexivity).
  rewrite Hgq, Hgp, Htext, Hans. split; reflexivity.
Qed.

(** What [prepareQuestionForDisplay] makes of an accepted question. *)
Lemma prepare_accepted draws question :
  passes_checks question = true ->
  exists prepared flag,
    prepareQuestionForDisplay draws question = Ok prepared
    /\ passes_checks prepared = true
    /\ isArray (prop prepared "question_option") = true
    /\ isMultiAnswerQuestion question = Ok flag
    /\ isMultiAnswerQuestion prepared = Ok flag
    /\ getCorrectAnswers prepared = getCorrectAnswers question
    /\ prop prepared "isMultiAnswer" = VBool flag
    /\ prop prepared "original_options" = prop question "question_option"
    /\ forall k, k <> "question_option" -> k <> "original_options" ->
                 k <> "isMultiAnswer" -> prop prepared k = prop question k.
Proof.
  intros Hp. destruct (passes_checks_object _ Hp) as [props ->].
  destruct (isMultiAnswerQuestion_returns (VObj props)) as [flag Hflag];
    try discriminate.
  unfold passes_checks in Hp. rewrite !andb_true_iff in Hp.
  destruct Hp as [[[_ Htext] Hopts] Hans].
  unfold prepareQuestionForDisplay. rewrite Hflag.
  cbn [getProp mbind result_bind].
  assert (Hprep : exists shuffled,
             (if negb (truthy (prop (VObj props) "question_option"))
              then Ok (VObj props)
              else
                match prop (VObj props) "question_option" with
                | VArr elems =>
                    Ok (spread (VObj props)
                          [("question_option", VArr (shuffleArray draws elems));
                           ("original_options", prop (VObj props) "question_option");
                           ("isMultiAnswer", VBool flag)])
                | _ =>
                    if String.eqb (typeof (prop (VObj props) "question_option"))
                                  "object"
                    then
                      Ok (spread (VObj props)
                            [("question_option",
                              VArr (shuffleArray draws
                                      (map (fun kt =>
                                              VObj [("option",
                                                     VStr (toUpperCase kt.1));
                                                    ("option_text", kt.2)])
                                           (entries
                                              (prop (VObj props)
                                                    "question_option")))));
                             ("original_options",
                              prop (VObj props) "question_option");
                             ("isMultiAnswer", VBool flag)])
                    else Ok (spread (VObj props) [("isMultiAnswer", VBool flag)])
                end)
             = Ok (spread (VObj props)
                     [("question_option", VArr shuffled);
                      ("original_options", prop (VObj props) "question_option");
                      ("isMultiAnswer", VBool flag)])
             /\ 2 <= length shuffled).
  { destruct (prop (VObj props) "question_option") as [| | | | |elems|ps];
      try discriminate Hopts; cbn [options_checked] in Hopts;
      apply Nat.leb_le in Hopts.
    - exists (shuffleArray draws elems). split; [reflexivity|].
      rewrite shuffleArray_length. exact Hopts.
    - eexists. split; [reflexivity|].
      rewrite shuffleArray_length. cbn [entries]. rewrite length_map. exact Hopts. }
  destruct Hprep as (shuffled & -> & Hlen).
  eexists. exists flag. split; [reflexivity|].
  assert (Hsame : forall k, k <> "question_option" -> k <> "original_options" ->
                            k <> "isMultiAnswer" ->
                            prop (spread (VObj props)
                                    [("question_option", VArr shuffled);
                                     ("original_options",
                                      prop (VObj props) "question_option");
                                     ("isMultiAnswer", VBool flag)]) k
                            = prop (VObj props) k).
  { intros k H1 H2 H3. rewrite prepared_props.
    apply String.eqb_neq in H1, H2, H3. rewrite H1, H2, H3. reflexivity. }
  destruct (answers_depend_on_two_fields (VObj props)
              (spread (VObj props)
                 [("question_option", VArr shuffled);
                  ("original_options", prop (VObj props) "question_option");
                  ("isMultiAnswer", VBool flag)])) as [Hck Hma];
    try discriminate; try (apply Hsame; discriminate).
  split.
  { unfold passes_checks.
    rewrite (Hsame "question_text"), (Hsame "answer_option") by discriminate.
    rewrite Htext, Hans. rewrite prepared_props.
    cbn [String.eqb Ascii.eqb Bool.eqb options_checked isObject spread truthy
         typeof andb].
    apply Nat.leb_le in Hlen. rewrite Hlen. reflexivity. }
  split; [rewrite prepared_props; reflexivity|].
  split; [reflexivity|].
  split; [rewrite Hma; exact Hflag|].
  split; [exact Hck|].
  split; [rewrite prepared_props; reflexivity|].
  split; [rewrite prepared_props; reflexivity|exact Hsame].
Qed.

(** X17: preparing an accepted question for display does not change how it
    is graded.  [prepareQuestionForDisplay] returns a question that is still
    accepted, has the same correct answers and the same multi-answer
    classification, carries that classification as its [isMultiAnswer] flag,
    has its options in array form and the original options under
    [original_options], and is otherwise field for field the original. *)
Theorem prepareQuestionForDisplay_keeps_grading (draws : nat -> nat)
    (question : value) (index : nat) :
  isValid (validateQuestion question index) = true ->
  exists prepared flag,
    prepareQuestionForDisplay draws question = Ok prepared
    /\ isValid (validateQuestion prepared index) = true
    /\ getCorrectAnswers prepared = getCorrectAnswers question
    /\ isMultiAnswerQuestion question = Ok flag
    /\ isMultiAnswerQuestion prepared = Ok flag
    /\ prop prepared "isMultiAnswer" = VBool flag
    /\ isArray (prop prepared "question_option") = true
    /\ prop prepared "original_options" = prop question "question_option"
    /\ forall k, k <> "question_option" -> k <> "original_options" ->
                 k <> "isMultiAnswer" -> prop prepared k = prop question k.
Proof.
  rewrite validateQuestion_isValid. intros Hp.
  destruct (prepare_accepted draws question Hp)
    as (prepared & flag & Hprep & Hp' & Harr & Hq & Hma & Hck & Hflag & Horig & Hsame).
  exists prepared, flag. rewrite validateQuestion_isValid.
  repeat split; assumption.
Qed.

Lemma prepareQuestionForDisplay_keeps_grading_witness :
  exists prepared flag,
    prepareQuestionForDisplay (fun i => i) q_legacy_multi = Ok prepared
    /\ isValid (validateQuestion prepared 0) = true
    /\ getCorrectAnswers prepared = getCorrectAnswers q_legacy_multi
    /\ isMultiAnswerQuestion q_legacy_multi = Ok flag
    /\ isMultiAnswerQuestion prepared = Ok flag
    /\ prop prepared "isMultiAnswer" = VBool flag
    /\ isArray (prop prepared "question_option") = true
    /\ prop prepared "original_options" = prop q_legacy_multi "question_option"
    /\ forall k, k <> "question_option" -> k <> "original_options" ->
                 k <> "isMultiAnswer" -> prop prepared k = prop q_legacy_multi k.
Proof.
  apply (prepareQuestionForDisplay_keeps_grading (fun i => i) q_legacy_multi 0).
  vm_compute; reflexivity.
Defined.

Lemma prepare_each_accepted optionDraws questions :
  Forall (fun q => passes_checks q = true) questions ->
  forall index,
  exists prepared,
    prepare_each optionDraws index questions = Ok prepared
    /\ Forall2 (fun q q' => exists draws, prepareQuestionForDisplay draws q = Ok q')
               questions prepared
    /\ Forall prepared_question prepared.
Proof.
  induction 1 as [|q qs Hq _ IH]; intros index.
  - exists []. repeat split; constructor.
  - cbn [prepare_each].
    destruct (prepare_accepted (optionDraws index) q Hq)
      as (q' & flag & Hprep & Hp' & Harr & _ & Hma & _ & Hflag & _).
    destruct (IH (index + 1)) as (rest & Hrest & Hall & Hprepared).
    rewrite Hprep, Hrest. cbn [mbind result_bind].
    exists (q' :: rest). split; [reflexivity|]. split.
    + constructor; [exists (optionDraws index); exact Hprep|exact Hall].
    + constructor; [|exact Hprepared].
      split; [exact Hp'|]. split; [exact Harr|]. exists flag. split; assumption.
Qed.

(** X18: starting a quiz.  For a bank of accepted questions
    [initializeNewQuiz] returns; the attempt has as many questions as the
    bank, namely the preparations of the bank's questions taken in some
    permuted order, each of them accepted, with options in array form and
    an [isMultiAnswer] flag equal to its classification; it starts at the
    first question, with no answer, 3600 seconds and the countdown running,
    and the store untouched. *)
Theorem initializeNewQuiz_fresh_attempt (draws : nat -> nat)
    (optionDraws : nat -> nat -> nat) (quizName : string)
    (questions : list value) (s : QuizSession) :
  Forall (fun q => isValid (validateQuestion q 0) = true) questions ->
  exists s' order,
    initializeNewQuiz draws optionDraws quizName questions s = Ok s'
    /\ order ≡ₚ questions
    /\ Forall2 (fun q q' => exists d, prepareQuestionForDisplay d q = Ok q')
               order (currentQuestions (attempt s'))
    /\ Forall prepared_question (currentQuestions (attempt s'))
    /\ length (currentQuestions (attempt s')) = length questions
    /\ currentQuestionIndex (attempt s') = 0
    /\ userAnswers (attempt s') = []
    /\ currentQuiz s' = Some quizName
    /\ timeRemaining s' = 3600%Z
    /\ timer s' = true
    /\ storage s' = storage s.
Proof.
  intros Hall. unfold initializeNewQuiz.
  assert (Hshuffled : Forall (fun q => passes_checks q = true)
                             (shuffleArray draws questions)).
  { rewrite (shuffleArray_Permutation draws questions).
    eapply Forall_impl; [exact Hall|]. intros q Hq. cbn beta in Hq.
    rewrite validateQuestion_isValid in Hq. exact Hq. }
  destruct (prepare_each_accepted optionDraws _ Hshuffled 0)
    as (prepared & Hprep & Hrel & Hprepared).
  rewrite Hprep. cbn [mbind result_bind].
  eexists. exists (shuffleArray draws questions).
  split; [reflexivity|].
  cbn [attempt newQuiz currentQuestions currentQuestionIndex userAnswers
       currentQuiz timeRemaining timer storage].
  split; [apply shuffleArray_Permutation|].
  split; [exact Hrel|]. split; [exact Hprepared|].
  split; [|repeat split].
  rewrite <- (Forall2_length _ _ _ Hrel). apply shuffleArray_length.
Qed.

Lemma initializeNewQuiz_fresh_attempt_witness :
  exists s' order,
    initializeNewQuiz (fun i => 3 * i) (fun i j => i + j) "q"
      [q_single; q_multi; q_legacy] (resetQuizState
                                       {| attempt := newQuiz [];
                                          currentQuiz := None;
                                          timeRemaining := 0;
                                          timer := false;
                                          storage := ∅ |}) = Ok s'
    /\ order ≡ₚ [q_single; q_multi; q_legacy]
    /\ Forall2 (fun q q' => exists d, prepareQuestionForDisplay d q = Ok q')
               order (currentQuestions (attempt s'))
    /\ Forall prepared_question (currentQuestions (attempt s'))
    /\ length (currentQuestions (attempt s')) = length [q_single; q_multi; q_legacy]
    /\ currentQuestionIndex (attempt s') = 0
    /\ userAnswers (attempt s') = []
    /\ currentQuiz s' = Some "q"
    /\ timeRemaining s' = 3600%Z
    /\ timer s' = true
    /\ storage s' = storage (resetQuizState
                              {| attempt := newQuiz [];
                                 currentQuiz := None;
                                 timeRemaining := 0;
                                 timer := false;
                                 storage := ∅ |}).
Proof.
  apply (initializeNewQuiz_fresh_attempt (fun i => 3 * i) (fun i j => i + j) "q"
           [q_single; q_multi; q_legacy]).
  repeat constructor.
Defined.

(** ** From the page to the result *)

Lemma string_of_nat_inj (i j : nat) : string_of_nat i = string_of_nat j -> i = j.
Proof.
  unfold string_of_nat. intros H.
  apply (f_equal NilEmpty.uint_of_string) in H.
  rewrite !NilEmpty.usu in H. injection H as H.
  apply Unsigned.to_uint_inj. exact H.
Qed.

Lemma answerable_empty_array question :
  prepared_question question ->
  isMultiAnswerQuestion question = Ok true ->
  answerable question (VArr []).
Proof.
  intros (_ & Harr & _) Hm. right; right. exists [].
  repeat split; [constructor|exact Hm|intros _; exact Harr].
Qed.

Lemma has_own_set_prop k k' v props :
  k <> k' -> has_own k (set_prop k' v props) = has_own k props.
Proof.
  intros Hne.
  assert (Hf : String.eqb k k' = false) by (apply String.eqb_neq; exact Hne).
  unfold has_own.
  induction props as [|[k0 v0] r IH]; cbn [set_prop existsb fst].
  - rewrite Hf. reflexivity.
  - destruct (String.eqb k' k0) eqn:E; cbn [existsb fst].
    + apply String.eqb_eq in E. subst k0. reflexivity.
    + rewrite IH. reflexivity.
Qed.

Lemma printable_set_prop k v props :
  k <> "toString" -> printable v = true ->
  printable (VObj props) = true -> printable (VObj (set_prop k v props)) = true.
Proof.
  intros Hk Hv Hp. apply printable_obj in Hp as [Hown Hall].
  apply printable_obj. split.
  - rewrite has_own_set_prop by congruence. exact Hown.
  - apply set_prop_Forall; [exact Hv|exact Hall].
Qed.

Lemma printable_spread props updates :
  printable (VObj props) = true ->
  Forall (fun kv : string * value =>
            kv.1 <> "toString" /\ printable kv.2 = true) updates ->
  printable (spread (VObj props) updates) = true.
Proof.
  unfold spread. cbn [entries]. intros Hp Hall. revert props Hp.
  induction Hall as [|[k v] r [Hk Hv] _ IH]; intros props Hp; [exact Hp|].
  cbn [fold_left fst snd]. apply IH. apply printable_set_prop; assumption.
Qed.

(** Preparing a question for display keeps it printable. *)
Lemma prepare_printable draws question prepared :
  printable question = true ->
  prepareQuestionForDisplay draws question = Ok prepared ->
  printable prepared = true.
Proof.
  intros Hq. unfold prepareQuestionForDisplay. intros H.
  apply bind_Ok in H as (question_option & Hopt & H).
  apply getProp_Ok in Hopt.
  assert (Hpo : printable question_option = true)
    by (rewrite Hopt; apply printable_prop; exact Hq).
  destruct (negb (truthy question_option)) eqn:Ht;
    [injection H as <-; exact Hq|].
  apply bind_Ok in H as (flag & _ & H).
  destruct question as [| |b|n|s|elems|props];
    try (vm_compute in Hopt; subst question_option; discriminate Ht).
  destruct question_option as [| |b|n|s|elems|ps];
    cbn [typeof String.eqb Ascii.eqb Bool.eqb] in H; injection H as <-;
    apply printable_spread; try exact Hq;
    repeat (constructor; [split; [discriminate|try reflexivity]|]);
    try constructor; try exact Hpo.
  - apply printable_arr. rewrite (shuffleArray_Permutation draws elems).
    apply printable_arr. exact Hpo.
  - apply printable_arr. rewrite (shuffleArray_Permutation draws _).
    apply printable_obj in Hpo as [_ Hpo]. apply List.Forall_map.
    eapply Forall_impl; [exact Hpo|]. intros [k text] Htext.
    cbn [fst snd printable has_own existsb String.eqb Ascii.eqb Bool.eqb
         negb andb orb] in *.
    rewrite Htext. reflexivity.
Qed.

Lemma prepared_printable (questions prepared : list value) :
  Forall (fun q => printable q = true) questions ->
  Forall2 (fun q q' => exists draws, prepareQuestionForDisplay draws q = Ok q')
          questions prepared ->
  Forall (fun q => printable q = true) prepared.
Proof.
  intros Hall Hrel. induction Hrel as [|q q' qs qs' [draws Hq] _ IH];
    [constructor|].
  apply Forall_cons in Hall as [Hp Hall].
  constructor; [exact (prepare_printable _ _ _ Hp Hq)|exact (IH Hall)].
Qed.

Section DrivenAttempt.
Variable questions : list value.
Hypothesis Hprepared : Forall prepared_question questions.
Hypothesis Hprintable : Forall (fun q => printable q = true) questions.

Lemma set_answer_fit index question v answers :
  questions !! index = Some question ->
  answerable question v ->
  answers_fit questions answers ->
  answers_fit questions (set_prop (string_of_nat index) v answers).
Proof.
  intros Hq Ha Hfit. apply set_prop_Forall; [|exact Hfit].
  exists index, question. cbn [fst snd]. auto.
Qed.

Lemma selection_strings key answers :
  answers_fit questions answers ->
  Forall (fun x => exists s, x = VStr s)
         (match lookup_prop key answers with VArr elems => elems | _ => [] end).
Proof.
  intros Hfit.
  destruct (lookup_prop_Forall _ key _ Hfit) as [-> | (i & q & _ & _ & Ha)];
    [constructor|].
  cbn [snd] in Ha.
  destruct Ha as [-> | [[s ->] | (elems & -> & Hall & _)]];
    [constructor|constructor|exact Hall].
Qed.

Lemma handle_fits app e :
  attempt_fits questions app -> gated app e ->
  attempt_fits questions (handle app e).
Proof.
  intros (Hqs & Hi & Hfit) Hg.
  destruct (lookup_lt_is_Some_2 questions _ Hi) as [question Hq].
  assert (Hcur : currentQuestion app = question).
  { unfold currentQuestion. rewrite Hqs. apply nth_lookup_Some. exact Hq. }
  destruct e as [optionValue|optionValue isChecked| |]; cbn [handle].
  - split; [exact Hqs|]. split; [exact Hi|]. cbn [selectOption userAnswers].
    apply (set_answer_fit _ question); [exact Hq| |exact Hfit].
    right; left. eexists; reflexivity.
  - cbn [gated] in Hg. rewrite Hcur in Hg.
    assert (Hmulti : isMultiAnswerQuestion question = Ok true).
    { pose proof (proj1 (Forall_lookup _ _) Hprepared _ _ Hq)
        as (_ & _ & flag & Hma & Hflag).
      rewrite Hflag in Hg. cbn in Hg. subst flag. exact Hma. }
    assert (Hprep : prepared_question question)
      by exact (proj1 (Forall_lookup _ _) Hprepared _ _ Hq).
    split; [exact Hqs|]. split; [exact Hi|].
    unfold selectMultiOption. cbn [userAnswers].
    set (key := string_of_nat (currentQuestionIndex app)).
    assert (Hens : forall (b : bool) answers,
               answers_fit questions answers ->
               answers_fit questions
                 (if b then set_prop key (VArr []) answers else answers)).
    { intros [] answers H; [|exact H].
      apply (set_answer_fit _ question);
        [exact Hq|apply answerable_empty_array; assumption|exact H]. }
    pose proof (Hens (negb (truthy (lookup_prop key (userAnswers app)))) _ Hfit)
      as Hfit1.
    set (answers1 := if negb (truthy _) then _ else _) in *.
    pose proof (Hens (negb (isArray (lookup_prop key answers1))) _ Hfit1) as Hfit2.
    set (answers2 := if negb (isArray _) then _ else _) in *.
    clearbody answers2. clear Hens Hfit1.
    pose proof (selection_strings key answers2 Hfit2) as Hsel.
    set (selected := match lookup_prop key answers2 with
                     | VArr elems => elems
                     | _ => []
                     end) in *.
    assert (Hstore : forall elems,
               Forall (fun x => exists s, x = VStr s) elems ->
               answers_fit questions (set_prop key (VArr elems) answers2)).
    { intros elems Hall. apply (set_answer_fit _ question); [exact Hq| |exact Hfit2].
      right; right. exists elems. repeat split; [exact Hall|exact Hmulti|].
      intros _. apply Hprep. }
    destruct isChecked.
    + destruct (negb (existsb _ selected)); [|exact Hfit2].
      apply Hstore. apply Forall_app. split; [exact Hsel|].
      constructor; [eexists; reflexivity|constructor].
    + apply Hstore. apply Forall_forall. intros x Hx.
      apply list_elem_of_In, List.filter_In in Hx as [Hx _].
      rewrite Forall_forall in Hsel. apply Hsel, list_elem_of_In. exact Hx.
  - unfold previousQuestion. destruct (Nat.ltb 0 (currentQuestionIndex app));
      repeat split; cbn; auto; lia.
  - unfold nextQuestion. destruct (Z.ltb _ _) eqn:Hlt; repeat split; cbn; auto.
    apply Z.ltb_lt in Hlt. rewrite Hqs in Hlt. lia.
Qed.

Lemma run_fits events :
  forall app,
    attempt_fits questions app -> gated_run app events ->
    attempt_fits questions (fold_left handle events app).
Proof.
  induction events as [|e events IH]; intros app Hfit Hg; [exact Hfit|].
  destruct Hg as [Hge Hgr]. cbn [fold_left].
  apply IH; [apply handle_fits; assumption|exact Hgr].
Qed.

Lemma fitting_answers_graded app :
  attempt_fits questions app ->
  exists r, gradeQuiz (currentQuestions app) (VObj (userAnswers app)) = Ok r.
Proof.
  intros (Hqs & _ & Hfit). rewrite Hqs.
  destruct (forEach_answerable (VObj (userAnswers app)) questions) with
    (index := 0) (acc := {| correctCount := 0; results := [];
                            learningObjectiveStats := [] |}) as [acc Hacc];
    try discriminate.
  - intros i question Hq. cbn [Nat.add prop].
    split; [exact (proj1 (proj1 (Forall_lookup _ _) Hprepared _ _ Hq))|].
    split; [exact (proj1 (Forall_lookup _ _) Hprintable _ _ Hq)|].
    destruct (lookup_prop_Forall _ (string_of_nat i) _ Hfit)
      as [-> | (j & q' & Hkey & Hq' & Ha)]; [left; reflexivity|].
    cbn [fst snd] in Hkey, Ha. apply string_of_nat_inj in Hkey. subst j.
    assert (q' = question) by congruence. subst q'. exact Ha.
  - unfold gradeQuiz. rewrite Hacc. eexists; reflexivity.
Qed.
End DrivenAttempt.

(** X19: submitting never raises.  Take the attempt [initializeNewQuiz]
    sets up for a non-empty bank of accepted questions in which no object
    has a property of its own named toString, and any sequence of
    selections and moves in which, as the click handler arranges,
    [selectMultiOption] is called on questions flagged multi-answer and
    [selectOption] on the others.  Then [submitQuiz] yields a grading
    result: [gradeQuiz] returns on the questions and answers the controller
    hands it. *)
Theorem submit_after_any_interaction (draws : nat -> nat)
    (optionDraws : nat -> nat -> nat) (quizName : string)
    (bank : list value) (s0 s : QuizSession) (events : list event) :
  bank <> [] ->
  Forall (fun q => isValid (validateQuestion q 0) = true) bank ->
  Forall (fun q => printable q = true) bank ->
  initializeNewQuiz draws optionDraws quizName bank s0 = Ok s ->
  gated_run (attempt s) events ->
  forall s', attempt s' = fold_left handle events (attempt s) ->
             exists r, (submitQuiz s').2 = Ok r.
Proof.
  intros Hne Hbank Hplain Hinit Hgated s' Hs'.
  unfold initializeNewQuiz in Hinit.
  assert (Hshuffled : Forall (fun q => passes_checks q = true)
                             (shuffleArray draws bank)).
  { rewrite (shuffleArray_Permutation draws bank).
    eapply Forall_impl; [exact Hbank|]. intros q Hq. cbn beta in Hq.
    rewrite validateQuestion_isValid in Hq. exact Hq. }
  destruct (prepare_each_accepted optionDraws _ Hshuffled 0)
    as (prepared & Hprep & Hrel & Hprepared).
  rewrite Hprep in Hinit. cbn [mbind result_bind] in Hinit.
  injection Hinit as <-. cbn [attempt] in Hgated, Hs'.
  assert (Hlen : length prepared = length bank).
  { rewrite <- (Forall2_length _ _ _ Hrel). apply shuffleArray_length. }
  assert (Hstart : attempt_fits prepared (newQuiz prepared)).
  { split; [reflexivity|]. split; [|constructor].
    cbn. rewrite Hlen. destruct bank; [congruence|simpl; lia]. }
  pose proof (run_fits prepared Hprepared events _ Hstart Hgated) as Hfit.
  assert (Hprintable : Forall (fun q => printable q = true) prepared).
  { apply (prepared_printable (shuffleArray draws bank)); [|exact Hrel].
    rewrite (shuffleArray_Permutation draws bank). exact Hplain. }
  unfold submitQuiz. cbn [snd]. rewrite Hs'.
  apply (fitting_answers_graded prepared Hprepared Hprintable). exact Hfit.
Qed.

Lemma submit_after_any_interaction_witness :
  exists s,
    initializeNewQuiz (fun i => i) (fun _ i => i) "q" [q_single; q_multi]
                      sample_session = Ok s
    /\ exists r,
         (submitQuiz
            {| attempt := fold_left handle
                            [SelectOption "B"; NextQuestion;
                             SelectMultiOption "A" true]
                            (attempt s);
               currentQuiz := currentQuiz s;
               timeRemaining := timeRemaining s;
               timer := timer s;
               storage := storage s |}).2 = Ok r.
Proof.
  eexists.
  assert (Hinit : initializeNewQuiz (fun i => i) (fun _ i => i) "q"
                    [q_single; q_multi] sample_session = Ok _)
    by (vm_compute; reflexivity).
  split; [exact Hinit|].
  eapply (submit_after_any_interaction (fun i => i) (fun _ i => i) "q"
            [q_single; q_multi] sample_session).
  - discriminate.
  - repeat constructor.
  - repeat constructor.
  - exact Hinit.
  - instantiate (1 := [SelectOption "B"; NextQuestion;
                       SelectMultiOption "A" true]).
    repeat split; vm_compute; reflexivity.
  - reflexivity.
Defined.

(** ** Countdown, autosave and submission *)

Lemma saveCurrentState_keeps stored now s :
  attempt (saveCurrentState stored now s) = attempt s
  /\ currentQuiz (saveCurrentState stored now s) = currentQuiz s
  /\ timeRemaining (saveCurrentState stored now s) = timeRemaining s
  /\ timer (saveCurrentState stored now s) = timer s.
Proof.
  unfold saveCurrentState. destruct (currentQuiz s) as [name|] eqn:Hq;
    [|repeat split; assumption].
  destruct (negb (String.eqb name "") && Z.ltb 0 (timeRemaining s));
    repeat split; cbn; auto.
Qed.

Lemma tick_step stored now s :
  let s' := (tick stored now s).1 in
  timeRemaining s' = (timeRemaining s - 1)%Z
  /\ attempt s' = attempt s
  /\ currentQuiz s' = currentQuiz s
  /\ timer s' = (if Z.leb (timeRemaining s - 1) 0 then false else timer s).
Proof.
  unfold tick. cbn zeta.
  set (s1 := {| attempt := attempt s; currentQuiz := currentQuiz s;
                timeRemaining := timeRemaining s - 1; timer := timer s;
                storage := storage s |}).
  set (s2 := if Z.eqb (Z.rem (timeRemaining s1) 30) 0
             then saveCurrentState stored now s1 else s1).
  assert (H2 : attempt s2 = attempt s /\ currentQuiz s2 = currentQuiz s
               /\ timeRemaining s2 = (timeRemaining s - 1)%Z
               /\ timer s2 = timer s).
  { subst s2. destruct (Z.eqb _ 0); [|repeat split].
    destruct (saveCurrentState_keeps stored now s1) as (-> & -> & -> & ->).
    repeat split. }
  destruct H2 as (Ha & Hq & Ht & Htm). rewrite Ht.
  destruct (Z.leb (timeRemaining s - 1) 0); cbn [fst timeUp submitQuiz
    timeRemaining attempt currentQuiz timer]; auto.
Qed.

(** X20: the countdown stops at zero.  From a running countdown with a
    positive time, after [n] seconds the time left is the initial time
    minus [n], but never less than zero, and the interval is active exactly
    while time is left; the attempt is not touched by the ticks. *)
Theorem countdown_stops_at_zero (stored : nat -> bool) (clock : nat -> Z)
    (n : nat) (s : QuizSession) :
  timer s = true ->
  (0 < timeRemaining s)%Z ->
  timeRemaining (countdown stored clock n s)
  = Z.max 0 (timeRemaining s - Z.of_nat n)
  /\ timer (countdown stored clock n s) = Z.ltb (Z.of_nat n) (timeRemaining s)
  /\ attempt (countdown stored clock n s) = attempt s
  /\ currentQuiz (countdown stored clock n s) = currentQuiz s.
Proof.
  intros Htimer Hpos. induction n as [|n IH].
  - cbn [countdown]. repeat split; [lia|].
    rewrite Htimer. symmetry. apply Z.ltb_lt. lia.
  - cbn [countdown]. destruct IH as (Ht & Htm & Ha & Hq).
    destruct (timer (countdown stored clock n s)) eqn:Hc.
    + symmetry in Htm. apply Z.ltb_lt in Htm.
      destruct (tick_step (stored n) (clock n) (countdown stored clock n s))
        as (Ht' & Ha' & Hq' & Htm').
      rewrite Ht', Ha', Hq', Htm', Ht, Hc.
      repeat split; [lia| |exact Ha|exact Hq].
      destruct (Z.leb_spec (Z.max 0 (timeRemaining s - Z.of_nat n) - 1) 0);
        destruct (Z.ltb_spec (Z.of_nat (S n)) (timeRemaining s));
        lia || reflexivity.
    + symmetry in Htm. apply Z.ltb_ge in Htm.
      rewrite Ht, Hc. repeat split; [lia| |exact Ha|exact Hq].
      symmetry. apply Z.ltb_ge. lia.
Qed.

Lemma countdown_stops_at_zero_witness :
  timeRemaining (countdown (fun _ => true) (fun k => Z.of_nat k) 5
                   {| attempt := newQuiz [q_single];
                      currentQuiz := Some "q";
                      timeRemaining := 3;
                      timer := true;
                      storage := ∅ |})
  = Z.max 0 (3 - Z.of_nat 5)
  /\ timer (countdown (fun _ => true) (fun k => Z.of_nat k) 5
              {| attempt := newQuiz [q_single];
                 currentQuiz := Some "q";
                 timeRemaining := 3;
                 timer := true;
                 storage := ∅ |})
     = Z.ltb (Z.of_nat 5) 3.
Proof.
  destruct (countdown_stops_at_zero (fun _ => true) (fun k => Z.of_nat k) 5
              {| attempt := newQuiz [q_single];
                 currentQuiz := Some "q";
                 timeRemaining := 3;
                 timer := true;
                 storage := ∅ |}) as (H1 & H2 & _).
  - reflexivity.
  - reflexivity.
  - split; [exact H1|exact H2].
Defined.

Section SessionSnapshots.
Variable StringToNumber : string -> number.

(** X21: a submitted attempt cannot be resumed.  After [submitQuiz], and
    after the tick that brings the time to zero, the countdown is stopped,
    the answers have been graded as they stand, and [loadQuizState] finds no
    snapshot of the current quiz, whatever the store held and whether or not
    grading raised; the tick at zero does not autosave. *)
Theorem submit_clears_snapshot (stored : bool) (now later : Z) (name : string)
    (s : QuizSession) :
  currentQuiz s = Some name ->
  (timer (submitQuiz s).1 = false
   /\ (submitQuiz s).2
      = gradeQuiz (currentQuestions (attempt s)) (VObj (userAnswers (attempt s)))
   /\ loadQuizState StringToNumber later name (storage (submitQuiz s).1)
      = (VNull, clearQuizState name (storage s)))
  /\ (timeRemaining s = 1%Z ->
      timer (tick stored now s).1 = false
      /\ (tick stored now s).2
         = Some (gradeQuiz (currentQuestions (attempt s))
                           (VObj (userAnswers (attempt s))))
      /\ loadQuizState StringToNumber later name (storage (tick stored now s).1)
         = (VNull, clearQuizState name (storage s))).
Proof.
  intros Hq.
  assert (Hload : forall ls : gmap string item,
             loadQuizState StringToNumber later name (clearQuizState name ls)
             = (VNull, clearQuizState name ls)).
  { intros ls. apply loadQuizState_absent. unfold clearQuizState.
    apply lookup_delete_eq. }
  split.
  - unfold submitQuiz. cbn [fst snd timer storage]. rewrite Hq. cbn [quiz_name].
    repeat split. apply Hload.
  - intros Ht. unfold tick. rewrite Ht. cbn zeta. cbn [timeRemaining].
    change (1 - 1)%Z with 0%Z. change (Z.eqb (Z.rem 0 30) 0) with true.
    cbn iota.
    set (s1 := {| attempt := attempt s; currentQuiz := currentQuiz s;
                  timeRemaining := 0; timer := timer s; storage := storage s |}).
    assert (Hs : saveCurrentState stored now s1 = s1).
    { unfold saveCurrentState. subst s1. cbn [currentQuiz timeRemaining].
      destruct (currentQuiz s); [|reflexivity].
      rewrite andb_false_r. reflexivity. }
    rewrite Hs. subst s1. cbn [timeRemaining].
    change (Z.leb 0 0) with true. cbn iota.
    unfold timeUp, submitQuiz.
    cbn [fst snd timer storage currentQuiz attempt]. rewrite Hq. cbn [quiz_name].
    repeat split.
    replace (clearQuizState name (clearQuizState name (storage s)))
      with (clearQuizState name (storage s))
      by (unfold clearQuizState; rewrite delete_delete_eq; reflexivity).
    apply Hload.
Qed.

(** X22: the autosave holds what resuming needs.  When a quiz is running
    with time left, the attempt holds no [undefined] and the write goes
    through, the snapshot [saveCurrentState] stores is the one
    [loadQuizState] returns during the next 24 hours, and its fields
    [questions], [currentQuestionIndex], [userAnswers] and [timeRemaining],
    the ones [resumeQuiz] adopts, are those of the attempt; the timestamp is
    the time of the save.  Without a current quiz, or once no time is left,
    [saveCurrentState] leaves the store as it is. *)
Theorem autosave_restores_attempt (stored : bool) (now later : Z) (name : string)
    (s : QuizSession) :
  (currentQuiz s = Some name -> name <> "" -> (0 < timeRemaining s)%Z ->
   json_value (attempt_state s) = true ->
   (later - now < maxAge)%Z ->
   exists loaded,
     loadQuizState StringToNumber later name
       (storage (saveCurrentState true now s))
     = (loaded, storage (saveCurrentState true now s))
     /\ prop loaded "questions" = VArr (currentQuestions (attempt s))
     /\ prop loaded "currentQuestionIndex"
        = VNum (Z.of_nat (currentQuestionIndex (attempt s)))
     /\ prop loaded "userAnswers" = VObj (userAnswers (attempt s))
     /\ prop loaded "timeRemaining" = VNum (timeRemaining s)
     /\ prop loaded "timestamp" = VNum now)
  /\ ((currentQuiz s = None \/ currentQuiz s = Some "" \/ (timeRemaining s <= 0)%Z) ->
      storage (saveCurrentState stored now s) = storage s).
Proof.
  split.
  - intros Hq Hname Ht Hjson Hage.
    unfold saveCurrentState. rewrite Hq.
    apply String.eqb_neq in Hname. rewrite Hname.
    apply Z.ltb_lt in Ht. rewrite Ht. cbn [negb andb storage].
    exists (spread (attempt_state s) [("timestamp", VNum now)]). split.
    + apply (loadQuizState_fresh _ _ _ _ _ now).
      * unfold saveQuizState. rewrite lookup_insert_eq.
        do 2 f_equal. unfold spread, attempt_state. cbn [entries fold_left fst snd].
        apply json_copy_id.
        apply (json_value_set_prop "timestamp" (VNum now)); [reflexivity|].
        exact Hjson.
      * reflexivity.
      * exact Hage.
    + repeat split.
  - unfold saveCurrentState. intros [Hq | [Hq | Ht]].
    + rewrite Hq. reflexivity.
    + rewrite Hq. reflexivity.
    + destruct (currentQuiz s); [|reflexivity].
      apply Z.ltb_ge in Ht. rewrite Ht, andb_false_r. reflexivity.
Qed.

End SessionSnapshots.

Lemma submit_clears_snapshot_witness :
  loadQuizState (fun _ => NotANumber) 10 "q"
    (storage (submitQuiz (saveCurrentState true 5 sample_session)).1)
  = (VNull, clearQuizState "q" (storage (saveCurrentState true 5 sample_session))).
Proof.
  apply (proj1 (submit_clears_snapshot (fun _ => NotANumber) true 5 10 "q"
                  (saveCurrentState true 5 sample_session) eq_refl)).
Defined.

Lemma autosave_restores_attempt_witness :
  exists loaded,
    loadQuizState (fun _ => NotANumber) 86399999 "q"
      (storage (saveCurrentState true 0 sample_session))
    = (loaded, storage (saveCurrentState true 0 sample_session))
    /\ prop loaded "questions" = VArr (currentQuestions (attempt sample_session))
    /\ prop loaded "currentQuestionIndex"
       = VNum (Z.of_nat (currentQuestionIndex (attempt sample_session)))
    /\ prop loaded "userAnswers" = VObj (userAnswers (attempt sample_session))
    /\ prop loaded "timeRemaining" = VNum (timeRemaining sample_session)
    /\ prop loaded "timestamp" = VNum 0.
Proof.
  apply (proj1 (autosave_restores_attempt (fun _ => NotANumber) true 0 86399999
                  "q" sample_session)).
  - reflexivity.
  - discriminate.
  - reflexivity.
  - vm_compute; reflexivity.
  - unfold maxAge; lia.
Defined.

(** ** The small utilities *)





Lemma string_of_Z_nonneg (z : Z) :
  (0 <= z)%Z ->
  string_of_Z z = NilEmpty.string_of_uint (N.to_uint (Z.to_N z)).
Proof.
  intros Hz. destruct z as [|p|p]; [reflexivity | reflexivity | lia].
Qed.

Lemma read_digits_string_of_Z (z : Z) :
  (0 <= z)%Z -> read_digits (string_of_Z z) = Some (Z.to_N z).
Proof.
  intros Hz. rewrite string_of_Z_nonneg by assumption.
  unfold read_digits. rewrite NilEmpty.usu. cbn.
  now rewrite DecimalN.Unsigned.of_to.
Qed.

Lemma read_digits_cons (c : ascii) (s : string) (n : N) :
  read_digits (String c s) = Some n -> exists m, read_digits s = Some m.
Proof.
  unfold read_digits. cbn.
  destruct (NilEmpty.uint_of_string s) as [d|]; [eauto | discriminate].
Qed.

Lemma read_digits_colon (s : string) : read_digits (String ":" s) = None.
Proof.
  unfold read_digits. cbn.
  destruct (NilEmpty.uint_of_string s); reflexivity.
Qed.

Lemma read_digits_zero (s : string) :
  read_digits (String "0" s) = read_digits s.
Proof.
  unfold read_digits. cbn.
  destruct (NilEmpty.uint_of_string s); reflexivity.
Qed.

Lemma read_digits_padStart2 (s : string) (n : N) :
  read_digits s = Some n -> read_digits (padStart2 s) = Some n.
Proof.
  intros Hs. unfold padStart2.
  destruct s as [|c [|c' s]]; cbn [String.length].
  - exact Hs.
  - change ("0" +:+ String c "") with (String "0" (String c "")).
    now rewrite read_digits_zero.
  - exact Hs.
Qed.

Lemma colon_splits_digits (a b x y : string) :
  (exists n, read_digits a = Some n) ->
  (exists n, read_digits b = Some n) ->
  a +:+ String ":" x = b +:+ String ":" y -> a = b /\ x = y.
Proof.
  revert b. induction a as [|c a IH]; intros [|c' b] [n Ha] [m Hb] Heq;
    cbn in Heq.
  - injection Heq as ->. auto.
  - injection Heq as <- _. now rewrite read_digits_colon in Hb.
  - injection Heq as -> _. now rewrite read_digits_colon in Ha.
  - injection Heq as -> Heq.
    destruct (IH b (read_digits_cons _ _ _ Ha) (read_digits_cons _ _ _ Hb) Heq)
      as [-> ->].
    auto.
Qed.

(** X24: two different non-negative times never show as the same clock
    text. *)
Theorem formatTime_distinguishes (s t : Z) :
  (0 <= s <= MAX_SAFE_INTEGER)%Z -> (0 <= t <= MAX_SAFE_INTEGER)%Z ->
  s <> t -> formatTime s <> formatTime t.
Proof.
  intros [Hs _] [Ht _] Hne Heq. apply Hne. clear Hne.
  unfold formatTime in Heq. cbn zeta in Heq.
  assert (Hms : (0 <= s / 60)%Z) by (apply Z.div_pos; lia).
  assert (Hmt : (0 <= t / 60)%Z) by (apply Z.div_pos; lia).
  assert (Hrs : (0 <= Z.rem s 60)%Z) by (apply Z.rem_nonneg; lia).
  assert (Hrt : (0 <= Z.rem t 60)%Z) by (apply Z.rem_nonneg; lia).
  pose proof (read_digits_padStart2 _ _ (read_digits_string_of_Z _ Hms)) as Dms.
  pose proof (read_digits_padStart2 _ _ (read_digits_string_of_Z _ Hmt)) as Dmt.
  pose proof (read_digits_padStart2 _ _ (read_digits_string_of_Z _ Hrs)) as Drs.
  pose proof (read_digits_padStart2 _ _ (read_digits_string_of_Z _ Hrt)) as Drt.
  apply colon_splits_digits in Heq; [|eauto|eauto].
  destruct Heq as [Hm Hr].
  rewrite Hm in Dms. rewrite Hr in Drs.
  assert (Em : (s / 60 = t / 60)%Z) by (apply Z2N.inj; congruence).
  assert (Er : Z.rem s 60 = Z.rem t 60) by (apply Z2N.inj; congruence).
  rewrite !Z.rem_mod_nonneg in Er by lia.
  rewrite (Z.div_mod s 60), (Z.div_mod t 60) by lia.
  congruence.
Qed.

Lemma formatTime_distinguishes_witness : formatTime 59 <> formatTime 6000.
Proof.
  apply (formatTime_distinguishes 59 6000); unfold MAX_SAFE_INTEGER; lia.
Defined.

Lemma extension_run_dot (x y : string) :
  extension_run (x +:+ String "." y) = false.
Proof.
  induction x as [|c x IH].
  - cbn. reflexivity.
  - change (String c x +:+ String "." y) with (String c (x +:+ String "." y)).
    cbn [extension_run].
    destruct (x +:+ String "." y) eqn:E.
    + destruct x; discriminate.
    + rewrite IH. apply andb_false_r.
Qed.

Lemma extension_run_no_dot (s : string) :
  extension_run s = true -> ~ In "."%char (chars s).
Proof.
  induction s as [|c s IH]; [discriminate|].
  cbn [extension_run]. intros H.
  apply andb_prop in H as [H Hrest]. apply andb_prop in H as [_ Hdot].
  intros [->|Hin]; [discriminate|].
  destruct s as [|c' s]; [contradiction|].
  now apply IH.
Qed.

Lemma strip_extension_no_dot (s : string) :
  ~ In "."%char (chars s) -> strip_extension s = s.
Proof.
  induction s as [|c s IH]; [reflexivity|].
  intros Hno. cbn [strip_extension].
  destruct (Ascii.eqb_spec c ".") as [->|Hc].
  - exfalso. apply Hno. now left.
  - cbn [andb]. f_equal. apply IH. intros Hin. apply Hno. now right.
Qed.

Lemma strip_extension_cut (base ext : string) :
  extension_run ext = true ->
  strip_extension (base +:+ String "." ext) = base.
Proof.
  intros Hext. induction base as [|c base IH].
  - change (strip_extension (String "." ext) = "").
    cbn [strip_extension]. now rewrite Hext.
  - change (String c base +:+ String "." ext)
      with (String c (base +:+ String "." ext)).
    cbn [strip_extension].
    now rewrite extension_run_dot, andb_false_r, IH.
Qed.

Lemma chars_dashes_to_spaces (s : string) :
  chars (dashes_to_spaces s)
  = map (fun c => if Ascii.eqb c "-" then " "%char else c) (chars s).
Proof.
  induction s as [|c s IH]; [reflexivity|].
  unfold dashes_to_spaces, chars in *. cbn. now rewrite IH.
Qed.

Lemma dashes_to_spaces_no_dash (s : string) :
  ~ In "-"%char (chars (dashes_to_spaces s)).
Proof.
  rewrite chars_dashes_to_spaces. intros Hin.
  apply in_map_iff in Hin as (c & Hc & _).
  destruct (Ascii.eqb_spec c "-"); [discriminate | congruence].
Qed.

(** X25: the title of a file name with an extension (a dot followed by
    one or more characters other than dot and slash, up to the end) is the
    part before that dot with every dash turned into a space; a file name
    without a dot only has its dashes replaced.  In both cases the title
    has no dash left. *)
Theorem getQuizTitle_strips_extension (base ext filename : string) :
  (extension_run ext = true ->
   getQuizTitle (base +:+ String "." ext) = dashes_to_spaces base)
  /\ (~ In "."%char (chars filename) ->
      getQuizTitle filename = dashes_to_spaces filename)
  /\ ~ In "-"%char (chars (getQuizTitle filename)).
Proof.
  unfold getQuizTitle. repeat split.
  - intros Hext. now rewrite strip_extension_cut.
  - intros Hno. now rewrite strip_extension_no_dot.
  - apply dashes_to_spaces_no_dash.
Qed.

Lemma getQuizTitle_strips_extension_witness :
  getQuizTitle ("ITASTQB-QTEST-FL-2023-A-QA" +:+ String "." "json")
  = dashes_to_spaces "ITASTQB-QTEST-FL-2023-A-QA"
  /\ getQuizTitle "quiz-one" = dashes_to_spaces "quiz-one".
Proof.
  split.
  - apply (proj1 (getQuizTitle_strips_extension
                    "ITASTQB-QTEST-FL-2023-A-QA" "json" "quiz-one")).
    reflexivity.
  - apply (proj1 (proj2 (getQuizTitle_strips_extension
                           "ITASTQB-QTEST-FL-2023-A-QA" "json" "quiz-one"))).
    vm_compute. intros H. repeat destruct H as [H|H]; try discriminate H.
    exact H.
Defined.

Lemma quiz_letter_step (c : ascii) (r : string) :
  Ascii.eqb c "-" = false -> quiz_letter (String c r) = quiz_letter r.
Proof.
  intros Hc. cbn [quiz_letter]. rewrite Hc.
  destruct r as [|l [|d r]]; reflexivity.
Qed.

Lemma quiz_letter_no_dash (s : string) :
  ~ In "-"%char (chars s) -> quiz_letter s = None.
Proof.
  induction s as [|c s IH]; [reflexivity|].
  intros Hno. rewrite quiz_letter_step.
  - apply IH. intros Hin. apply Hno. now right.
  - destruct (Ascii.eqb_spec c "-") as [->|]; [|reflexivity].
    exfalso. apply Hno. now left.
Qed.

(** X26: a quiz title never yields an image path: the letter is looked for
    between two dashes, and a title has none.  The controller names every
    quiz it loads from a file by [getQuizTitle] of the file name and asks
    for the images of the current quiz under that name, so for those
    quizzes [getQuestionImagePath] answers [null] at every question. *)
Theorem no_image_for_a_title (filename : string) (questionNumber : value) :
  getQuestionImagePath (getQuizTitle filename) questionNumber = Ok VNull.
Proof.
  unfold getQuestionImagePath.
  rewrite quiz_letter_no_dash; [reflexivity|].
  apply dashes_to_spaces_no_dash.
Qed.

Lemma quiz_letter_found (s : string) (l : ascii) :
  quiz_letter s = Some l ->
  exists before rest,
    quiz_letter_char l = true
    /\ s = before +:+ String "-" (String l (String "-" rest)).
Proof.
  induction s as [|c s IH]; [discriminate|].
  cbn [quiz_letter]. intros H.
  assert (Hcase :
    (exists d rest, s = String l (String d rest)
       /\ (Ascii.eqb c "-" && quiz_letter_char l && Ascii.eqb d "-") = true)
    \/ quiz_letter s = Some l).
  { destruct s as [|l' [|d rest]]; [now right | now right |].
    destruct (Ascii.eqb c "-" && quiz_letter_char l' && Ascii.eqb d "-") eqn:E.
    - injection H as ->. left. eauto.
    - now right. }
  destruct Hcase as [(d & rest & -> & E)|Hrec].
  - apply andb_prop in E as [E Hd]. apply andb_prop in E as [Hc Hl].
    apply Ascii.eqb_eq in Hc as ->. apply Ascii.eqb_eq in Hd as ->.
    exists "", rest. auto.
  - destruct (IH Hrec) as (before & rest & Hl & ->).
    exists (String c before), rest. auto.
Qed.

Lemma quiz_letter_present (before rest : string) (l : ascii) :
  quiz_letter_char l = true ->
  quiz_letter (before +:+ String "-" (String l (String "-" rest))) <> None.
Proof.
  intros Hl. induction before as [|c before IH].
  - change (quiz_letter (String "-" (String l (String "-" rest))) <> None).
    cbn [quiz_letter]. rewrite Hl. discriminate.
  - change (String c before +:+ String "-" (String l (String "-" rest)))
      with (String c (before +:+ String "-" (String l (String "-" rest)))).
    cbn [quiz_letter].
    destruct (before +:+ String "-" (String l (String "-" rest)))
      as [|l' [|d r]] eqn:E; try exact IH.
    destruct (Ascii.eqb c "-" && quiz_letter_char l' && Ascii.eqb d "-");
      [discriminate | exact IH].
Qed.

(** X27: [getQuestionImagePath] answers [null] exactly for the quiz names
    in which none of the letters A to D stands between two dashes.  For
    the other names it converts the question number to text: when that
    conversion returns, the two candidate paths lie in the folder named by
    a letter of such an occurrence, and when it raises (the number is an
    object with a toString of its own) so does [getQuestionImagePath]. *)
Theorem getQuestionImagePath_iff_letter (quizName : string)
    (questionNumber : value) :
  (has_quiz_letter quizName <->
   getQuestionImagePath quizName questionNumber <> Ok VNull)
  /\ (has_quiz_letter quizName ->
      forall number,
        toStr questionNumber = Ok number ->
        exists (before : string) (l : ascii) (rest : string),
          quiz_letter_char l = true
          /\ quizName = before +:+ String "-" (String l (String "-" rest))
          /\ getQuestionImagePath quizName questionNumber
             = Ok (VObj [("primary",
                          VStr ("img/" +:+ String l "" +:+ "/" +:+ number
                                +:+ ".png"));
                         ("alternative",
                          VStr ("img/" +:+ String l "" +:+ "/" +:+ String l ""
                                +:+ number +:+ ".png"))]))
  /\ (has_quiz_letter quizName ->
      toStr questionNumber = TypeError ->
      getQuestionImagePath quizName questionNumber = TypeError).
Proof.
  unfold getQuestionImagePath, has_quiz_letter.
  assert (Hletter : (exists before l rest,
                        quiz_letter_char l = true
                        /\ quizName
                           = before +:+ String "-" (String l (String "-" rest)))
                    -> exists l, quiz_letter quizName = Some l).
  { intros (before & l & rest & Hl & ->).
    pose proof (quiz_letter_present before rest l Hl) as Hp.
    destruct (quiz_letter _) as [l'|]; [eauto|contradiction]. }
  split; [split|split].
  - intros H. destruct (Hletter H) as [l ->].
    destruct (toStr questionNumber); discriminate.
  - destruct (quiz_letter quizName) as [l|] eqn:E; [|contradiction].
    intros _. destruct (quiz_letter_found _ _ E) as (before & rest & Hl & ->).
    eauto.
  - intros H number Hnumber. destruct (Hletter H) as [l E]. rewrite E, Hnumber.
    destruct (quiz_letter_found _ _ E) as (before & rest & Hl & Heq).
    exists before, l, rest. repeat split; assumption.
  - intros H Hraise. destruct (Hletter H) as [l ->]. rewrite Hraise. reflexivity.
Qed.

Lemma getQuestionImagePath_iff_letter_witness :
  getQuestionImagePath "ITASTQB-QTEST-FL-2023-B-QA" (VNum 12) <> Ok VNull
  /\ getQuestionImagePath "ITASTQB-QTEST-FL-2023-B-QA"
                          (VObj [("toString", VNum 1)]) = TypeError.
Proof.
  assert (H : has_quiz_letter "ITASTQB-QTEST-FL-2023-B-QA").
  { exists "ITASTQB-QTEST-FL-2023", "B"%char, "QA". split; reflexivity. }
  split.
  - apply (proj1 (proj1 (getQuestionImagePath_iff_letter
                           "ITASTQB-QTEST-FL-2023-B-QA" (VNum 12)))).
    exact H.
  - apply (proj2 (proj2 (getQuestionImagePath_iff_letter
                           "ITASTQB-QTEST-FL-2023-B-QA"
                           (VObj [("toString", VNum 1)])))).
    + exact H.
    + reflexivity.
Defined.

(** The paths proposed for question 12 of quiz B. *)
Example image_paths_of_quiz_B :
  getQuestionImagePath "ITASTQB-QTEST-FL-2023-B-QA" (VNum 12)
  = Ok (VObj [("primary", VStr "img/B/12.png");
              ("alternative", VStr "img/B/B12.png")]).
Proof. vm_compute; reflexivity. Qed.

(** ** Option texts of a prepared question *)






(** ** Every order can come out of the shuffle *)

Section ShuffleReach.
Context {A : Type}.

Lemma shuffle_from_ext (d1 d2 : nat -> nat) (i : nat) (a : list A) :
  (forall k, 1 <= k <= i -> d1 k = d2 k) ->
  shuffle_from d1 i a = shuffle_from d2 i a.
Proof.
  revert a. induction i as [|i IH]; intros a Hd; [reflexivity|].
  cbn [shuffle_from]. rewrite (Hd (S i)) by lia.
  apply IH. intros k Hk. apply Hd. lia.
Qed.

Lemma swap_app_l (i j : nat) (a suffix : list A) :
  i < length a -> j < length a ->
  swap i j (a ++ suffix) = swap i j a ++ suffix.
Proof.
  intros Hi Hj. unfold swap.
  rewrite !lookup_app_l by assumption.
  destruct (a !! i) as [xi|]; [|reflexivity].
  destruct (a !! j) as [xj|]; [|reflexivity].
  rewrite insert_app_l by assumption.
  rewrite insert_app_l by (rewrite length_insert; assumption).
  reflexivity.
Qed.

Lemma swap_brings_last (m j : nat) (a : list A) (x : A) :
  length a = S m -> a !! j = Some x ->
  exists front, swap m j a = front ++ [x] /\ length front = m.
Proof.
  intros Hlen Hj.
  pose proof (lookup_lt_Some _ _ _ Hj) as Hjlt.
  assert (Hlast : swap m j a !! m = Some x).
  { unfold swap.
    destruct (a !! m) as [xm|] eqn:Hm;
      [|apply lookup_ge_None in Hm; lia].
    rewrite Hj.
    destruct (decide (j = m)) as [->|Hne].
    - rewrite list_lookup_insert_eq by (rewrite length_insert; lia).
      congruence.
    - rewrite list_lookup_insert_ne by exact Hne.
      apply list_lookup_insert_eq. lia. }
  exists (take m (swap m j a)). split.
  - rewrite <- (take_drop_middle _ _ _ Hlast) at 1.
    rewrite drop_ge by (rewrite swap_length; lia).
    reflexivity.
  - rewrite length_take, swap_length. lia.
Qed.

Lemma shuffle_from_reaches (n : nat) :
  forall (cur target suffix : list A),
    length cur = n -> cur ≡ₚ target ->
    exists draws,
      shuffle_from draws (n - 1) (cur ++ suffix) = target ++ suffix.
Proof.
  induction n as [|m IH]; intros cur target suffix Hlen Hperm.
  - destruct cur; [|discriminate].
    apply Permutation_nil in Hperm as ->.
    exists (fun _ => 0). reflexivity.
  - assert (Htl : length target = S m)
      by (rewrite <- Hlen; symmetry; apply Permutation_length, Hperm).
    destruct (rev target) as [|x rfront] eqn:Hrev.
    { apply (f_equal (@length A)) in Hrev.
      rewrite length_rev, Htl in Hrev. discriminate. }
    assert (Htarget : target = rev rfront ++ [x]).
    { rewrite <- (rev_involutive target), Hrev. reflexivity. }
    subst target.
    assert (Hx : x ∈ cur).
    { rewrite Hperm. apply elem_of_app. right. apply list_elem_of_singleton.
      reflexivity. }
    apply list_elem_of_lookup_1 in Hx as [j Hj].
    pose proof (lookup_lt_Some _ _ _ Hj) as Hjlt.
    destruct (swap_brings_last m j cur x Hlen Hj) as (front & Hswap & Hfl).
    assert (Hfront : front ≡ₚ rev rfront).
    { apply (Permutation_app_inv_r [x]).
      rewrite <- Hswap, <- Hperm. apply swap_Permutation. }
    destruct (IH front (rev rfront) ([x] ++ suffix) Hfl Hfront)
      as [draws' Hdraws'].
    destruct m as [|m'].
    + exists (fun _ => 0). cbn [Nat.sub shuffle_from].
      destruct front; [|discriminate].
      apply Permutation_nil in Hfront. rewrite Hfront.
      destruct cur as [|y [|]]; try discriminate.
      destruct j; [|discriminate].
      cbn in Hj. injection Hj as ->. reflexivity.
    + exists (fun k => if Nat.eqb k (S m') then j else draws' k).
      replace (S (S m') - 1) with (S m') by lia.
      cbn [shuffle_from]. rewrite Nat.eqb_refl.
      unfold random_index.
      rewrite Nat.mod_small by lia.
      rewrite swap_app_l by lia.
      rewrite Hswap, <- !app_assoc.
      replace (S m' - 1) with m' in Hdraws' by lia.
      rewrite <- Hdraws'.
      apply shuffle_from_ext. intros k Hk.
      destruct (Nat.eqb_spec k (S m')); [lia | reflexivity].
Qed.

End ShuffleReach.

(** X29: every order of the array can come out of the shuffle: for each
    rearrangement of the elements there is a sequence of draws with which
    [shuffleArray] returns it. *)
Theorem shuffleArray_reaches_every_order {A : Type} (array target : list A) :
  array ≡ₚ target -> exists draws, shuffleArray draws array = target.
Proof.
  intros Hperm. unfold shuffleArray.
  destruct (shuffle_from_reaches (length array) array target [] eq_refl Hperm)
    as [draws Hdraws].
  exists draws. now rewrite !app_nil_r in Hdraws.
Qed.

Lemma shuffleArray_reaches_every_order_witness :
  exists draws, shuffleArray draws [1; 2; 3] = [3; 1; 2].
Proof.
  apply (shuffleArray_reaches_every_order [1; 2; 3] [3; 1; 2]).
  change [3; 1; 2] with ([3] ++ [1; 2]).
  change [1; 2; 3] with ([1; 2] ++ [3]).
  apply Permutation_app_comm.
Defined.

(** ** Restarting a quiz *)

(** X30: restarting the current quiz.  For a bank of accepted questions
    [restartQuiz] returns a session on the same quiz with as many questions
    as the bank, no answer, the first question current and 3600 seconds on
    the clock; the snapshot of that quiz is gone, so that [loadQuizState]
    finds nothing to resume, and the snapshots of other quizzes are kept. *)
Theorem restartQuiz_starts_over (StringToNumber : string -> number)
    (draws : nat -> nat) (optionDraws : nat -> nat -> nat)
    (questions : list value) (s : QuizSession) (name : string) (now : Z) :
  currentQuiz s = Some name ->
  Forall (fun q => isValid (validateQuestion q 0) = true) questions ->
  exists s',
    restartQuiz draws optionDraws questions s = Ok s'
    /\ currentQuiz s' = Some name
    /\ length (currentQuestions (attempt s')) = length questions
    /\ currentQuestionIndex (attempt s') = 0
    /\ userAnswers (attempt s') = []
    /\ timeRemaining s' = 3600%Z
    /\ loadQuizState StringToNumber now name (storage s') = (VNull, storage s')
    /\ forall other, other <> name ->
         storage s' !! ("quiz_" +:+ other) = storage s !! ("quiz_" +:+ other).
Proof.
  intros Hname Hall. unfold restartQuiz, initializeNewQuiz. rewrite Hname.
  assert (Hshuffled : Forall (fun q => passes_checks q = true)
                             (shuffleArray draws questions)).
  { rewrite (shuffleArray_Permutation draws questions).
    eapply Forall_impl; [exact Hall|]. intros q Hq. cbn beta in Hq.
    rewrite validateQuestion_isValid in Hq. exact Hq. }
  destruct (prepare_each_accepted optionDraws _ Hshuffled 0)
    as (prepared & Hprep & Hrel & _).
  rewrite Hprep. cbn [mbind result_bind].
  eexists. split; [reflexivity|].
  cbn [attempt newQuiz currentQuestions currentQuestionIndex userAnswers
       currentQuiz timeRemaining timer storage].
  split; [reflexivity|]. split.
  { rewrite <- (Forall2_length _ _ _ Hrel). apply shuffleArray_length. }
  do 3 (split; [reflexivity|]). split.
  - apply loadQuizState_absent. unfold clearQuizState. apply lookup_delete_eq.
  - intros other Hne. unfold clearQuizState. apply lookup_delete_ne.
    intros Heq. apply Hne. symmetry. exact (quiz_key_inj _ _ Heq).
Qed.

Lemma restartQuiz_starts_over_witness :
  exists s',
    restartQuiz (fun i => i) (fun i j => i + j) [q_single; q_legacy]
      (saveCurrentState true 5 sample_session) = Ok s'
    /\ currentQuiz s' = Some "q"
    /\ length (currentQuestions (attempt s')) = length [q_single; q_legacy]
    /\ currentQuestionIndex (attempt s') = 0
    /\ userAnswers (attempt s') = []
    /\ timeRemaining s' = 3600%Z
    /\ loadQuizState (fun _ => NotANumber) 10 "q" (storage s')
       = (VNull, storage s')
    /\ forall other, other <> "q" ->
         storage s' !! ("quiz_" +:+ other)
         = storage (saveCurrentState true 5 sample_session)
             !! ("quiz_" +:+ other).
Proof.
  apply (restartQuiz_starts_over (fun _ => NotANumber) (fun i => i)
           (fun i j => i + j) [q_single; q_legacy]
           (saveCurrentState true 5 sample_session) "q" 10).
  - reflexivity.
  - repeat constructor.
Defined.
